(** * Ticket authorization and request gateway of the AFIP SDK

    A shallow embedding of [Afip.prototype.GetServiceTA],
    [Afip.prototype.CreateServiceTA], [S3Connection] and the
    [executeRequest] / [getWSInitialRequest] / [_checkErrors] methods of
    the two billing classes, with the properties the design document
    states about them.

    JavaScript values are a small inductive type; the asynchronous code is
    sequential (every promise is awaited where it is created), so it is
    written in an error monad that also records the effects performed. *)

From Stdlib Require Import ZArith List String Ascii Bool Lia DecimalString.
From ExtLib Require Import Structures.Monad Structures.MonadExc.
Import ListNotations.
Import MonadNotation.
Local Open Scope string_scope.
Local Open Scope Z_scope.
Local Open Scope monad_scope.

(* ===================================================================== *)
(** ** JavaScript values *)
(* ===================================================================== *)

Module JS.

(** A time value or an integer code.  Fractions and infinities do not occur
    in the data the modelled code inspects (error codes, millisecond
    timestamps), [NaN] does: it is the time value of an invalid [Date]. *)
Inductive number : Type :=
| Num (z : Z)
| NaN.

(** Values as they come out of [JSON.parse], the XML parser and the SOAP
    client, plus [Error] instances, which are what most rejections carry.
    An object is the list of its own properties in insertion order. *)
#[warnings="-register-all"]
Inductive value : Type :=
| VUndefined
| VNull
| VBool (b : bool)
| VNumber (n : number)
| VString (s : string)
| VArray (items : list value)
| VObject (fields : list (string * value))
| VError (name message : string).

(** The result of evaluating an expression: a value, or a thrown value. *)
Inductive completion (A : Type) : Type :=
| Returns (a : A)
| Throws (e : value).
Arguments Returns {A} a.
Arguments Throws {A} e.

#[export] Instance Monad_completion : Monad completion :=
  {| ret := fun _ a => Returns a;
     bind := fun _ _ c k =>
       match c with
       | Returns a => k a
       | Throws e => Throws e
       end |}.

#[export] Instance Exc_completion : MonadExc value completion :=
  {| raise := fun _ e => Throws e;
     catch := fun _ c handler =>
       match c with
       | Returns a => Returns a
       | Throws e => handler e
       end |}.

Definition show_Z (z : Z) : string := NilZero.string_of_int (Z.to_int z).

Definition show_number (n : number) : string :=
  match n with
  | Num z => show_Z z
  | NaN => "NaN"
  end.

Definition nullish (v : value) : bool :=
  match v with
  | VUndefined | VNull => true
  | _ => false
  end.

Fixpoint join (sep : string) (parts : list string) : string :=
  match parts with
  | [] => ""
  | [p] => p
  | p :: rest => p ++ sep ++ join sep rest
  end.

(** [String(v)], as a template literal applies it.  An array prints its
    elements separated by commas, with nothing for [null] and [undefined];
    a plain object prints as [[object Object]]. *)
Fixpoint to_string (v : value) : string :=
  match v with
  | VUndefined => "undefined"
  | VNull => "null"
  | VBool true => "true"
  | VBool false => "false"
  | VNumber n => show_number n
  | VString s => s
  | VArray items =>
      join "," (map (fun x => if nullish x then "" else to_string x) items)
  | VObject _ => "[object Object]"
  | VError name message =>
      if String.eqb name "" then message
      else if String.eqb message "" then name
      else name ++ ": " ++ message
  end.

(** [Boolean(v)]: the test of an [if], of [&&] and of [?:]. *)
Definition to_boolean (v : value) : bool :=
  match v with
  | VUndefined | VNull => false
  | VBool b => b
  | VNumber (Num z) => negb (z =? 0)
  | VNumber NaN => false
  | VString s => negb (String.eqb s "")
  | VArray _ | VObject _ | VError _ _ => true
  end.

Definition is_array (v : value) : bool :=
  match v with
  | VArray _ => true
  | _ => false
  end.

(** [v === 'literal']: only a string can be strictly equal to a string. *)
Definition strict_eq_string (v : value) (literal : string) : bool :=
  match v with
  | VString s => String.eqb s literal
  | _ => false
  end.

Definition type_error (base : value) (key : string) : value :=
  VError "TypeError"
    ("Cannot read properties of " ++ to_string base
       ++ " (reading '" ++ key ++ "')").

Fixpoint lookup (key : string) (fields : list (string * value)) : option value :=
  match fields with
  | [] => None
  | (k, v) :: rest => if String.eqb k key then Some v else lookup key rest
  end.

(** [base.key] for the property names the sources use: identifiers that are
    neither array indices nor defined on a builtin prototype, so that
    reading one from an array or a primitive gives [undefined].  Reading
    from [undefined] or [null] throws. *)
Definition get (base : value) (key : string) : completion value :=
  match base with
  | VUndefined | VNull => Throws (type_error base key)
  | VObject fields =>
      match lookup key fields with
      | Some v => Returns v
      | None => Returns VUndefined
      end
  | VError name message =>
      if String.eqb key "message" then Returns (VString message)
      else if String.eqb key "name" then Returns (VString name)
      else Returns VUndefined
  | VBool _ | VNumber _ | VString _ | VArray _ => Returns VUndefined
  end.

(** [base[i]] for a literal index: an element of an array, a character of
    a string, the property named by the digits on an object. *)
Definition get_index (base : value) (i : nat) : completion value :=
  match base with
  | VUndefined | VNull => Throws (type_error base (show_Z (Z.of_nat i)))
  | VArray items => Returns (nth i items VUndefined)
  | VString s =>
      match String.get i s with
      | Some c => Returns (VString (String c EmptyString))
      | None => Returns VUndefined
      end
  | VObject fields =>
      match lookup (show_Z (Z.of_nat i)) fields with
      | Some v => Returns v
      | None => Returns VUndefined
      end
  | VBool _ | VNumber _ | VError _ _ => Returns VUndefined
  end.

(** [fields] after [obj.key = v]: an existing property keeps its place, a
    new one goes last. *)
Fixpoint assign (key : string) (v : value) (fields : list (string * value))
  : list (string * value) :=
  match fields with
  | [] => [(key, v)]
  | (k, old) :: rest =>
      if String.eqb k key then (k, v) :: rest
      else (k, old) :: assign key v rest
  end.

(** [base.key = v], giving the object as it is afterwards.  The methods are
    class bodies, hence strict code, where assigning to a property of a
    primitive throws; arrays carry no named properties in this model. *)
Definition set (base : value) (key : string) (v : value) : completion value :=
  match base with
  | VObject fields => Returns (VObject (assign key v fields))
  | _ =>
      Throws (VError "TypeError"
                ("Cannot create property '" ++ key ++ "' on " ++ to_string base))
  end.

(** [Object.assign(target, source)] on the own properties of two objects. *)
Definition Object_assign (target source : list (string * value))
  : list (string * value) :=
  fold_left (fun acc kv => assign (fst kv) (snd kv) acc) source target.

(** The largest time value, in milliseconds either side of the epoch. *)
Definition max_time : Z := 8640000000000000.

(** [TimeClip]: a number beyond [max_time] is not a time. *)
Definition TimeClip (n : number) : number :=
  match n with
  | Num t => if Z.abs t <=? max_time then Num t else NaN
  | NaN => NaN
  end.

(** [a < b] on two [Date] objects compares their time values, and is false
    when either is invalid. *)
Definition date_lt (a b : number) : bool :=
  match a, b with
  | Num x, Num y => x <? y
  | _, _ => false
  end.

Definition number_is_zero (n : number) : bool :=
  match n with
  | Num z => z =? 0
  | NaN => false
  end.

End JS.
Export JS.

(* ===================================================================== *)
(** ** Effects *)
(* ===================================================================== *)

(** What the code does to the outside world, in the order it does it. *)
Inductive event : Type :=
| ConsoleLog (v : value)
| DateNow
| GetObject (bucket key : string)
| PutObject (bucket key : string) (body : option string)
| FsReadFile (path : string)
| SoapCreateClient (wsdl endpoint : string)
| LoginCms (in0 : string)
| SoapOperation (service operation : string) (params : value).

(** The login ticket request of [CreateServiceTA]: the four values the XML
    template interpolates (times in milliseconds, before [toISOString]). *)
Record LoginTicketRequest : Type := {
  uniqueId : Z;
  generationTime : Z;
  expirationTime : Z;
  tra_service : string
}.

(** Library functions the sources call and that have no effect: they are
    parameters of the development. *)
Record Lib : Type := {
  (** the number a string converts to, as [==] and unary [+] compute it *)
  StringToNumber : string -> number;
  (** [Date.parse] *)
  Date_parse : string -> number;
  (** [JSON.parse]; throws a [SyntaxError] on text that is not JSON *)
  JSON_parse : string -> completion value;
  (** [JSON.stringify]; [None] is the [undefined] it gives for [undefined] *)
  JSON_stringify : value -> option string;
  (** [xmlParser.parseStringPromise] of xml2js *)
  parseStringPromise : value -> completion value;
  (** the node-forge calls of [CreateServiceTA], lines 1204 to 1225: the
      base64 PKCS#7 signed data of a request, under a certificate and a key,
      with a signing time *)
  pkcs7_sign : LoginTicketRequest -> string -> string -> Z -> completion string
}.

(** The outside world: each answer may depend on everything done so far.
    [s3_GetObject] answers [None] for a response without [Body] and
    otherwise what [Body.transformToString()] resolves or rejects with.
    [soap_operation] is [AfipWebService.prototype.executeRequest], the SOAP
    transport the billing classes inherit, which is not among the
    sources. *)
Record World : Type := {
  Date_now : list event -> Z;
  s3_GetObject : list event -> string -> string
                 -> completion (option (completion string));
  s3_PutObject : list event -> string -> string -> option string
                 -> completion unit;
  fs_readFile : list event -> string -> completion string;
  soap_createClientAsync : list event -> string -> string -> completion unit;
  soap_loginCmsAsync : list event -> string -> completion value;
  soap_operation : list event -> string -> string -> value -> completion value
}.

(** A computation runs after a history of events and gives a completion
    together with the events it added; [None] is a recursion that was cut
    off before it finished. *)
Definition M (A : Type) : Type :=
  list event -> option (completion A) * list event.

Definition run {A} (m : M A) (history : list event)
  : option (completion A) * list event := m history.

Definition M_ret {A} (a : A) : M A := fun _ => (Some (Returns a), []).

Definition M_bind {A B} (m : M A) (k : A -> M B) : M B :=
  fun history =>
    match m history with
    | (Some (Returns a), added) =>
        let (r, more) := k a (history ++ added)%list in (r, (added ++ more)%list)
    | (Some (Throws e), added) => (Some (Throws e), added)
    | (None, added) => (None, added)
    end.

Definition M_throw {A} (e : value) : M A := fun _ => (Some (Throws e), []).

(** [try { m } catch (e) { handler(e) }], also [m.catch(handler)]. *)
Definition M_catch {A} (m : M A) (handler : value -> M A) : M A :=
  fun history =>
    match m history with
    | (Some (Throws e), added) =>
        let (r, more) := handler e (history ++ added)%list in
        (r, (added ++ more)%list)
    | other => other
    end.

#[export] Instance Monad_M : Monad M :=
  {| ret := @M_ret; bind := @M_bind |}.

#[export] Instance Exc_M : MonadExc value M :=
  {| raise := @M_throw; catch := @M_catch |}.

(** An expression evaluated without effect. *)
Definition lift {A} (c : completion A) : M A := fun _ => (Some c, []).

(** An effect with its answer from the world. *)
Definition perform {A} (ev : event) (answer : list event -> completion A)
  : M A :=
  fun history => (Some (answer history), [ev]).

Definition out_of_fuel {A} : M A := fun _ => (None, []).

Definition console_log (v : value) : M unit :=
  perform (ConsoleLog v) (fun _ => Returns tt).

(* ===================================================================== *)
(** ** Conversions that depend on the library *)
(* ===================================================================== *)

Section Conversions.

Context (L : Lib).

(** [Number(v)], which is also unary [+v].  An object or an array converts
    through its string. *)
Definition to_number (v : value) : number :=
  match v with
  | VUndefined => NaN
  | VNull => Num 0
  | VBool b => Num (if b then 1 else 0)
  | VNumber n => n
  | VString s => StringToNumber L s
  | VArray _ | VObject _ | VError _ _ => StringToNumber L (to_string v)
  end.

(** [v != 0]: [undefined] and [null] equal nothing but each other, anything
    else is compared as a number. *)
Definition loose_neq_zero (v : value) : bool :=
  match v with
  | VUndefined | VNull => true
  | _ => negb (number_is_zero (to_number v))
  end.

(** The time value of [new Date(v)]: a string is parsed, as is the string of
    an object or an array; anything else converts to a number. *)
Definition new_Date (v : value) : number :=
  TimeClip
    match v with
    | VString s => Date_parse L s
    | VArray _ | VObject _ | VError _ _ => Date_parse L (to_string v)
    | VUndefined | VNull | VBool _ | VNumber _ => to_number v
    end.

End Conversions.

(* ===================================================================== *)
(** ** S3Connection.js *)
(* ===================================================================== *)

Module S3Connection.
Section Methods.

Context (L : Lib) (W : World).

(** [this.bucket], fixed by the constructor. *)
Definition bucket : string := "rollosnp-resources".

Definition writeFileS3 (fileName : string) (body : option string) : M unit :=
  catch
    (perform (PutObject bucket fileName body)
       (fun history => s3_PutObject W history bucket fileName body))
    (fun e => console_log e ;; raise e).

Definition readFileS3 (fileName : string) : M value :=
  catch
    (response <- perform (GetObject bucket fileName)
                   (fun history => s3_GetObject W history bucket fileName) ;;
     match response with
     | Some Body =>
         token <- lift Body ;;
         if to_boolean (VString token) then lift (JSON_parse L token)
         else ret VNull
     | None => raise (VString "No fue posible acceder a al archivo afip token")
     end)
    (fun e => console_log e ;; raise e).

End Methods.
End S3Connection.

(** The [S3Connection] class of the source file whose name is not known
    (bucket and folder given to the constructor).  Its [readFileS3] keeps
    quiet about a missing object and resolves to [undefined]. *)
Module S3Connection_part_000.
Section Methods.

Context (L : Lib) (W : World) (bucket folder : string).

Definition writeFileS3 (fileName : string) (body : option string) : M unit :=
  catch
    (perform (PutObject bucket (folder ++ fileName) body)
       (fun history => s3_PutObject W history bucket (folder ++ fileName) body))
    (fun e => console_log e ;; raise e).

Definition readFileS3 (fileName : string) : M value :=
  catch
    (response <- perform (GetObject bucket (folder ++ fileName))
                   (fun history =>
                      s3_GetObject W history bucket (folder ++ fileName)) ;;
     match response with
     | Some Body =>
         token <- lift Body ;;
         if to_boolean (VString token) then lift (JSON_parse L token)
         else ret VNull
     | None => raise (VString "No fue posible acceder a al archivo afip token")
     end)
    (fun e =>
       name <- lift (get e "name") ;;
       if negb (strict_eq_string name "NoSuchKey") then raise e
       else ret VUndefined).

End Methods.
End S3Connection_part_000.

(* ===================================================================== *)
(** ** index.js: the Afip object *)
(* ===================================================================== *)

(** The fields of an [Afip] instance the modelled methods read.  The
    constructor has made [options.production] a boolean. *)
Record Options : Type := {
  CUIT : value;
  production : bool;
  CERT : string;
  PRIVATEKEY : string;
  WSAA_WSDL : string
}.

Definition WSAA_URL (afip : Options) : string :=
  if production afip then "https://wsaa.afip.gov.ar/ws/services/LoginCms"
  else "https://wsaahomo.afip.gov.ar/ws/services/LoginCms".

(** What [GetServiceTA] resolves to. *)
Record TA : Type := { token : value; sign : value }.

(** The name of the stored ticket, by the template of lines 1124 and 1246. *)
Definition taFilePath (afip : Options) (service : string) : string :=
  "TA-" ++ to_string (CUIT afip) ++ "-" ++ service
    ++ (if production afip then "-production" else "") ++ ".json".

Section Afip.

Context (L : Lib) (W : World) (afip : Options).

Definition Date_now_ : M Z :=
  perform DateNow (fun history => Returns (Date_now W history)).

Definition readFile (path : string) : M string :=
  perform (FsReadFile path) (fun history => fs_readFile W history path).

(** Runs [m] and hands back its completion instead of throwing: a promise
    that is created now and awaited later. *)
Definition settle {A} (m : M A) : M (completion A) :=
  catch (a <- m ;; ret (Returns a)) (fun e => ret (Throws e)).

(** [CreateServiceTA], lines 1176 to 1254.  Both files are read before
    either result is awaited; the signing calls are [pkcs7_sign]. *)
Definition CreateServiceTA (service : string) : M unit :=
  date <- Date_now_ ;;
  let tra := {| uniqueId := date / 1000;
                generationTime := date - 600000;
                expirationTime := date + 600000;
                tra_service := service |} in
  certPromise <- settle (readFile (CERT afip)) ;;
  keyPromise <- settle (readFile (PRIVATEKEY afip)) ;;
  cert <- lift certPromise ;;
  key <- lift keyPromise ;;
  signingTime <- Date_now_ ;;
  signedTRA <- lift (pkcs7_sign L tra cert key signingTime) ;;
  perform (SoapCreateClient (WSAA_WSDL afip) (WSAA_URL afip))
    (fun history =>
       soap_createClientAsync W history (WSAA_WSDL afip) (WSAA_URL afip)) ;;
  loginCmsResult <- perform (LoginCms signedTRA)
                      (fun history => soap_loginCmsAsync W history signedTRA) ;;
  loginCmsReturn <- lift (get loginCmsResult "loginCmsReturn") ;;
  res <- lift (parseStringPromise L loginCmsReturn) ;;
  let taFileName := taFilePath afip service in
  loginticketresponse <- lift (get res "loginticketresponse") ;;
  catch
    (S3Connection.writeFileS3 W taFileName
       (JSON_stringify L loginticketresponse))
    (fun _ => raise VUndefined).

(** Lines 1127 to 1137: the stored ticket, or [null].  [readFile] is the
    [readFileS3] of the connection. *)
Definition read_ticket (readFile : string -> M value) (service : string)
  : M value :=
  catch
    (readFile (taFilePath afip service))
    (fun e =>
       console_log e ;;
       message <- lift (get e "message") ;;
       if strict_eq_string (VBool (negb (to_boolean message)))
            "The specified key does not exist."
       then raise e
       else ret VNull).

(** [new Date(afipDataToken.header[1].expirationtime)], line 1143. *)
Definition expirationTime_of (afipDataToken : value) : completion number :=
  header <- get afipDataToken "header" ;;
  second <- get_index header 1 ;;
  expirationtime <- get second "expirationtime" ;;
  ret (new_Date L expirationtime).

(** The object literal of lines 1147 to 1150. *)
Definition credentials_of (afipDataToken : value) : completion TA :=
  credentials <- get afipDataToken "credentials" ;;
  token <- get credentials "token" ;;
  credentials <- get afipDataToken "credentials" ;;
  sign <- get credentials "sign" ;;
  ret {| token := token; sign := sign |}.

(** Lines 1140 to 1152: the token and sign of a ticket that is good for
    more than ten minutes, or nothing when the code falls through. *)
Definition usable_ticket (afipDataToken : value) : M (option TA) :=
  if to_boolean afipDataToken then
    now <- Date_now_ ;;
    let actualTime := TimeClip (Num (now + 600000)) in
    expirationTime <- lift (expirationTime_of afipDataToken) ;;
    if date_lt actualTime expirationTime then
      ta <- lift (credentials_of afipDataToken) ;;
      ret (Some ta)
    else ret None
  else ret None.

(** Lines 1154 to 1165, with [self] for the call of [GetServiceTA]. *)
Definition refresh (self : string -> bool -> M TA)
    (service : string) (firstTry : bool) : M TA :=
  if negb firstTry then
    raise (VError "Error" "Error getting Token Autorization")
  else
    catch (CreateServiceTA service)
      (fun err =>
         raise (VError "Error"
                  ("Error getting Token Autorization " ++ to_string err))) ;;
    self service false.

(** [GetServiceTA] with a bound on the depth of its recursion. *)
Fixpoint GetServiceTA_rec (fuel : nat) (service : string) (firstTry : bool)
  : M TA :=
  match fuel with
  | O => out_of_fuel
  | S fuel' =>
      afipDataToken <- read_ticket (S3Connection.readFileS3 L W) service ;;
      found <- usable_ticket afipDataToken ;;
      match found with
      | Some ta => ret ta
      | None => refresh (GetServiceTA_rec fuel') service firstTry
      end
  end.

(** [GetServiceTA]: two levels are all the recursion ever uses
    (lemma [GetServiceTA_rec_fuel] below). *)
Definition GetServiceTA (service : string) (firstTry : bool) : M TA :=
  GetServiceTA_rec 2 service firstTry.

End Afip.

(* ===================================================================== *)
(** ** ElectronicBilling.js (wsfe) *)
(* ===================================================================== *)

Module ElectronicBilling.
Section Methods.

Context (L : Lib) (W : World) (afip : Options).

Definition getWSInitialRequest (operation : string)
  : M (list (string * value)) :=
  if String.eqb operation "FEDummy" then ret []
  else
    ta <- GetServiceTA L W afip "wsfe" true ;;
    ret [("Auth", VObject [("Token", token ta);
                           ("Sign", sign ta);
                           ("Cuit", CUIT afip)])].

(** [_checkErrors], which performs no effect.  [res] is the very object
    [results[operation+'Result']] holds, so what is assigned into it here is
    what the last line of [executeRequest] reads back: the function returns
    [res] as it leaves it. *)
Definition _checkErrors (operation : string) (results : value)
  : completion value :=
  res <- get results (operation ++ "Result") ;;
  res <- (if String.eqb operation "FECAESolicitar" then
            FeDetResp <- get res "FeDetResp" ;;
            if to_boolean FeDetResp then
              FECAEDetResponse <- get FeDetResp "FECAEDetResponse" ;;
              res <- (if is_array FECAEDetResponse then
                        first <- get_index FECAEDetResponse 0 ;;
                        FeDetResp <- set FeDetResp "FECAEDetResponse" first ;;
                        set res "FeDetResp" FeDetResp
                      else ret res) ;;
              FeDetResp <- get res "FeDetResp" ;;
              FECAEDetResponse <- get FeDetResp "FECAEDetResponse" ;;
              Observaciones <- get FECAEDetResponse "Observaciones" ;;
              rejected <- (if to_boolean Observaciones then
                             Resultado <- get FECAEDetResponse "Resultado" ;;
                             ret (negb (strict_eq_string Resultado "A"))
                           else ret false) ;;
              if (rejected : bool) then
                Obs <- get Observaciones "Obs" ;;
                set res "Errors" (VObject [("Err", Obs)])
              else ret res
            else ret res
          else ret res) ;;
  Errors <- get res "Errors" ;;
  if to_boolean Errors then
    Err <- get Errors "Err" ;;
    err <- (if is_array Err then get_index Err 0 else ret Err) ;;
    Code <- get err "Code" ;;
    Msg <- get err "Msg" ;;
    raise (VError "Error" ("(" ++ to_string Code ++ ") " ++ to_string Msg))
  else ret res.

Definition executeRequest (operation : string)
    (params : list (string * value)) : M value :=
  initial <- getWSInitialRequest operation ;;
  let params := Object_assign params initial in
  results <- perform (SoapOperation "wsfe" operation (VObject params))
               (fun history =>
                  soap_operation W history "wsfe" operation (VObject params)) ;;
  lift (_checkErrors operation results).

Definition getServerStatus : M value := executeRequest "FEDummy" [].

End Methods.
End ElectronicBilling.

(* ===================================================================== *)
(** ** ExportElectronicBilling.js (wsfex) *)
(* ===================================================================== *)

Module ExportElectronicBilling.
Section Methods.

Context (L : Lib) (W : World) (afip : Options).

Definition getWSInitialRequest (operation : string)
    (params : list (string * value)) : M (list (string * value)) :=
  if String.eqb operation "FEDummy" then ret []
  else
    ta <- GetServiceTA L W afip "wsfex" true ;;
    let Auth := [("Token", token ta); ("Sign", sign ta); ("Cuit", CUIT afip)] in
    Auth <- (if String.eqb operation "FEXGetLast_CMP" then
               Pto_venta <- lift (get (VObject params) "Pto_venta") ;;
               Cbte_Tipo <- lift (get (VObject params) "Cbte_Tipo") ;;
               ret (assign "Cbte_Tipo" Cbte_Tipo
                      (assign "Pto_venta" Pto_venta Auth))
             else ret Auth) ;;
    ret [("Auth", VObject Auth)].

Definition _checkErrors (operation : string) (results : value) : M unit :=
  res <- lift (get results (operation ++ "Result")) ;;
  FEXErr <- lift (get res "FEXErr") ;;
  offending <- (if to_boolean FEXErr then
                  ErrCode <- lift (get FEXErr "ErrCode") ;;
                  ret (loose_neq_zero L ErrCode)
                else ret false) ;;
  if (offending : bool) then
    console_log FEXErr ;;
    err <- (if is_array FEXErr then lift (get_index FEXErr 0)
            else ret FEXErr) ;;
    ErrCode <- lift (get err "ErrCode") ;;
    if negb (number_is_zero (to_number L ErrCode)) then
      ErrCode <- lift (get err "ErrCode") ;;
      ErrMsg <- lift (get err "ErrMsg") ;;
      raise (VError "Error"
               ("(" ++ to_string ErrCode ++ ") " ++ to_string ErrMsg))
    else ret tt
  else ret tt.

Definition executeRequest (operation : string)
    (params : list (string * value)) : M value :=
  initial <- getWSInitialRequest operation params ;;
  let params := Object_assign params initial in
  results <- perform (SoapOperation "wsfex" operation (VObject params))
               (fun history =>
                  soap_operation W history "wsfex" operation (VObject params)) ;;
  _checkErrors operation results ;;
  lift (get results (operation ++ "Result")).

Definition getServerStatus : M value := executeRequest "FEXDummy" [].

End Methods.
End ExportElectronicBilling.

(* ===================================================================== *)
(** ** Concrete libraries and worlds *)
(* ===================================================================== *)

Module Scenario.

Fixpoint value_eqb (a b : value) : bool :=
  match a, b with
  | VUndefined, VUndefined => true
  | VNull, VNull => true
  | VBool x, VBool y => Bool.eqb x y
  | VNumber (Num x), VNumber (Num y) => x =? y
  | VNumber NaN, VNumber NaN => true
  | VString x, VString y => String.eqb x y
  | VArray xs, VArray ys =>
      (fix items (xs ys : list value) : bool :=
         match xs, ys with
         | [], [] => true
         | x :: xs', y :: ys' => value_eqb x y && items xs' ys'
         | _, _ => false
         end) xs ys
  | VObject xs, VObject ys =>
      (fix fields (xs ys : list (string * value)) : bool :=
         match xs, ys with
         | [], [] => true
         | (k, x) :: xs', (k', y) :: ys' =>
             String.eqb k k' && value_eqb x y && fields xs' ys'
         | _, _ => false
         end) xs ys
  | VError n m, VError n' m' => String.eqb n n' && String.eqb m m'
  | _, _ => false
  end.

Fixpoint text_of (v : value) (table : list (string * value)) : option string :=
  match table with
  | [] => None
  | (text, v') :: rest => if value_eqb v v' then Some text else text_of v rest
  end.

(** A library that knows the documents of a table: [json] pairs each JSON
    text with the value it denotes, [xml] does the same for XML, [dates]
    for timestamps.  Numbers are read in decimal. *)
Definition library (json xml : list (string * value))
    (dates : list (string * Z)) : Lib :=
  {| StringToNumber := fun s =>
       if String.eqb s "" then Num 0
       else match NilZero.int_of_string s with
            | Some d => Num (Z.of_int d)
            | None => NaN
            end;
     Date_parse := fun s =>
       match find (fun entry => String.eqb (fst entry) s) dates with
       | Some entry => Num (snd entry)
       | None => NaN
       end;
     JSON_parse := fun text =>
       match lookup text json with
       | Some v => Returns v
       | None => Throws (VError "SyntaxError" "Unexpected token in JSON")
       end;
     JSON_stringify := fun v =>
       match v with
       | VUndefined => None
       | _ => match text_of v json with
              | Some text => Some text
              | None => Some "{}"
              end
       end;
     parseStringPromise := fun document =>
       match document with
       | VString text =>
           match lookup text xml with
           | Some v => Returns v
           | None => Throws (VError "Error" "Unclosed root tag")
           end
       | _ => Throws (VError "Error" "Unclosed root tag")
       end;
     pkcs7_sign := fun tra cert key signingTime =>
       if String.eqb cert "" then
         Throws (VError "Error" "Invalid PEM formatted message.")
       else Returns ("CMS " ++ tra_service tra) |}.

(** The body most recently put under a key, if any was. *)
Fixpoint last_put (bucket key : string) (history : list event)
  : option (option string) :=
  match history with
  | [] => None
  | ev :: rest =>
      match last_put bucket key rest with
      | Some body => Some body
      | None =>
          match ev with
          | PutObject b k body =>
              if String.eqb b bucket && String.eqb k key then Some body
              else None
          | _ => None
          end
      end
  end.

(** A world with a fixed clock and a bucket that answers [stored] for a key
    until something is put there, and from then on the last body put (an
    object put without body reads back empty). *)
Definition world (now : Z)
    (stored : string -> completion (option (completion string)))
    (login : completion value)
    (answer : string -> value) : World :=
  {| Date_now := fun _ => now;
     s3_GetObject := fun history bucket key =>
       match last_put bucket key history with
       | Some (Some text) => Returns (Some (Returns text))
       | Some None => Returns (Some (Returns ""))
       | None => stored key
       end;
     s3_PutObject := fun _ _ _ _ => Returns tt;
     fs_readFile := fun _ path => Returns ("PEM " ++ path);
     soap_createClientAsync := fun _ _ _ => Returns tt;
     soap_loginCmsAsync := fun _ _ => login;
     soap_operation := fun _ _ operation _ => Returns (answer operation) |}.

(** Noon of 1 November 2026, UTC. *)
Definition noon : Z := 1793534400000.

Definition dates : list (string * Z) :=
  [("2026-11-02T00:00:00.000Z", noon + 43200000);
   ("2026-11-01T12:10:00.000Z", noon + 600000);
   ("2026-11-01T11:00:00.000Z", noon - 3600000)].

(** A stored record in the shape the XML parser gives a login ticket
    response: the [version] attribute and the [header] element share the
    key [header]. *)
Definition ticket (expirationtime token sign : string) : value :=
  VObject
    [("header", VArray [VObject [("version", VString "1.0")];
                        VObject [("source", VString "CN=wsaa");
                                 ("expirationtime", VString expirationtime)]]);
     ("credentials", VObject [("token", VString token);
                              ("sign", VString sign)])].

Definition fresh : value := ticket "2026-11-02T00:00:00.000Z" "T1" "S1".
Definition stale : value := ticket "2026-11-01T11:00:00.000Z" "T0" "S0".
Definition on_the_margin : value :=
  ticket "2026-11-01T12:10:00.000Z" "T0" "S0".

(** A login ticket response without [credentials]. *)
Definition headless : value :=
  VObject
    [("header", VArray [VObject [("version", VString "1.0")];
                        VObject [("expirationtime",
                                  VString "2026-11-02T00:00:00.000Z")]])].

(** A record whose header has two elements and no expiration time. *)
Definition timeless : value :=
  VObject
    [("header", VArray [VObject []; VObject []]);
     ("credentials", VObject [("token", VString "T0");
                              ("sign", VString "S0")])].

Definition single_header : value :=
  VObject [("header", VObject [("version", VString "1.0")])].

Definition json : list (string * value) :=
  [("fresh.json", fresh); ("stale.json", stale);
   ("margin.json", on_the_margin); ("headless.json", headless);
   ("timeless.json", timeless); ("single.json", single_header)].

Definition xml : list (string * value) :=
  [("<fresh/>", VObject [("loginticketresponse", fresh)]);
   ("<stale/>", VObject [("loginticketresponse", stale)]);
   ("<headless/>", VObject [("loginticketresponse", headless)])].

Definition lib : Lib := library json xml dates.

Definition afip : Options :=
  {| CUIT := VNumber (Num 20111111112);
     production := false;
     CERT := "/Afip_res/cert";
     PRIVATEKEY := "/Afip_res/key";
     WSAA_WSDL := "/Afip_res/wsaa.wsdl" |}.

Definition afip_production : Options :=
  {| CUIT := VNumber (Num 20111111112);
     production := true;
     CERT := "/Afip_res/cert";
     PRIVATEKEY := "/Afip_res/key";
     WSAA_WSDL := "/Afip_res/wsaa.wsdl" |}.

Definition no_such_key : value :=
  VError "NoSuchKey" "The specified key does not exist.".

Definition access_denied : value := VError "AccessDenied" "Access Denied".

Definition absent (key : string) : completion (option (completion string)) :=
  Throws no_such_key.

Definition denied (key : string) : completion (option (completion string)) :=
  Throws access_denied.

Definition holding (text : string) (key : string)
  : completion (option (completion string)) :=
  Returns (Some (Returns text)).

Definition login (text : string) : completion value :=
  Returns (VObject [("loginCmsReturn", VString text)]).

Definition no_answer (operation : string) : value := VUndefined.

(** An error entry of wsfe, and the same content as wsfex spells it. *)
Definition entry : value :=
  VObject [("Code", VNumber (Num 10016));
           ("Msg", VString "El numero o fecha del comprobante no se corresponde")].

Definition export_entry : value :=
  VObject [("ErrCode", VNumber (Num 10016));
           ("ErrMsg", VString "El numero o fecha del comprobante no se corresponde")].

Definition status : value :=
  VObject [("AppServer", VString "OK"); ("DbServer", VString "OK");
           ("AuthServer", VString "OK")].

Definition detail (Resultado : string) (more : list (string * value)) : value :=
  VObject (("Resultado", VString Resultado) :: more).

Definition solicitar (FECAEDetResponse : value) : value :=
  VObject
    [("FeCabResp", VObject [("Cuit", VNumber (Num 20111111112))]);
     ("FeDetResp", VObject [("FECAEDetResponse", FECAEDetResponse)])].

Definition approved_detail : value :=
  detail "A" [("CAE", VString "74123456789012");
              ("CAEFchVto", VString "20261111")].

Definition refused_detail : value :=
  detail "R" [("Observaciones", VObject [("Obs", VArray [entry])])].

Definition rejected_response : value := solicitar (VArray [refused_detail]).

(** A service that rejects what it is asked. *)
Definition rejecting (operation : string) : value :=
  if String.eqb operation "FECompUltimoAutorizado" then
    VObject [("FECompUltimoAutorizadoResult",
              VObject [("Errors", VObject [("Err", VArray [entry])])])]
  else if String.eqb operation "FECAESolicitar" then
    VObject [("FECAESolicitarResult", rejected_response)]
  else if String.eqb operation "FEXAuthorize" then
    VObject [("FEXAuthorizeResult", VObject [("FEXErr", export_entry)])]
  else VUndefined.

(** A service that accepts. *)
Definition accepting (operation : string) : value :=
  if String.eqb operation "FECAESolicitar" then
    VObject [("FECAESolicitarResult", solicitar (VArray [approved_detail]))]
  else VObject [(operation ++ "Result", status)].

End Scenario.

(* ===================================================================== *)
(** ** Vocabulary of the statements *)
(* ===================================================================== *)

(** A run that continues after the events [added]. *)
Definition after {A} (added : list event)
    (r : option (completion A) * list event)
  : option (completion A) * list event :=
  (fst r, (added ++ snd r)%list).

(** The events of a run weighed one by one. *)
Fixpoint cost (weight : event -> nat) (events : list event) : nat :=
  match events with
  | [] => 0%nat
  | ev :: rest => (weight ev + cost weight rest)%nat
  end.

(** A computation whose events never weigh more than [k], whatever came
    before. *)
Definition bounded (weight : event -> nat) (k : nat) {A} (m : M A) : Prop :=
  forall history, (cost weight (snd (run m history)) <= k)%nat.

(** Calls of the login service. *)
Definition logins (ev : event) : nat :=
  match ev with
  | LoginCms _ => 1%nat
  | _ => 0%nat
  end.

(** Writes to the store. *)
Definition puts (ev : event) : nat :=
  match ev with
  | PutObject _ _ _ => 1%nat
  | _ => 0%nat
  end.

(** Reads and writes of the store that are not at [bucket], [key]. *)
Definition elsewhere (bucket key : string) (ev : event) : nat :=
  match ev with
  | GetObject b k | PutObject b k _ =>
      if String.eqb b bucket && String.eqb k key then 0%nat else 1%nat
  | _ => 0%nat
  end.

(** [v] is the entry [e] itself, or an array that starts with [e]. *)
Definition wrapped (e v : value) : Prop :=
  (v = e /\ is_array e = false) \/ exists rest, v = VArray (e :: rest).

(** The text both billing classes give the error they throw. *)
Definition error_text (code message : value) : string :=
  "(" ++ to_string code ++ ") " ++ to_string message.

(** A computation that is never cut off. *)
Definition finishes {A} (m : M A) : Prop :=
  forall history, fst (run m history) <> None.

(** A computation whose first effect is [ev]. *)
Definition starts_with (ev : event) {A} (m : M A) : Prop :=
  forall history, exists rest, snd (run m history) = ev :: rest.

(** A read or a write of the store is at [bucket], [key]. *)
Definition at_key (bucket key : string) (ev : event) : Prop :=
  match ev with
  | GetObject b k | PutObject b k _ => b = bucket /\ k = key
  | _ => True
  end.

(** [v] is [res] with the array under [FeDetResp.FECAEDetResponse]
    replaced by its first element. *)
Definition unwrapped (res v : value) : Prop :=
  exists fields dfields items,
    res = VObject fields
    /\ lookup "FeDetResp" fields = Some (VObject dfields)
    /\ lookup "FECAEDetResponse" dfields = Some (VArray items)
    /\ v = VObject
             (assign "FeDetResp"
                (VObject (assign "FECAEDetResponse" (nth 0 items VUndefined)
                            dfields))
                fields).

(** [_checkErrors] has no detail to unwrap in [res]. *)
Definition untouched (operation : string) (res : value) : Prop :=
  operation <> "FECAESolicitar"
  \/ exists FeDetResp,
       get res "FeDetResp" = Returns FeDetResp
       /\ (to_boolean FeDetResp = false
           \/ exists Det,
                get FeDetResp "FECAEDetResponse" = Returns Det
                /\ is_array Det = false).

(** The three shapes in which a response carries an error entry [e]. *)

(** A detail block that gives [_checkErrors] nothing to report: its
    detail, alone or first in an array, has no observations or has
    [Resultado] ['A']. *)
Definition accepted_detail (res : value) : Prop :=
  exists dfields Det det Observaciones,
    get res "FeDetResp" = Returns (VObject dfields)
    /\ get (VObject dfields) "FECAEDetResponse" = Returns Det
    /\ wrapped det Det
    /\ get det "Observaciones" = Returns Observaciones
    /\ (to_boolean Observaciones = false
        \/ get det "Resultado" = Returns (VString "A")).

(** A flat list: [res.Errors.Err], in an answer of another operation than
    FECAESolicitar, or without a detail block, or with a detail that
    reports nothing. *)
Definition flat_error_list (operation : string) (res e : value) : Prop :=
  (String.eqb operation "FECAESolicitar" = false
   \/ (exists FeDetResp,
         get res "FeDetResp" = Returns FeDetResp
         /\ to_boolean FeDetResp = false)
   \/ accepted_detail res)
  /\ exists Errors Err,
       get res "Errors" = Returns Errors
       /\ to_boolean Errors = true
       /\ get Errors "Err" = Returns Err
       /\ wrapped e Err.

(** Observations of a detail whose [Resultado] is not ['A']. *)
Definition rejected_detail (res e : value) : Prop :=
  exists fields dfields Det det Observaciones Resultado Obs,
    res = VObject fields
    /\ get res "FeDetResp" = Returns (VObject dfields)
    /\ get (VObject dfields) "FECAEDetResponse" = Returns Det
    /\ wrapped det Det
    /\ get det "Observaciones" = Returns Observaciones
    /\ to_boolean Observaciones = true
    /\ get det "Resultado" = Returns Resultado
    /\ strict_eq_string Resultado "A" = false
    /\ get Observaciones "Obs" = Returns Obs
    /\ wrapped e Obs.

(** An error object of the export service: [res.FEXErr]. *)
Definition export_error (res FEXErr e : value) : Prop :=
  get res "FEXErr" = Returns FEXErr
  /\ to_boolean FEXErr = true
  /\ wrapped e FEXErr.

(** The remote call of a request made after [history] was answered with
    [results], [events] having happened by then. *)
Definition answered_wsfe (L : Lib) (W : World) (afip : Options)
    (operation : string) (params : list (string * value))
    (history : list event) (results : value) (events : list event) : Prop :=
  exists initial pre,
    run (ElectronicBilling.getWSInitialRequest L W afip operation) history
    = (Some (Returns initial), pre)
    /\ soap_operation W (history ++ pre)%list "wsfe" operation
         (VObject (Object_assign params initial)) = Returns results
    /\ events
       = (pre ++ [SoapOperation "wsfe" operation
                    (VObject (Object_assign params initial))])%list.

Definition answered_wsfex (L : Lib) (W : World) (afip : Options)
    (operation : string) (params : list (string * value))
    (history : list event) (results : value) (events : list event) : Prop :=
  exists initial pre,
    run (ExportElectronicBilling.getWSInitialRequest L W afip operation params)
      history
    = (Some (Returns initial), pre)
    /\ soap_operation W (history ++ pre)%list "wsfex" operation
         (VObject (Object_assign params initial)) = Returns results
    /\ events
       = (pre ++ [SoapOperation "wsfex" operation
                    (VObject (Object_assign params initial))])%list.


(* ===================================================================== *)
(** ** Operators and helpers of the remaining methods *)
(* ===================================================================== *)

(** Numbers are doubles.  [number] holds the integers among them, and
    holds Infinity and -Infinity as the magnitudes from [infinity] on. *)
Definition infinity : Z := 2 ^ 1024.

Definition is_infinite (z : Z) : bool := infinity <=? Z.abs z.

(** The double nearest to an integer: the integer itself up to 2^53, and
    beyond it the nearest multiple of the spacing of the doubles there,
    a tie going to the even mantissa; Infinity from 2^1024 - 2^970 on. *)
Definition double_of (z : Z) : Z :=
  let a := Z.abs z in
  if a <=? 2 ^ 53 then z
  else
    let e := Z.log2 a - 52 in
    let q := a / 2 ^ e in
    let r := a mod 2 ^ e in
    let half := 2 ^ (e - 1) in
    let q := if (r <? half) || ((r =? half) && Z.even q) then q else q + 1 in
    Z.sgn z * Z.min (q * 2 ^ e) infinity.

Definition number_neg (a : number) : number :=
  match a with
  | Num x => Num (- x)
  | NaN => NaN
  end.

(** [a + b] on numbers: the sum rounded to a double; Infinity absorbs
    what is finite, and Infinity + -Infinity is NaN. *)
Definition number_add (a b : number) : number :=
  match a, b with
  | Num x, Num y =>
      if is_infinite x then
        if is_infinite y && negb (Z.sgn x =? Z.sgn y) then NaN else Num x
      else if is_infinite y then Num y
      else Num (double_of (x + y))
  | _, _ => NaN
  end.

(** [a - b] is [a + (-b)]. *)
Definition number_sub (a b : number) : number := number_add a (number_neg b).

(** What an operator makes of an operand: an object, an array or an
    [Error] becomes its string. *)
Definition to_primitive (v : value) : value :=
  match v with
  | VArray _ | VObject _ | VError _ _ => VString (to_string v)
  | _ => v
  end.

Definition is_string (v : value) : bool :=
  match v with
  | VString _ => true
  | _ => false
  end.

(** [a + b]: concatenation as soon as one side is a string, addition of
    numbers otherwise. *)
Definition js_add (L : Lib) (a b : value) : value :=
  let pa := to_primitive a in
  let pb := to_primitive b in
  if is_string pa || is_string pb then VString (to_string pa ++ to_string pb)
  else VNumber (number_add (to_number L pa) (to_number L pb)).

(** [a - b], always a number. *)
Definition js_sub (L : Lib) (a b : value) : number :=
  number_sub (to_number L a) (to_number L b).

(** [v === n] for a number literal. *)
Definition strict_eq_number (v : value) (n : Z) : bool :=
  match v with
  | VNumber (Num z) => z =? n
  | _ => false
  end.

(** [v === true]. *)
Definition is_true (v : value) : bool :=
  match v with
  | VBool true => true
  | _ => false
  end.

(** [obj[key]] on the properties of an object. *)
Definition field (fields : list (string * value)) (key : string) : value :=
  match lookup key fields with
  | Some v => v
  | None => VUndefined
  end.

(** [delete obj[key]]. *)
Fixpoint delete (key : string) (fields : list (string * value))
  : list (string * value) :=
  match fields with
  | [] => []
  | (k, v) :: rest =>
      if String.eqb k key then delete key rest else (k, v) :: delete key rest
  end.

(** [if (data[key]) data[key] = { inner : data[key] }]. *)
Definition wrap (key inner : string) (data : list (string * value))
  : list (string * value) :=
  if to_boolean (field data key) then
    assign key (VObject [(inner, field data key)]) data
  else data.

Definition is_digit (c : ascii) : bool :=
  (48 <=? nat_of_ascii c)%nat && (nat_of_ascii c <=? 57)%nat.

(** A group [(\d{n})] at the start of [s]: the digits it takes and what
    follows them. *)
Fixpoint digits (n : nat) (s : string) : option (string * string) :=
  match n with
  | O => Some (EmptyString, s)
  | S n' =>
      match s with
      | String c rest =>
          if is_digit c then
            match digits n' rest with
            | Some (taken, tail) => Some (String c taken, tail)
            | None => None
            end
          else None
      | EmptyString => None
      end
  end.

(** [s.replace(/(\d{4})(\d{2})(\d{2})/, (string, year, month, day) =>
    `${year}-${month}-${day}`)]: at the first place where eight digits
    follow one another. *)
Fixpoint dashed (s : string) : string :=
  match s with
  | EmptyString => EmptyString
  | String c rest =>
      match digits 4 s with
      | Some (year, after_year) =>
          match digits 2 after_year with
          | Some (month, after_month) =>
              match digits 2 after_month with
              | Some (day, tail) =>
                  year ++ "-" ++ month ++ "-" ++ day ++ tail
              | None => String c (dashed rest)
              end
          | None => String c (dashed rest)
          end
      | None => String c (dashed rest)
      end
  end.

(** [formatDate] of both billing classes; [date.toString()] throws on
    [undefined] and [null]. *)
Definition formatDate (date : value) : completion string :=
  if nullish date then Throws (type_error date "toString")
  else Returns (dashed (to_string date)).

(** A string without its dashes. *)
Fixpoint undashed (s : string) : string :=
  match s with
  | EmptyString => EmptyString
  | String c rest =>
      if Ascii.eqb c "-" then undashed rest else String c (undashed rest)
  end.

(* ===================================================================== *)
(** ** ElectronicBilling.js: the methods above executeRequest *)
(* ===================================================================== *)

Module Wsfe.
Section Methods.

Context (L : Lib) (W : World) (afip : Options).

Definition getLastVoucher (salesPoint type : value) : M value :=
  res <- ElectronicBilling.executeRequest L W afip "FECompUltimoAutorizado"
           [("PtoVta", salesPoint); ("CbteTipo", type)] ;;
  lift (get res "CbteNro").

(** Lines 64 to 94 of [createVoucher]: the request, whose detail is the
    caller's [data] object itself, as the deletions and the wrappings
    leave it. *)
Definition voucher_request (data : list (string * value))
  : list (string * value) :=
  let CantReg :=
    VNumber (number_add
               (js_sub L (field data "CbteHasta") (field data "CbteDesde"))
               (Num 1)) in
  let PtoVta := field data "PtoVta" in
  let CbteTipo := field data "CbteTipo" in
  let data := delete "CantReg" data in
  let data := delete "PtoVta" data in
  let data := delete "CbteTipo" data in
  let data := wrap "Tributos" "Tributo" data in
  let data := wrap "Iva" "AlicIva" data in
  let data := wrap "CbtesAsoc" "CbteAsoc" data in
  let data := wrap "Compradores" "Comprador" data in
  let data := wrap "Opcionales" "Opcional" data in
  [("FeCAEReq",
    VObject [("FeCabReq", VObject [("CantReg", CantReg);
                                   ("PtoVta", PtoVta);
                                   ("CbteTipo", CbteTipo)]);
             ("FeDetReq", VObject [("FECAEDetRequest", VObject data)])])].

Definition createVoucher (data : list (string * value))
    (returnResponse : value) : M value :=
  results <- ElectronicBilling.executeRequest L W afip "FECAESolicitar"
               (voucher_request data) ;;
  if is_true returnResponse then ret results
  else
    FeDetResp <- lift (get results "FeDetResp") ;;
    FECAEDetResponse <- lift (get FeDetResp "FECAEDetResponse") ;;
    results <- (if is_array FECAEDetResponse then
                  FeDetResp <- lift (get results "FeDetResp") ;;
                  FECAEDetResponse <- lift (get FeDetResp
                                              "FECAEDetResponse") ;;
                  first <- lift (get_index FECAEDetResponse 0) ;;
                  FeDetResp <- lift (set FeDetResp "FECAEDetResponse" first) ;;
                  lift (set results "FeDetResp" FeDetResp)
                else ret results) ;;
    FeDetResp <- lift (get results "FeDetResp") ;;
    FECAEDetResponse <- lift (get FeDetResp "FECAEDetResponse") ;;
    CAE <- lift (get FECAEDetResponse "CAE") ;;
    FeDetResp <- lift (get results "FeDetResp") ;;
    FECAEDetResponse <- lift (get FeDetResp "FECAEDetResponse") ;;
    CAEFchVto <- lift (get FECAEDetResponse "CAEFchVto") ;;
    CAEFchVto <- lift (formatDate CAEFchVto) ;;
    ret (VObject [("CAE", CAE); ("CAEFchVto", VString CAEFchVto)]).

Definition createNextVoucher (data : list (string * value)) : M value :=
  lastVoucher <- getLastVoucher (field data "PtoVta")
                   (field data "CbteTipo") ;;
  let voucherNumber := js_add L lastVoucher (VNumber (Num 1)) in
  let data := assign "CbteDesde" voucherNumber data in
  let data := assign "CbteHasta" voucherNumber data in
  res <- createVoucher data (VBool false) ;;
  lift (set res "voucherNumber" voucherNumber).

Definition getVoucherInfo (number salesPoint type : value) : M value :=
  result <- catch
              (ElectronicBilling.executeRequest L W afip "FECompConsultar"
                 [("FeCompConsReq",
                   VObject [("CbteNro", number);
                            ("PtoVta", salesPoint);
                            ("CbteTipo", type)])])
              (fun err =>
                 code <- lift (get err "code") ;;
                 if strict_eq_number code 602 then ret VNull
                 else raise err) ;;
  lift (get result "ResultGet").

(** [(await this.executeRequest(operation)).ResultGet[name]], the body of
    the methods that list the parameters of the service. *)
Definition listing (operation name : string) : M value :=
  res <- ElectronicBilling.executeRequest L W afip operation [] ;;
  ResultGet <- lift (get res "ResultGet") ;;
  lift (get ResultGet name).

Definition getSalesPoints : M value :=
  listing "FEParamGetPtosVenta" "PtoVenta".
Definition getVoucherTypes : M value :=
  listing "FEParamGetTiposCbte" "CbteTipo".
Definition getConceptTypes : M value :=
  listing "FEParamGetTiposConcepto" "ConceptoTipo".
Definition getDocumentTypes : M value :=
  listing "FEParamGetTiposDoc" "DocTipo".
Definition getAliquotTypes : M value :=
  listing "FEParamGetTiposIva" "IvaTipo".
Definition getCurrenciesTypes : M value :=
  listing "FEParamGetTiposMonedas" "Moneda".
Definition getOptionsTypes : M value :=
  listing "FEParamGetTiposOpcional" "OpcionalTipo".
Definition getTaxTypes : M value :=
  listing "FEParamGetTiposTributos" "TributoTipo".

End Methods.
End Wsfe.

(* ===================================================================== *)
(** ** ExportElectronicBilling.js: the methods above executeRequest *)
(* ===================================================================== *)

Module Wsfex.
Section Methods.

Context (L : Lib) (W : World) (afip : Options).

Definition getLastVoucher (salesPoint type : value) : M value :=
  res <- ExportElectronicBilling.executeRequest L W afip "FEXGetLast_CMP"
           [("Pto_venta", salesPoint); ("Cbte_Tipo", type)] ;;
  FEXResult_LastCMP <- lift (get res "FEXResult_LastCMP") ;;
  lift (get FEXResult_LastCMP "Cbte_nro").

Definition getLastId : M value :=
  res <- ExportElectronicBilling.executeRequest L W afip "FEXGetLast_ID" [] ;;
  FEXResultGet <- lift (get res "FEXResultGet") ;;
  lift (get FEXResultGet "Id").

(** The [Cmp] of the request of [createVoucher]: the caller's [data]
    with its [Id] and its wrappings. *)
Definition voucher_cmp (Id : value) (data : list (string * value))
  : list (string * value) :=
  let data := assign "Id" Id data in
  let data := wrap "Permisos" "Permiso" data in
  let data := wrap "Cmps_asoc" "Cmp_asoc" data in
  let data := wrap "Items" "Item" data in
  wrap "Opcionales" "Opcional" data.

Definition createVoucher (data : list (string * value))
    (returnResponse : value) : M value :=
  lastId <- getLastId ;;
  let Id := VNumber (number_add (to_number L lastId) (Num 1)) in
  results <- ExportElectronicBilling.executeRequest L W afip "FEXAuthorize"
               [("Cmp", VObject (voucher_cmp Id data))] ;;
  if is_true returnResponse then ret results
  else
    FEXResultAuth <- lift (get results "FEXResultAuth") ;;
    results <- (if is_array FEXResultAuth then
                  FEXResultAuth <- lift (get results "FEXResultAuth") ;;
                  first <- lift (get_index FEXResultAuth 0) ;;
                  lift (set results "FEXResultAuth" first)
                else ret results) ;;
    FEXResultAuth <- lift (get results "FEXResultAuth") ;;
    Cae <- lift (get FEXResultAuth "Cae") ;;
    FEXResultAuth <- lift (get results "FEXResultAuth") ;;
    Fch_venc_Cae <- lift (get FEXResultAuth "Fch_venc_Cae") ;;
    CAEFchVto <- lift (formatDate Fch_venc_Cae) ;;
    ret (VObject [("CAE", Cae); ("CAEFchVto", VString CAEFchVto)]).

Definition createNextVoucher (data : list (string * value)) : M value :=
  lastVoucher <- getLastVoucher (field data "Punto_vta")
                   (field data "Cbte_Tipo") ;;
  let voucherNumber := js_add L lastVoucher (VNumber (Num 1)) in
  let data := assign "CbteDesde" voucherNumber data in
  let data := assign "CbteHasta" voucherNumber data in
  res <- createVoucher data (VBool false) ;;
  lift (set res "voucherNumber" voucherNumber).

Definition getVoucherInfo (number salesPoint type : value) : M value :=
  res <- ExportElectronicBilling.executeRequest L W afip "FEXGetCMP"
           [("Cmp", VObject [("Cbte_tipo", type);
                             ("Punto_vta", salesPoint);
                             ("Cbte_nro", number)])] ;;
  lift (get res "FEXResultGet").

(** [(await this.executeRequest(operation)).FEXResultGet[name]]. *)
Definition listing (operation name : string) : M value :=
  res <- ExportElectronicBilling.executeRequest L W afip operation [] ;;
  FEXResultGet <- lift (get res "FEXResultGet") ;;
  lift (get FEXResultGet name).

Definition getCurrencies : M value :=
  listing "FEXGetPARAM_MON" "ClsFEXResponse_Mon".
Definition getExportTypes : M value :=
  listing "FEXGetPARAM_Tipo_Expo" "ClsFEXResponse_Tex".
Definition getUnits : M value :=
  listing "FEXGetPARAM_UMed" "ClsFEXResponse_UMed".
Definition getLanguage : M value :=
  listing "FEXGetPARAM_Idiomas" "ClsFEXResponse_Idi".
Definition getCountries : M value :=
  listing "FEXGetPARAM_DST_pais" "ClsFEXResponse_DST_pais".
Definition getIncoterms : M value :=
  listing "FEXGetPARAM_Incoterms" "ClsFEXResponse_Inc".
Definition getCUITsOfCountries : M value :=
  listing "FEXGetPARAM_DST_CUIT" "ClsFEXResponse_DST_cuit".
Definition getOptionsTypes : M value :=
  listing "FEXGetPARAM_Opcionales" "ClsFEXResponse_Opc".
Definition getsVoucherTypes : M value :=
  listing "FEXGetPARAM_Cbte_Tipo" "ClsFEXResponse_Cbte_Tipo".
Definition getActivities : M value :=
  listing "FEXGetPARAM_Actividades" "ClsFEXResponse_ActividadTipo".

Definition getQuoteCurrency (moneyId : value) : M value :=
  result <- catch
              (ExportElectronicBilling.executeRequest L W afip
                 "FEXGetPARAM_Ctz" [("Mon_id", moneyId)])
              (fun err => raise err) ;;
  lift (get result "FEXResultGet").

Definition getSalesPointsValids : M value :=
  res <- ExportElectronicBilling.executeRequest L W afip
           "FEXGetPARAM_PtoVenta" [] ;;
  lift (get res "FEXResultGet").

Definition getMonConCot (date : value) : M value :=
  res <- ExportElectronicBilling.executeRequest L W afip
           "FEXGetPARAM_MON_CON_COTIZACION" [("Fecha_CTZ", date)] ;;
  FEXResultGet <- lift (get res "FEXResultGet") ;;
  lift (get FEXResultGet "ClsFEXResponse_Mon_CON_Cotizacion").

Definition verifyPermissionExistenceCountryById
    (permissionId countryId : value) : M value :=
  result <- catch
              (ExportElectronicBilling.executeRequest L W afip
                 "FEXCheck_Permiso"
                 [("ID_Permiso", permissionId); ("Dst_merc", countryId)])
              (fun err => raise err) ;;
  lift (get result "FEXResultGet").

End Methods.
End Wsfex.

(* ===================================================================== *)
(** ** Vocabulary of the further statements *)
(* ===================================================================== *)

Fixpoint all_digits (s : string) : bool :=
  match s with
  | EmptyString => true
  | String c rest => is_digit c && all_digits rest
  end.

(** Remote operations of the billing services. *)
Definition operations (ev : event) : nat :=
  match ev with
  | SoapOperation _ _ _ => 1%nat
  | _ => 0%nat
  end.

(** Anything that goes over the network. *)
Definition network (ev : event) : nat :=
  match ev with
  | GetObject _ _ | PutObject _ _ _ | SoapCreateClient _ _ | LoginCms _
  | SoapOperation _ _ _ => 1%nat
  | _ => 0%nat
  end.

(* ===================================================================== *)
(** ** A billing office *)
(* ===================================================================== *)

Module Office.

Import Scenario.

(** The error of wsfe for a voucher it does not have. *)
Definition no_voucher : value :=
  VObject [("Code", VNumber (Num 602));
           ("Msg", VString "No existen datos en nuestros registros")].

Definition voucher_types : value :=
  VArray [VObject [("Id", VNumber (Num 1)); ("Desc", VString "Factura A")];
          VObject [("Id", VNumber (Num 6)); ("Desc", VString "Factura B")]].

Definition currencies : value :=
  VArray [VObject [("Mon_Id", VString "DOL");
                   ("Mon_Ds", VString "Dolar Estadounidense")]].

(** What wsfex puts in FEXErr when nothing is wrong. *)
Definition no_error : value :=
  VObject [("ErrCode", VNumber (Num 0)); ("ErrMsg", VString "OK")].

Definition authorized : value :=
  VObject [("Cae", VString "74123456789012");
           ("Fch_venc_Cae", VString "20261111")].

(** A detail accepted with an observation. *)
Definition observed_detail : value :=
  detail "A" [("CAE", VString "74123456789012");
              ("CAEFchVto", VString "20261111");
              ("Observaciones", VObject [("Obs", VArray [entry])])].

Definition result (operation : string) (fields : list (string * value))
  : value :=
  VObject [(operation ++ "Result", VObject fields)].

(** A permission that exists, with a list in FEXErr whose first entry
    says that nothing is wrong. *)
Definition permission : list (string * value) :=
  [("FEXResultGet", VObject [("Status", VString "OK")]);
   ("FEXErr", VArray [no_error; export_entry])].

(** The answers of the two billing services, operation by operation. *)
Definition answers (operation : string) : value :=
  if String.eqb operation "FECompUltimoAutorizado" then
    result operation [("PtoVta", VNumber (Num 1));
                      ("CbteTipo", VNumber (Num 6));
                      ("CbteNro", VNumber (Num 41))]
  else if String.eqb operation "FECAESolicitar" then
    VObject [("FECAESolicitarResult", solicitar (VArray [observed_detail]))]
  else if String.eqb operation "FECompConsultar" then
    result operation [("Errors", VObject [("Err", VArray [no_voucher])])]
  else if String.eqb operation "FEParamGetTiposCbte" then
    result operation [("ResultGet", VObject [("CbteTipo", voucher_types)])]
  else if String.eqb operation "FEParamGetTiposIva" then
    result operation []
  else if String.eqb operation "FEXGetLast_ID" then
    result operation [("FEXResultGet", VObject [("Id", VString "41")]);
                      ("FEXErr", no_error)]
  else if String.eqb operation "FEXGetLast_CMP" then
    result operation
      [("FEXResult_LastCMP", VObject [("Cbte_nro", VNumber (Num 7))]);
       ("FEXErr", no_error)]
  else if String.eqb operation "FEXAuthorize" then
    result operation [("FEXResultAuth", authorized); ("FEXErr", no_error)]
  else if String.eqb operation "FEXGetPARAM_MON" then
    result operation
      [("FEXResultGet", VObject [("ClsFEXResponse_Mon", currencies)]);
       ("FEXErr", no_error)]
  else if String.eqb operation "FEXCheck_Permiso" then
    result operation permission
  else VObject [].

(** An error of the request as a whole. *)
Definition no_authority : value :=
  VObject [("Code", VNumber (Num 600));
           ("Msg", VString "ValidacionDeToken: No aparecio CUIT en lista de relaciones")].

(** A service whose answers to FECAESolicitar have a flat list of errors
    beside the detail block [FeDetResp]. *)
Definition beside_errors (FeDetResp : value) (operation : string) : value :=
  VObject [("FECAESolicitarResult",
            VObject [("FeDetResp", FeDetResp);
                     ("Errors", VObject [("Err", VArray [no_authority])])])].

(** The office on 1 November 2026 at noon, with a ticket in the store
    that is good until midnight. *)
Definition open : World :=
  world noon (holding "fresh.json") (login "<fresh/>") answers.

(** [W] with billing services that reject every call with [err]. *)
Definition unreachable (W : World) (err : value) : World :=
  {| Date_now := Date_now W;
     s3_GetObject := s3_GetObject W;
     s3_PutObject := s3_PutObject W;
     fs_readFile := fs_readFile W;
     soap_createClientAsync := soap_createClientAsync W;
     soap_loginCmsAsync := soap_loginCmsAsync W;
     soap_operation := fun _ _ _ _ => Throws err |}.

(** [W] without the private key on disk. *)
Definition keyless (W : World) (afip : Options) : World :=
  {| Date_now := Date_now W;
     s3_GetObject := s3_GetObject W;
     s3_PutObject := s3_PutObject W;
     fs_readFile := fun history path =>
       if String.eqb path (PRIVATEKEY afip) then
         Throws (VError "Error" "ENOENT: no such file or directory")
       else fs_readFile W history path;
     soap_createClientAsync := soap_createClientAsync W;
     soap_loginCmsAsync := soap_loginCmsAsync W;
     soap_operation := soap_operation W |}.

(** An invoice of 121 pesos with its tax, and an export invoice. *)
Definition invoice : list (string * value) :=
  [("CantReg", VNumber (Num 1));
   ("PtoVta", VNumber (Num 1));
   ("CbteTipo", VNumber (Num 6));
   ("Concepto", VNumber (Num 1));
   ("ImpTotal", VNumber (Num 121));
   ("Iva", VArray [VObject [("Id", VNumber (Num 5));
                            ("BaseImp", VNumber (Num 100));
                            ("Importe", VNumber (Num 21))]])].

Definition export_invoice : list (string * value) :=
  [("Id", VNumber (Num 1));
   ("Punto_vta", VNumber (Num 3));
   ("Cbte_Tipo", VNumber (Num 19));
   ("Cbte_nro", VNumber (Num 8));
   ("Items", VArray [VObject [("Pro_ds", VString "Yerba mate");
                              ("Pro_total_item", VNumber (Num 500))]])].

End Office.

(* ===================================================================== *)
(** ** Runs *)
(* ===================================================================== *)

Lemma run_bind {A B} (m : M A) (k : A -> M B) history :
  run (x <- m ;; k x) history =
  match run m history with
  | (Some (Returns a), added) =>
      after added (run (k a) (history ++ added)%list)
  | (Some (Throws e), added) => (Some (Throws e), added)
  | (None, added) => (None, added)
  end.
Proof.
  unfold run, after. cbn. unfold M_bind.
  destruct (m history) as [[[a | e] |] added]; try reflexivity.
  destruct (k a _); reflexivity.
Qed.

Lemma run_catch {A} (m : M A) (handler : value -> M A) history :
  run (catch m handler) history =
  match run m history with
  | (Some (Throws e), added) =>
      after added (run (handler e) (history ++ added)%list)
  | other => other
  end.
Proof.
  unfold run, after. cbn. unfold M_catch.
  destruct (m history) as [[[a | e] |] added]; try reflexivity.
  destruct (handler e _); reflexivity.
Qed.

Lemma run_ret {A} (a : A) history :
  run (ret a) history = (Some (Returns a), []).
Proof. reflexivity. Qed.

Lemma run_lift {A} (c : completion A) history :
  run (lift c) history = (Some c, []).
Proof. reflexivity. Qed.

Lemma run_perform {A} ev (answer : list event -> completion A) history :
  run (perform ev answer) history = (Some (answer history), [ev]).
Proof. reflexivity. Qed.

Lemma run_settle {A} ev (answer : list event -> completion A) history :
  run (settle (perform ev answer)) history
  = (Some (Returns (answer history)), [ev]).
Proof.
  unfold settle. rewrite run_catch, run_bind, run_perform.
  destruct (answer history); reflexivity.
Qed.

Lemma after_after {A} a b (r : option (completion A) * list event) :
  after a (after b r) = after (a ++ b) r.
Proof. unfold after; simpl. now rewrite app_assoc. Qed.

(** One statement of a method: the first computation of a bind is an
    effect or an expression, whose run is known. *)
Ltac run_step :=
  rewrite run_bind;
  first [ rewrite run_perform | rewrite run_lift | rewrite run_settle ];
  cbv beta iota.

(* ===================================================================== *)
(** ** Dates *)
(* ===================================================================== *)

Lemma TimeClip_Num n t :
  TimeClip n = Num t -> n = Num t /\ Z.abs t <= max_time.
Proof.
  destruct n as [z |]; simpl; [| discriminate].
  destruct (Z.leb_spec (Z.abs z) max_time); [| discriminate].
  intros [= <-]. split; [reflexivity | assumption].
Qed.

Lemma date_lt_stale now t :
  t <= now + 600000 -> date_lt (TimeClip (Num (now + 600000))) (Num t) = false.
Proof.
  intros Hle. simpl.
  destruct (Z.abs (now + 600000) <=? max_time); [| reflexivity].
  simpl. apply Z.ltb_ge. exact Hle.
Qed.

Lemma date_lt_NaN a : date_lt a NaN = false.
Proof. destruct a; reflexivity. Qed.

Lemma date_lt_fresh now t :
  - max_time <= now -> Z.abs t <= max_time -> now + 600000 < t ->
  date_lt (TimeClip (Num (now + 600000))) (Num t) = true.
Proof.
  intros Hnow Ht Hlt. simpl.
  destruct (Z.leb_spec (Z.abs (now + 600000)) max_time) as [_ | Hbig].
  - simpl. apply Z.ltb_lt. exact Hlt.
  - exfalso. unfold max_time in *. lia.
Qed.

Lemma date_lt_true now d :
  date_lt (TimeClip (Num (now + 600000))) d = true ->
  exists t, d = Num t /\ now + 600000 < t.
Proof.
  simpl. destruct (Z.abs (now + 600000) <=? max_time); [| discriminate].
  destruct d as [t |]; simpl; [| discriminate].
  intros H. exists t. split; [reflexivity | now apply Z.ltb_lt].
Qed.

(* ===================================================================== *)
(** ** Objects *)
(* ===================================================================== *)

Lemma lookup_assign key v fields : lookup key (assign key v fields) = Some v.
Proof.
  induction fields as [| [k old] rest IH]; simpl.
  - now rewrite String.eqb_refl.
  - destruct (String.eqb k key) eqn:Hk; simpl; rewrite Hk;
      [reflexivity | exact IH].
Qed.

Lemma get_assign key v fields :
  get (VObject (assign key v fields)) key = Returns v.
Proof. simpl. now rewrite lookup_assign. Qed.

(** Only an object has a truthy property under a name that is not one of
    an [Error]'s. *)
Lemma truthy_property res key v :
  get res key = Returns v -> to_boolean v = true ->
  String.eqb key "message" = false -> String.eqb key "name" = false ->
  exists fields, res = VObject fields /\ lookup key fields = Some v.
Proof.
  intros Hget Htrue Hm Hn.
  destruct res; simpl in Hget; try (injection Hget as <-; discriminate);
    try discriminate.
  - destruct (lookup key fields) eqn:Hl; injection Hget as <-;
      [eauto | discriminate].
  - rewrite Hm, Hn in Hget. injection Hget as <-. discriminate.
Qed.

Lemma get_not_nullish e key :
  nullish e = false -> exists v, get e key = Returns v.
Proof.
  destruct e; simpl; try discriminate; intros _; eauto.
  - destruct (lookup key fields); eauto.
  - destruct (String.eqb key "message"); eauto.
    destruct (String.eqb key "name"); eauto.
Qed.

Lemma first_of_wrapped e v :
  wrapped e v ->
  (if is_array v then get_index v 0 else Returns v) = Returns e.
Proof.
  intros [[-> Hnot] | [rest ->]]; [now rewrite Hnot | reflexivity].
Qed.

(* ===================================================================== *)
(** ** Strings *)
(* ===================================================================== *)

Lemma length_append (s t : string) :
  String.length (s ++ t) = (String.length s + String.length t)%nat.
Proof. induction s as [| c s IH]; simpl; [reflexivity | now rewrite IH]. Qed.

Lemma append_inv_head (p s t : string) : p ++ s = p ++ t -> s = t.
Proof.
  induction p as [| c p IH]; simpl; [trivial |].
  intros [= H]. now apply IH.
Qed.

Lemma append_inv_tail (s t q : string) : s ++ q = t ++ q -> s = t.
Proof.
  revert t. induction s as [| c s IH]; intros [| d t] H; simpl in H.
  - reflexivity.
  - apply (f_equal String.length) in H. simpl in H.
    rewrite length_append in H. lia.
  - apply (f_equal String.length) in H. simpl in H.
    rewrite length_append in H. lia.
  - injection H as -> H. f_equal. now apply IH.
Qed.

Lemma append_assoc (a b c : string) : (a ++ b) ++ c = a ++ b ++ c.
Proof. induction a as [| x a IH]; simpl; [reflexivity | now rewrite IH]. Qed.

Lemma append_empty (s : string) : s ++ "" = s.
Proof. induction s as [| x s IH]; simpl; [reflexivity | now rewrite IH]. Qed.

Lemma lookup_assign_other k key v fields :
  k <> key -> lookup k (assign key v fields) = lookup k fields.
Proof.
  intros Hk. induction fields as [| [k' old] rest IH]; simpl.
  - destruct (String.eqb_spec key k); [congruence | reflexivity].
  - destruct (String.eqb_spec k' key) as [-> | Hk']; simpl.
    + destruct (String.eqb_spec key k); [congruence | reflexivity].
    + destruct (String.eqb_spec k' k); [reflexivity | exact IH].
Qed.


(* ===================================================================== *)
(** ** Weighing the events of a run *)
(* ===================================================================== *)

Section Bounds.

Context (weight : event -> nat).

Lemma cost_app a b :
  cost weight (a ++ b) = (cost weight a + cost weight b)%nat.
Proof. induction a as [| ev a IH]; simpl; [reflexivity | rewrite IH; lia]. Qed.

Lemma bounded_weaken {A} (m : M A) a b :
  bounded weight a m -> (a <= b)%nat -> bounded weight b m.
Proof. intros Hm Hle history. specialize (Hm history). lia. Qed.

Lemma bounded_ret {A} (a : A) : bounded weight 0 (ret a).
Proof. intros history. simpl. lia. Qed.

Lemma bounded_raise {A} (e : value) : bounded weight 0 (raise e : M A).
Proof. intros history. simpl. lia. Qed.

Lemma bounded_lift {A} (c : completion A) : bounded weight 0 (lift c).
Proof. intros history. simpl. lia. Qed.

Lemma bounded_out_of_fuel {A} : bounded weight 0 (@out_of_fuel A).
Proof. intros history. simpl. lia. Qed.

Lemma bounded_perform {A} ev (answer : list event -> completion A) k :
  (weight ev <= k)%nat -> bounded weight k (perform ev answer).
Proof. intros Hle history. simpl. lia. Qed.

Lemma bounded_bind {A B} (m : M A) (k : A -> M B) a b :
  bounded weight a m -> (forall x, bounded weight b (k x)) ->
  bounded weight (a + b) (x <- m ;; k x).
Proof.
  intros Hm Hk history. specialize (Hm history). rewrite run_bind.
  destruct (run m history) as [[[x | e] |] added]; simpl in *; try lia.
  specialize (Hk x (history ++ added)%list).
  rewrite cost_app. lia.
Qed.

Lemma bounded_catch {A} (m : M A) (handler : value -> M A) a b :
  bounded weight a m -> (forall e, bounded weight b (handler e)) ->
  bounded weight (a + b) (catch m handler).
Proof.
  intros Hm Hk history. specialize (Hm history). rewrite run_catch.
  destruct (run m history) as [[[x | e] |] added]; simpl in *; try lia.
  specialize (Hk e (history ++ added)%list).
  rewrite cost_app. lia.
Qed.

Lemma bounded_if {A} (c : bool) (m1 m2 : M A) a b :
  bounded weight a m1 -> bounded weight b m2 ->
  bounded weight (Nat.max a b) (if c then m1 else m2).
Proof. intros H1 H2. destruct c; eapply bounded_weaken; eauto; lia. Qed.

Lemma bounded_option {A B} (o : option A) (f : A -> M B) (m : M B) a b :
  (forall x, bounded weight a (f x)) -> bounded weight b m ->
  bounded weight (Nat.max a b) (match o with Some x => f x | None => m end).
Proof. intros H1 H2. destruct o; eapply bounded_weaken; eauto; lia. Qed.

End Bounds.

Lemma elsewhere_GetObject bucket key :
  elsewhere bucket key (GetObject bucket key) = 0%nat.
Proof. simpl. now rewrite !String.eqb_refl. Qed.

Lemma elsewhere_PutObject bucket key body :
  elsewhere bucket key (PutObject bucket key body) = 0%nat.
Proof. simpl. now rewrite !String.eqb_refl. Qed.

Lemma nothing_elsewhere bucket key events :
  cost (elsewhere bucket key) events = 0%nat ->
  Forall (at_key bucket key) events.
Proof.
  induction events as [| ev events IH]; simpl; intros H; constructor.
  - destruct ev as [| | b k | b k body | | | |]; simpl in *; trivial;
      destruct (String.eqb_spec b bucket), (String.eqb_spec k key);
      simpl in H; try lia; auto.
  - apply IH. lia.
Qed.

Ltac weigh :=
  first [ reflexivity
        | rewrite elsewhere_GetObject; reflexivity
        | rewrite elsewhere_PutObject; reflexivity
        | simpl; lia ].

Ltac bound_step :=
  first
    [ apply bounded_ret | apply bounded_raise | apply bounded_lift
    | apply bounded_out_of_fuel
    | apply (bounded_perform _ _ _ 0%nat); weigh
    | apply (bounded_perform _ _ _ 1%nat); weigh
    | eapply bounded_bind; [| intros ? ]
    | eapply bounded_catch; [| intros ? ]
    | eapply bounded_if
    | eapply bounded_option; [ intros ? |] ].

(** Adds up the weights along the structure of a method; [tac] closes the
    goals about the methods it calls. *)
Ltac bound_by tac :=
  eapply bounded_weaken;
  [ repeat first [ bound_step | tac ] | simpl; lia ].

Ltac bound := bound_by fail.

Ltac open_methods :=
  unfold refresh, CreateServiceTA, read_ticket, usable_ticket,
    S3Connection.readFileS3, S3Connection.writeFileS3, settle, readFile,
    Date_now_, console_log.

(* ===================================================================== *)
(** ** Computations that finish, and where they start *)
(* ===================================================================== *)

Lemma finishes_ret {A} (a : A) : finishes (ret a).
Proof. intros history. discriminate. Qed.

Lemma finishes_raise {A} (e : value) : finishes (raise e : M A).
Proof. intros history. discriminate. Qed.

Lemma finishes_lift {A} (c : completion A) : finishes (lift c).
Proof. intros history. discriminate. Qed.

Lemma finishes_perform {A} ev (answer : list event -> completion A) :
  finishes (perform ev answer).
Proof. intros history. discriminate. Qed.

Lemma finishes_bind {A B} (m : M A) (k : A -> M B) :
  finishes m -> (forall x, finishes (k x)) -> finishes (x <- m ;; k x).
Proof.
  intros Hm Hk history. rewrite run_bind. specialize (Hm history).
  destruct (run m history) as [[[x | e] |] added]; simpl in *;
    [apply Hk | discriminate | now elim Hm].
Qed.

Lemma finishes_catch {A} (m : M A) (handler : value -> M A) :
  finishes m -> (forall e, finishes (handler e)) -> finishes (catch m handler).
Proof.
  intros Hm Hk history. rewrite run_catch. specialize (Hm history).
  destruct (run m history) as [[[x | e] |] added]; simpl in *;
    [discriminate | apply Hk | now elim Hm].
Qed.

Lemma finishes_if {A} (c : bool) (m1 m2 : M A) :
  finishes m1 -> finishes m2 -> finishes (if c then m1 else m2).
Proof. destruct c; auto. Qed.

Lemma finishes_option {A B} (o : option A) (f : A -> M B) (m : M B) :
  (forall x, finishes (f x)) -> finishes m ->
  finishes (match o with Some x => f x | None => m end).
Proof. destruct o; auto. Qed.

Ltac finish_step :=
  first
    [ apply finishes_ret | apply finishes_raise | apply finishes_lift
    | apply finishes_perform
    | apply finishes_bind; [| intros ? ]
    | apply finishes_catch; [| intros ? ]
    | apply finishes_if
    | apply finishes_option; [ intros ? |] ].

Lemma starts_with_perform {A} ev (answer : list event -> completion A) :
  starts_with ev (perform ev answer).
Proof. intros history. exists []. reflexivity. Qed.

Lemma starts_with_bind {A B} ev (m : M A) (k : A -> M B) :
  starts_with ev m -> starts_with ev (x <- m ;; k x).
Proof.
  intros Hm history. rewrite run_bind. destruct (Hm history) as [rest Hrest].
  destruct (run m history) as [[[x | e] |] added]; simpl in *; subst added;
    unfold after; simpl; eauto.
Qed.

Lemma starts_with_catch {A} ev (m : M A) (handler : value -> M A) :
  starts_with ev m -> starts_with ev (catch m handler).
Proof.
  intros Hm history. rewrite run_catch. destruct (Hm history) as [rest Hrest].
  destruct (run m history) as [[[x | e] |] added]; simpl in *; subst added;
    unfold after; simpl; eauto.
Qed.

(* ===================================================================== *)
(** ** GetServiceTA and CreateServiceTA *)
(* ===================================================================== *)

Section TicketProperties.

Context (L : Lib) (W : World) (afip : Options).

Local Abbreviation stored_ticket service :=
  (read_ticket afip (S3Connection.readFileS3 L W) service).

Lemma expirationTime_of_clipped tk t :
  expirationTime_of L tk = Returns (Num t) -> Z.abs t <= max_time.
Proof.
  unfold expirationTime_of. cbn.
  destruct (get tk "header") as [hd | ]; [| discriminate].
  destruct (get_index hd 1) as [sn | ]; [| discriminate].
  destruct (get sn "expirationtime") as [ev | ]; [| discriminate].
  intros [= H]. unfold new_Date in H. apply TimeClip_Num in H. tauto.
Qed.

Lemma usable_fresh tk t ta history :
  to_boolean tk = true ->
  expirationTime_of L tk = Returns (Num t) ->
  credentials_of tk = Returns ta ->
  - max_time <= Date_now W history ->
  Date_now W history + 600000 < t ->
  run (usable_ticket L W tk) history = (Some (Returns (Some ta)), [DateNow]).
Proof.
  intros Htk Hexp Hcred Hlo Hlt.
  unfold usable_ticket, Date_now_. rewrite Htk.
  run_step. run_step. rewrite Hexp.
  rewrite date_lt_fresh by eauto using expirationTime_of_clipped.
  run_step. rewrite Hcred. reflexivity.
Qed.

Lemma usable_stale tk d history :
  to_boolean tk = true ->
  expirationTime_of L tk = Returns d ->
  (d = NaN \/ exists t, d = Num t /\ t <= Date_now W history + 600000) ->
  run (usable_ticket L W tk) history = (Some (Returns None), [DateNow]).
Proof.
  intros Htk Hexp Hd.
  unfold usable_ticket, Date_now_. rewrite Htk.
  run_step. run_step. rewrite Hexp.
  destruct Hd as [-> | (t & -> & Hle)].
  - rewrite date_lt_NaN. reflexivity.
  - rewrite date_lt_stale by exact Hle. reflexivity.
Qed.

Lemma usable_absent tk history :
  to_boolean tk = false ->
  run (usable_ticket L W tk) history = (Some (Returns None), []).
Proof. intros Htk. unfold usable_ticket. rewrite Htk. reflexivity. Qed.

(** A ticket is handed out only when it expires more than ten minutes
    after the clock was read. *)
Lemma usable_ticket_Some tk ta history events :
  run (usable_ticket L W tk) history = (Some (Returns (Some ta)), events) ->
  exists t,
    events = [DateNow]
    /\ to_boolean tk = true
    /\ expirationTime_of L tk = Returns (Num t)
    /\ Date_now W history + 600000 < t
    /\ credentials_of tk = Returns ta.
Proof.
  unfold usable_ticket, Date_now_.
  destruct (to_boolean tk); [| discriminate].
  run_step. run_step.
  destruct (expirationTime_of L tk) as [d |]; [| discriminate].
  destruct (date_lt _ d) eqn:Hlt; [| discriminate].
  apply date_lt_true in Hlt. destruct Hlt as (t & -> & Hlt).
  run_step. destruct (credentials_of tk) as [ta' |]; [| discriminate].
  cbn. intros [= <- <-]. exists t. auto.
Qed.

Lemma GetServiceTA_rec_step n service firstTry history :
  run (GetServiceTA_rec L W afip (S n) service firstTry) history =
  run (afipDataToken <- stored_ticket service ;;
       found <- usable_ticket L W afipDataToken ;;
       match found with
       | Some ta => ret ta
       | None =>
           refresh L W afip (GetServiceTA_rec L W afip n) service firstTry
       end) history.
Proof. reflexivity. Qed.

(** The recursion never goes deeper than two calls. *)
Lemma GetServiceTA_rec_fuel n service firstTry history :
  run (GetServiceTA_rec L W afip (2 + n) service firstTry) history =
  run (GetServiceTA L W afip service firstTry) history.
Proof. destruct firstTry; reflexivity. Qed.

Lemma usable_ticket_returned n service firstTry history tk added t ta :
  run (stored_ticket service) history = (Some (Returns tk), added) ->
  to_boolean tk = true ->
  expirationTime_of L tk = Returns (Num t) ->
  credentials_of tk = Returns ta ->
  - max_time <= Date_now W (history ++ added) ->
  Date_now W (history ++ added) + 600000 < t ->
  run (GetServiceTA_rec L W afip (S n) service firstTry) history
  = (Some (Returns ta), (added ++ [DateNow])%list).
Proof.
  intros Hread Htk Hexp Hcred Hlo Hlt.
  rewrite GetServiceTA_rec_step, run_bind, Hread, run_bind.
  rewrite (usable_fresh tk t ta) by assumption.
  reflexivity.
Qed.

(** Whatever makes the validation fall through, the rest of the call is
    the same. *)
Lemma unusable_ticket_refresh n service firstTry history tk added probe :
  run (stored_ticket service) history = (Some (Returns tk), added) ->
  run (usable_ticket L W tk) (history ++ added)%list
  = (Some (Returns None), probe) ->
  run (GetServiceTA_rec L W afip (S n) service firstTry) history =
  after (added ++ probe)
    (run (refresh L W afip (GetServiceTA_rec L W afip n) service firstTry)
       (history ++ added ++ probe)%list).
Proof.
  intros Hread Hprobe.
  rewrite GetServiceTA_rec_step, run_bind, Hread, run_bind, Hprobe.
  rewrite after_after, <- app_assoc. reflexivity.
Qed.

(** The second call gives out a ticket only in the way the first does. *)
Lemma second_try_returns n service history ta events :
  run (GetServiceTA_rec L W afip (S n) service false) history
  = (Some (Returns ta), events) ->
  exists tk added t,
    run (stored_ticket service) history = (Some (Returns tk), added)
    /\ events = (added ++ [DateNow])%list
    /\ expirationTime_of L tk = Returns (Num t)
    /\ Date_now W (history ++ added) + 600000 < t
    /\ credentials_of tk = Returns ta.
Proof.
  rewrite GetServiceTA_rec_step, run_bind.
  destruct (run (stored_ticket service) history) as [[[tk | e] |] added];
    try discriminate.
  rewrite run_bind.
  destruct (run (usable_ticket L W tk) _) as [[[[ta' |] | e] |] probe] eqn:Hu;
    try discriminate.
  cbv beta iota. rewrite run_ret. unfold after. cbn [fst snd].
  rewrite app_nil_r. intros [= <- <-].
  apply usable_ticket_Some in Hu. destruct Hu as (t & -> & _ & Hexp & Hlt & Hc).
  exists tk, added, t. auto.
Qed.

(** The handler of lines 1132 to 1137 rethrows nothing: [!e.message] is a
    boolean, which is never identical to a string. *)
Lemma read_ticket_swallows readFileS3 service history e added :
  run (readFileS3 (taFilePath afip service)) history
  = (Some (Throws e), added) ->
  nullish e = false ->
  run (read_ticket afip readFileS3 service) history
  = (Some (Returns VNull), (added ++ [ConsoleLog e])%list).
Proof.
  intros Hread He. unfold read_ticket.
  rewrite run_catch, Hread. unfold console_log. run_step. run_step.
  destruct (get_not_nullish e "message" He) as [message ->].
  reflexivity.
Qed.

Lemma read_error_swallowed n service firstTry history e added :
  run (S3Connection.readFileS3 L W (taFilePath afip service)) history
  = (Some (Throws e), added) ->
  nullish e = false ->
  run (GetServiceTA_rec L W afip (S n) service firstTry) history
  = after (added ++ [ConsoleLog e])
      (run (refresh L W afip (GetServiceTA_rec L W afip n) service firstTry)
         (history ++ added ++ [ConsoleLog e])%list).
Proof.
  intros Hread He.
  rewrite (unusable_ticket_refresh n service firstTry history VNull
             (added ++ [ConsoleLog e]) []).
  - now rewrite !app_nil_r.
  - now apply read_ticket_swallows.
  - now apply usable_absent.
Qed.

(** The same holds with the other [S3Connection], which lets every error
    but [NoSuchKey] through to that handler. *)
Lemma read_error_swallowed_part_000 bucket folder service history e added :
  run (S3Connection_part_000.readFileS3 L W bucket folder
         (taFilePath afip service)) history
  = (Some (Throws e), added) ->
  nullish e = false ->
  run (read_ticket afip (S3Connection_part_000.readFileS3 L W bucket folder)
         service) history
  = (Some (Returns VNull), (added ++ [ConsoleLog e])%list).
Proof. apply read_ticket_swallows. Qed.

Lemma expirationTime_of_throws tk hd :
  get tk "header" = Returns hd ->
  (nullish hd = true
   \/ exists second,
        get_index hd 1 = Returns second /\ nullish second = true) ->
  exists base key,
    nullish base = true
    /\ expirationTime_of L tk = Throws (type_error base key).
Proof.
  intros Hhd [Hnull | (second & Hsecond & Hnull)];
    unfold expirationTime_of; cbn; rewrite Hhd.
  - exists hd, "1". split; [assumption |].
    destruct hd; try discriminate; reflexivity.
  - exists second, "expirationtime". split; [assumption |].
    rewrite Hsecond. destruct second; try discriminate; reflexivity.
Qed.


Lemma CreateServiceTA_finishes service :
  finishes (CreateServiceTA L W afip service).
Proof. open_methods. repeat finish_step. Qed.

Lemma second_try_finishes service :
  finishes (GetServiceTA_rec L W afip 1 service false).
Proof. simpl. open_methods. simpl. repeat finish_step. Qed.

Lemma GetServiceTA_finishes service firstTry :
  finishes (GetServiceTA L W afip service firstTry).
Proof.
  destruct firstTry; [| exact (second_try_finishes service)].
  unfold GetServiceTA.
  change (GetServiceTA_rec L W afip 2 service true) with
    (afipDataToken <- stored_ticket service ;;
     found <- usable_ticket L W afipDataToken ;;
     match found with
     | Some ta => ret ta
     | None => refresh L W afip (GetServiceTA_rec L W afip 1) service true
     end).
  unfold refresh, read_ticket, usable_ticket, S3Connection.readFileS3,
    Date_now_, console_log; simpl negb; cbv iota.
  repeat first [ finish_step
               | apply CreateServiceTA_finishes
               | apply second_try_finishes ].
Qed.

Lemma second_try_logins n service :
  bounded logins 0 (GetServiceTA_rec L W afip n service false).
Proof. destruct n as [| n]; simpl; open_methods; simpl; bound. Qed.

Lemma GetServiceTA_rec_logins n service firstTry :
  bounded logins 1 (GetServiceTA_rec L W afip n service firstTry).
Proof.
  destruct firstTry.
  - destruct n as [| n]; simpl; open_methods; simpl;
      bound_by ltac:(apply second_try_logins).
  - eapply bounded_weaken; [apply second_try_logins | lia].
Qed.

Lemma second_try_puts n service :
  bounded puts 0 (GetServiceTA_rec L W afip n service false).
Proof. destruct n as [| n]; simpl; open_methods; simpl; bound. Qed.

Lemma GetServiceTA_rec_puts n service firstTry :
  bounded puts 1 (GetServiceTA_rec L W afip n service firstTry).
Proof.
  destruct firstTry.
  - destruct n as [| n]; simpl; open_methods; simpl;
      bound_by ltac:(apply second_try_puts).
  - eapply bounded_weaken; [apply second_try_puts | lia].
Qed.

Lemma CreateServiceTA_elsewhere service :
  bounded (elsewhere S3Connection.bucket (taFilePath afip service)) 0
    (CreateServiceTA L W afip service).
Proof. open_methods; bound. Qed.

Lemma GetServiceTA_rec_elsewhere n service firstTry :
  bounded (elsewhere S3Connection.bucket (taFilePath afip service)) 0
    (GetServiceTA_rec L W afip n service firstTry).
Proof.
  revert firstTry. induction n as [| n IH]; intros firstTry; simpl.
  - bound.
  - open_methods. bound_by ltac:(apply IH).
Qed.

Lemma GetServiceTA_reads_first service firstTry :
  starts_with (GetObject S3Connection.bucket (taFilePath afip service))
    (GetServiceTA L W afip service firstTry).
Proof.
  unfold GetServiceTA. simpl GetServiceTA_rec.
  apply starts_with_bind. unfold read_ticket, S3Connection.readFileS3.
  do 2 apply starts_with_catch. apply starts_with_bind.
  apply starts_with_perform.
Qed.



(** A [catch] whose handler throws lets only the returns of its body
    through. *)
Lemma catch_rethrow_returns {A} (m : M A) (wrap : value -> value)
    history a events :
  run (catch m (fun err => raise (wrap err))) history
  = (Some (Returns a), events) ->
  run m history = (Some (Returns a), events).
Proof.
  rewrite run_catch.
  destruct (run m history) as [[[x | e] |] added]; try discriminate; trivial.
Qed.

(** Nothing stored, or something falsy: the call goes on with the
    refresh. *)
Lemma absent_ticket_is_refreshed service history tk added :
  run (stored_ticket service) history = (Some (Returns tk), added) ->
  to_boolean tk = false ->
  run (GetServiceTA L W afip service true) history
  = after added
      (run (refresh L W afip (GetServiceTA L W afip) service true)
         (history ++ added)%list).
Proof.
  intros Hread Htk.
  pose proof (unusable_ticket_refresh 1 service true history tk added []
                Hread (usable_absent tk _ Htk)) as H.
  now rewrite !app_nil_r in H.
Qed.

(** C2: a stored ticket that expires at or before now + 600000 ms is not
    returned.  The validation falls through, and the call goes on with the
    refresh of lines 1154 to 1165 (CreateServiceTA, then GetServiceTA with
    firstTry false), which makes no use of the stored ticket, just as it
    does when nothing was read.  What the call returns, if it returns, are
    the credentials of a record that was read again after CreateServiceTA
    returned and that expires more than ten minutes after the clock was
    read again: a later expiration than the stale ticket's, unless the
    clock has gone back in between. *)
Theorem stale_ticket_is_refreshed service history tk added t :
  run (stored_ticket service) history = (Some (Returns tk), added) ->
  to_boolean tk = true ->
  expirationTime_of L tk = Returns (Num t) ->
  t <= Date_now W (history ++ added) + 600000 ->
  let refreshing := (history ++ added ++ [DateNow])%list in
  run (usable_ticket L W tk) (history ++ added)%list
  = (Some (Returns None), [DateNow])
  /\ run (GetServiceTA L W afip service true) history
     = after (added ++ [DateNow])
         (run (refresh L W afip (GetServiceTA L W afip) service true)
            refreshing)
  /\ forall ta events,
       run (GetServiceTA L W afip service true) history
       = (Some (Returns ta), events) ->
       exists created tk' added' t',
         run (CreateServiceTA L W afip service) refreshing
         = (Some (Returns tt), created)
         /\ run (stored_ticket service) (refreshing ++ created)%list
            = (Some (Returns tk'), added')
         /\ expirationTime_of L tk' = Returns (Num t')
         /\ Date_now W (refreshing ++ created ++ added')%list + 600000 < t'
         /\ credentials_of tk' = Returns ta
         /\ (Date_now W (history ++ added)
             <= Date_now W (refreshing ++ created ++ added')%list ->
             t < t').
Proof.
  intros Hread Htk Hexp Hle refreshing.
  assert (Hprobe : run (usable_ticket L W tk) (history ++ added)%list
                   = (Some (Returns None), [DateNow])).
  { apply usable_stale with (d := Num t); eauto. }
  assert (Hrun : run (GetServiceTA L W afip service true) history
                 = after (added ++ [DateNow])
                     (run (refresh L W afip (GetServiceTA L W afip) service
                             true) refreshing)).
  { exact (unusable_ticket_refresh 1 service true history tk added [DateNow]
             Hread Hprobe). }
  repeat split; [exact Hprobe | exact Hrun |].
  intros ta events Hreturns. rewrite Hrun in Hreturns.
  unfold refresh in Hreturns. simpl negb in Hreturns. cbv iota in Hreturns.
  rewrite run_bind in Hreturns.
  destruct (run (catch (CreateServiceTA L W afip service) _) refreshing)
    as [[[[] | e] |] created] eqn:Hcreate; try discriminate.
  apply catch_rethrow_returns in Hcreate.
  destruct (run (GetServiceTA L W afip service false) _)
    as [[[ta' | e] |] again] eqn:Hagain; try discriminate.
  injection Hreturns as <- _.
  apply (second_try_returns 1) in Hagain.
  destruct Hagain as (tk' & added' & t' & Hread' & _ & Hexp' & Hlt' & Hc').
  exists created, tk', added', t'.
  rewrite <- app_assoc in Hlt'. repeat split; auto. lia.
Qed.

(** C3: a stored ticket that expires strictly after now + 600000 ms (the
    date under header[1].expirationtime of the record that was read) is
    returned as it is: the token and the sign that GetServiceTA returns
    are the token and the sign under the credentials of that record.  The call does nothing but read the store and the clock:
    no login call and no write. *)
Theorem fresh_ticket_is_returned
    service firstTry history tk added header second expirationtime t
    credentials stored_token stored_sign :
  run (stored_ticket service) history = (Some (Returns tk), added) ->
  to_boolean tk = true ->
  get tk "header" = Returns header ->
  get_index header 1 = Returns second ->
  get second "expirationtime" = Returns expirationtime ->
  new_Date L expirationtime = Num t ->
  get tk "credentials" = Returns credentials ->
  get credentials "token" = Returns stored_token ->
  get credentials "sign" = Returns stored_sign ->
  - max_time <= Date_now W (history ++ added) ->
  Date_now W (history ++ added) + 600000 < t ->
  run (GetServiceTA L W afip service firstTry) history
  = (Some (Returns {| token := stored_token; sign := stored_sign |}),
     (added ++ [DateNow])%list)
  /\ cost logins (added ++ [DateNow]) = 0%nat
  /\ cost puts (added ++ [DateNow]) = 0%nat.
Proof.
  intros Hread Htk Hheader Hsecond Hexpirationtime Hdate
    Hcredentials Htoken Hsign Hlo Hlt.
  assert (Hexp : expirationTime_of L tk = Returns (Num t)).
  { unfold expirationTime_of. cbn -[get get_index new_Date].
    now rewrite Hheader, Hsecond, Hexpirationtime, Hdate. }
  assert (Hcred : credentials_of tk
                  = Returns {| token := stored_token; sign := stored_sign |}).
  { unfold credentials_of. cbn -[get].
    now rewrite Hcredentials, Htoken, Hsign. }
  assert (Hrun : run (GetServiceTA L W afip service firstTry) history
                 = (Some (Returns {| token := stored_token;
                                     sign := stored_sign |}),
                    (added ++ [DateNow])%list)).
  { exact (usable_ticket_returned 1 service firstTry history tk added t _
             Hread Htk Hexp Hcred Hlo Hlt). }
  split; [exact Hrun |].
  pose proof (GetServiceTA_rec_logins 2 service firstTry history) as Hl.
  pose proof (GetServiceTA_rec_puts 2 service firstTry history) as Hp.
  fold (GetServiceTA L W afip service firstTry) in Hl, Hp.
  rewrite Hrun in Hl, Hp. simpl snd in Hl, Hp.
  assert (Hquiet : forall weight,
            bounded weight 0 (stored_ticket service) ->
            weight DateNow = 0%nat ->
            cost weight (added ++ [DateNow]) = 0%nat).
  { intros weight Hb Hd. specialize (Hb history). rewrite Hread in Hb.
    rewrite cost_app. simpl in *. lia. }
  split; apply Hquiet; try reflexivity; open_methods; bound.
Qed.

(** C4: a call of GetServiceTA refreshes at most once.  The recursion
    never needs more than its two levels and always finishes; a run holds
    at most one login call and one write; and when the validation falls
    through, CreateServiceTA returns, and the validation falls through
    again, the call throws Error('Error getting Token Autorization')
    without another refresh. *)
Theorem refresh_runs_at_most_once service history :
  (forall n firstTry,
     run (GetServiceTA_rec L W afip (2 + n) service firstTry) history
     = run (GetServiceTA L W afip service firstTry) history)
  /\ (forall firstTry,
        fst (run (GetServiceTA L W afip service firstTry) history) <> None)
  /\ (forall firstTry,
        (cost logins (snd (run (GetServiceTA L W afip service firstTry)
                             history)) <= 1)%nat
        /\ (cost puts (snd (run (GetServiceTA L W afip service firstTry)
                              history)) <= 1)%nat)
  /\ (cost logins (snd (run (GetServiceTA L W afip service false) history))
      = 0%nat)
  /\ forall tk added probe created tk' added' probe',
       run (stored_ticket service) history = (Some (Returns tk), added) ->
       run (usable_ticket L W tk) (history ++ added)%list
       = (Some (Returns None), probe) ->
       run (CreateServiceTA L W afip service) (history ++ added ++ probe)%list
       = (Some (Returns tt), created) ->
       run (stored_ticket service) (history ++ added ++ probe ++ created)%list
       = (Some (Returns tk'), added') ->
       run (usable_ticket L W tk')
         (history ++ added ++ probe ++ created ++ added')%list
       = (Some (Returns None), probe') ->
       run (GetServiceTA L W afip service true) history
       = (Some (Throws (VError "Error" "Error getting Token Autorization")),
          (added ++ probe ++ created ++ added' ++ probe')%list).
Proof.
  split; [| split; [| split; [| split]]].
  - intros n firstTry. apply GetServiceTA_rec_fuel.
  - intros firstTry. apply GetServiceTA_finishes.
  - intros firstTry. split.
    + apply (GetServiceTA_rec_logins 2).
    + apply (GetServiceTA_rec_puts 2).
  - pose proof (second_try_logins 2 service history) as H.
    unfold GetServiceTA. lia.
  - intros tk added probe created tk' added' probe'
      Hread Hprobe Hcreate Hread' Hprobe'.
    unfold GetServiceTA.
    rewrite (unusable_ticket_refresh 1 service true history tk added probe
               Hread Hprobe).
    unfold refresh at 1. simpl negb. cbv iota.
    rewrite run_bind, run_catch, Hcreate.
    rewrite <- !app_assoc in *.
    rewrite (unusable_ticket_refresh 0 service false _ tk' added' probe'
               Hread').
    + unfold after. simpl. now rewrite <- !app_assoc, app_nil_r.
    + rewrite <- !app_assoc. exact Hprobe'.
Qed.

(** C9, as the code has it: the read of GetServiceTA and the write of
    CreateServiceTA are both at the key TA-<CUIT>-<service>.json for the
    test environment and TA-<CUIT>-<service>-production.json for
    production, and at no other key.  For one CUIT, two pairs of a
    service and an environment have the same key exactly when they are
    the same pair, or when one is in production and the other is in the
    test environment with the name of the first followed by
    '-production'. *)
Theorem ticket_key_is_shared service :
  taFilePath afip service
  = "TA-" ++ to_string (CUIT afip) ++ "-" ++ service
      ++ (if production afip then "-production.json" else ".json")
  /\ (forall firstTry history,
        Forall (at_key S3Connection.bucket (taFilePath afip service))
          (snd (run (GetServiceTA L W afip service firstTry) history))
        /\ exists rest,
             snd (run (GetServiceTA L W afip service firstTry) history)
             = GetObject S3Connection.bucket (taFilePath afip service) :: rest)
  /\ (forall history,
        Forall (at_key S3Connection.bucket (taFilePath afip service))
          (snd (run (CreateServiceTA L W afip service) history)))
  /\ (forall other service',
        CUIT other = CUIT afip ->
        (taFilePath other service' = taFilePath afip service
         <-> (production other = production afip /\ service' = service)
             \/ (production other = true /\ production afip = false
                 /\ service = service' ++ "-production")
             \/ (production other = false /\ production afip = true
                 /\ service' = service ++ "-production"))).
Proof.
  split; [| split; [| split]].
  - unfold taFilePath. destruct (production afip); reflexivity.
  - intros firstTry history. split.
    + apply nothing_elsewhere.
      pose proof (GetServiceTA_rec_elsewhere 2 service firstTry history).
      unfold GetServiceTA. lia.
    + apply GetServiceTA_reads_first.
  - intros history. apply nothing_elsewhere.
    pose proof (CreateServiceTA_elsewhere service history). lia.
  - intros other service' Hcuit.
    assert (Hkeys :
      taFilePath other service' = taFilePath afip service
      <-> service' ++ (if production other then "-production" else "")
          = service ++ (if production afip then "-production" else "")).
    { unfold taFilePath. rewrite Hcuit. split.
      - intros Hkey. do 3 apply append_inv_head in Hkey.
        rewrite <- !append_assoc in Hkey.
        now apply append_inv_tail in Hkey.
      - intros Hkey.
        rewrite <- (append_assoc service'), <- (append_assoc service), Hkey.
        reflexivity. }
    rewrite Hkeys.
    destruct (production other), (production afip);
      rewrite ?append_empty; split; intros H.
    + apply append_inv_tail in H. auto.
    + destruct H as [[_ ->] | [(_ & [=] & _) | ([=] & _)]]. reflexivity.
    + right. left. auto.
    + destruct H as [[[=] _] | [(_ & _ & ->) | ([=] & _)]]. reflexivity.
    + right. right. auto.
    + destruct H as [[[=] _] | [([=] & _) | (_ & _ & ->)]]. reflexivity.
    + left. auto.
    + destruct H as [[_ ->] | [([=] & _) | (_ & [=] & _)]]. reflexivity.
Qed.

(** C10, as the code has it: when the record read is truthy and its header
    is undefined or null, or header[1] is (a missing header, a header with
    a single element), GetServiceTA throws the TypeError of reading a
    property of undefined or null, on either try, after reading the
    clock; it neither refreshes nor throws the authorization error.  When
    header[1] is there and has no expirationtime, nothing is thrown at
    that place: the expiration is an invalid date, the validation falls
    through after reading the clock, and the call goes on as for an
    expired record, with the refresh on the first try and the
    authorization error on the second. *)
Theorem broken_header_throws service firstTry history tk added hd :
  run (stored_ticket service) history = (Some (Returns tk), added) ->
  to_boolean tk = true ->
  get tk "header" = Returns hd ->
  ((nullish hd = true
    \/ exists second,
         get_index hd 1 = Returns second /\ nullish second = true) ->
   exists base key,
     nullish base = true
     /\ run (GetServiceTA L W afip service firstTry) history
        = (Some (Throws (type_error base key)), (added ++ [DateNow])%list))
  /\ (forall second,
        get_index hd 1 = Returns second ->
        get second "expirationtime" = Returns VUndefined ->
        expirationTime_of L tk = Returns NaN
        /\ run (usable_ticket L W tk) (history ++ added)%list
           = (Some (Returns None), [DateNow])
        /\ run (GetServiceTA L W afip service true) history
           = after (added ++ [DateNow])
               (run (refresh L W afip (GetServiceTA L W afip) service true)
                  (history ++ added ++ [DateNow])%list)
        /\ run (GetServiceTA L W afip service false) history
           = (Some (Throws (VError "Error"
                              "Error getting Token Autorization")),
              (added ++ [DateNow])%list)).
Proof.
  intros Hread Htk Hhd. split.
  - intros Hbad.
    destruct (expirationTime_of_throws tk hd Hhd Hbad)
      as (base & key & Hnull & Hexp).
    exists base, key. split; [assumption |].
    unfold GetServiceTA.
    rewrite GetServiceTA_rec_step, run_bind, Hread, run_bind.
    unfold usable_ticket, Date_now_. rewrite Htk.
    run_step. run_step. rewrite Hexp. reflexivity.
  - intros second Hsecond Hexpirationtime.
    assert (Hexp : expirationTime_of L tk = Returns NaN).
    { unfold expirationTime_of. cbn -[get get_index].
      now rewrite Hhd, Hsecond, Hexpirationtime. }
    assert (Hprobe : run (usable_ticket L W tk) (history ++ added)%list
                     = (Some (Returns None), [DateNow])).
    { apply usable_stale with (d := NaN); auto. }
    repeat split; [exact Hexp | exact Hprobe | |].
    + exact (unusable_ticket_refresh 1 service true history tk added
               [DateNow] Hread Hprobe).
    + unfold GetServiceTA.
      rewrite (unusable_ticket_refresh 1 service false history tk added
                 [DateNow] Hread Hprobe).
      unfold refresh. simpl negb. cbv iota.
      unfold after. simpl. now rewrite app_nil_r.
Qed.

End TicketProperties.

(* ===================================================================== *)
(** ** executeRequest *)
(* ===================================================================== *)

Lemma errors_pass res v :
  match get res "Errors" with
  | Returns Errors =>
      if to_boolean Errors then
        match get Errors "Err" with
        | Returns Err =>
            match (if is_array Err then get_index Err 0 else Returns Err) with
            | Returns err =>
                match get err "Code" with
                | Returns Code =>
                    match get err "Msg" with
                    | Returns Msg =>
                        Throws (VError "Error"
                                  ("(" ++ to_string Code ++ ") "
                                     ++ to_string Msg))
                    | Throws e => Throws e
                    end
                | Throws e => Throws e
                end
            | Throws e => Throws e
            end
        | Throws e => Throws e
        end
      else Returns res
  | Throws e => Throws e
  end = Returns v ->
  v = res.
Proof.
  destruct (get res "Errors") as [Errors |]; [| discriminate].
  destruct (to_boolean Errors) eqn:HE.
  - destruct (get Errors "Err") as [Err |]; [| discriminate].
    destruct (if is_array Err then get_index Err 0 else Returns Err)
      as [err |]; [| discriminate].
    destruct (get err "Code"); [| discriminate].
    destruct (get err "Msg"); discriminate.
  - now intros [= <-].
Qed.

(** What [_checkErrors] of wsfe leaves of the result when it does not
    throw. *)
Lemma checkErrors_returns operation results v :
  ElectronicBilling._checkErrors operation results = Returns v ->
  exists res,
    get results (operation ++ "Result") = Returns res
    /\ ((v = res /\ untouched operation res)
        \/ (operation = "FECAESolicitar" /\ unwrapped res v)).
Proof.
  unfold ElectronicBilling._checkErrors. cbn -[assign get set].
  destruct (get results (operation ++ "Result")) as [res |]; [| discriminate].
  intros H. exists res. split; [reflexivity |].
  destruct (String.eqb_spec operation "FECAESolicitar") as [-> | Hop].
  2: { apply errors_pass in H. left. split; [assumption | now left]. }
  destruct (get res "FeDetResp") as [FeDetResp |] eqn:HFe; [| discriminate].
  destruct (to_boolean FeDetResp) eqn:HFeT.
  2: { apply errors_pass in H. left. split; [assumption |].
       right. exists FeDetResp. auto. }
  destruct (get FeDetResp "FECAEDetResponse") as [Det |] eqn:HDet;
    [| discriminate].
  destruct (truthy_property res "FeDetResp" FeDetResp HFe HFeT
              eq_refl eq_refl) as (fields & -> & Hl).
  destruct (is_array Det) eqn:HArr.
  - destruct Det as [| | | | | items | |]; try discriminate.
    cbn -[assign get] in H.
    destruct FeDetResp as [| | | | | | dfields |]; try discriminate.
    cbn -[assign get] in H. rewrite !get_assign in H.
    assert (Hd : lookup "FECAEDetResponse" dfields = Some (VArray items)).
    { simpl in HDet. destruct (lookup "FECAEDetResponse" dfields); congruence. }
    assert (Hunwrapped :
      forall v', v' = VObject
                   (assign "FeDetResp"
                      (VObject (assign "FECAEDetResponse"
                                  (nth 0 items VUndefined) dfields)) fields) ->
                 unwrapped (VObject fields) v').
    { intros v' ->. exists fields, dfields, items. auto. }
    destruct (get (nth 0 items VUndefined) "Observaciones")
      as [Observaciones |]; [| discriminate].
    cbn -[assign get] in H.
    destruct (to_boolean Observaciones).
    + destruct (get (nth 0 items VUndefined) "Resultado") as [Resultado |];
        [| discriminate].
      cbn -[assign get] in H.
      destruct (strict_eq_string Resultado "A"); cbn -[assign get] in H.
      * apply errors_pass in H. right. auto.
      * destruct (get Observaciones "Obs") as [Obs |]; [| discriminate].
        cbn -[assign get] in H. rewrite get_assign in H.
        cbn -[assign] in H.
        destruct (if is_array Obs then get_index Obs 0 else Returns Obs)
          as [err |]; [| discriminate].
        destruct (get err "Code"); [| discriminate].
        destruct (get err "Msg"); discriminate.
    + cbn -[assign get] in H. apply errors_pass in H. right. auto.
  - cbn -[assign get] in H. rewrite HFe in H. cbn -[assign get] in H.
    rewrite HDet in H.
    assert (Huntouched : untouched "FECAESolicitar" (VObject fields)).
    { right. exists FeDetResp. split; [assumption |]. right. eauto. }
    destruct (get Det "Observaciones") as [Observaciones |]; [| discriminate].
    cbn -[assign get] in H.
    destruct (to_boolean Observaciones).
    + destruct (get Det "Resultado") as [Resultado |]; [| discriminate].
      cbn -[assign get] in H.
      destruct (strict_eq_string Resultado "A"); cbn -[assign get] in H.
      * apply errors_pass in H. left. auto.
      * destruct (get Observaciones "Obs") as [Obs |]; [| discriminate].
        cbn -[assign get] in H. rewrite get_assign in H.
        cbn -[assign] in H.
        destruct (if is_array Obs then get_index Obs 0 else Returns Obs)
          as [err |]; [| discriminate].
        destruct (get err "Code"); [| discriminate].
        destruct (get err "Msg"); discriminate.
    + cbn -[assign get] in H. apply errors_pass in H. left. auto.
Qed.

Lemma flat_errors_thrown operation results res e Code Msg :
  get results (operation ++ "Result") = Returns res ->
  flat_error_list operation res e ->
  get e "Code" = Returns Code ->
  get e "Msg" = Returns Msg ->
  ElectronicBilling._checkErrors operation results
  = Throws (VError "Error" (error_text Code Msg)).
Proof.
  intros Hres (Hdetail & Errors & Err & HErrors & Htrue & HErr & Hwrapped)
    HCode HMsg.
  pose proof (first_of_wrapped e Err Hwrapped) as Hfirst.
  unfold ElectronicBilling._checkErrors. cbn -[assign get]. rewrite Hres.
  destruct Hdetail as [-> | [(FeDetResp & -> & ->) | Haccepted]].
  - rewrite HErrors, Htrue, HErr, Hfirst, HCode, HMsg. reflexivity.
  - destruct (String.eqb operation "FECAESolicitar");
      rewrite HErrors, Htrue, HErr, Hfirst, HCode, HMsg; reflexivity.
  - destruct (String.eqb operation "FECAESolicitar");
      [| rewrite HErrors, Htrue, HErr, Hfirst, HCode, HMsg; reflexivity].
    destruct Haccepted
      as (dfields & Det & det & Observaciones & HFeDetResp & HDet & Hdet
          & HObservaciones & Haccepted).
    destruct (truthy_property res "FeDetResp" (VObject dfields) HFeDetResp
                eq_refl eq_refl eq_refl) as (fields & -> & _).
    assert (Hrejected :
      (if to_boolean Observaciones
       then match get det "Resultado" with
            | Returns Resultado =>
                Returns (negb (strict_eq_string Resultado "A"))
            | Throws t => Throws t
            end
       else Returns false) = Returns false).
    { destruct Haccepted as [-> | ->]; [reflexivity |].
      now destruct (to_boolean Observaciones). }
    rewrite HFeDetResp. cbn -[assign get]. rewrite HDet.
    destruct Hdet as [[-> Hnot] | [rest ->]]; cbn -[assign get].
    + rewrite Hnot, HFeDetResp, HDet, HObservaciones, Hrejected.
      rewrite HErrors, Htrue, HErr, Hfirst, HCode, HMsg. reflexivity.
    + rewrite !get_assign, HObservaciones, Hrejected.
      assert (HErrors' :
        get (VObject (assign "FeDetResp"
                        (VObject (assign "FECAEDetResponse" det dfields))
                        fields)) "Errors" = Returns Errors).
      { simpl. rewrite lookup_assign_other by discriminate. exact HErrors. }
      rewrite HErrors', Htrue, HErr, Hfirst, HCode, HMsg. reflexivity.
Qed.

Lemma observations_thrown results res e Code Msg :
  get results "FECAESolicitarResult" = Returns res ->
  rejected_detail res e ->
  get e "Code" = Returns Code ->
  get e "Msg" = Returns Msg ->
  ElectronicBilling._checkErrors "FECAESolicitar" results
  = Throws (VError "Error" (error_text Code Msg)).
Proof.
  intros Hres
    (fields & dfields & Det & det & Observaciones & Resultado & Obs & ->
     & HFeDetResp & HDet & Hdet & HObservaciones & Htrue & HResultado
     & Hrejected & HObs & Hobs)
    HCode HMsg.
  pose proof (first_of_wrapped e Obs Hobs) as Hfirst.
  unfold ElectronicBilling._checkErrors. cbn -[assign get].
  rewrite Hres, HFeDetResp. cbn -[assign get]. rewrite HDet.
  destruct Hdet as [[-> Hnot] | [rest ->]]; cbn -[assign get].
  - rewrite Hnot, HFeDetResp, HDet, HObservaciones, Htrue, HResultado,
      Hrejected.
    cbn -[assign get]. rewrite HObs, get_assign. cbn -[assign get].
    change (get (VObject [("Err", Obs)]) "Err") with (Returns Obs).
    cbn -[assign get]. rewrite Hfirst, HCode, HMsg. reflexivity.
  - rewrite !get_assign, HObservaciones, Htrue, HResultado, Hrejected.
    cbn -[assign get]. rewrite HObs, get_assign. cbn -[assign get].
    change (get (VObject [("Err", Obs)]) "Err") with (Returns Obs).
    cbn -[assign get]. rewrite Hfirst, HCode, HMsg. reflexivity.
Qed.

Section GatewayProperties.

Context (L : Lib) (W : World) (afip : Options).

Lemma loose_neq_zero_of_number c :
  number_is_zero (to_number L c) = false -> loose_neq_zero L c = true.
Proof. intros H. destruct c; simpl in *; try reflexivity; now rewrite H. Qed.

Lemma export_error_thrown operation results res FEXErr e ErrCode ErrMsg
    history :
  get results (operation ++ "Result") = Returns res ->
  export_error res FEXErr e ->
  get e "ErrCode" = Returns ErrCode ->
  number_is_zero (to_number L ErrCode) = false ->
  get e "ErrMsg" = Returns ErrMsg ->
  run (ExportElectronicBilling._checkErrors L operation results) history
  = (Some (Throws (VError "Error" (error_text ErrCode ErrMsg))),
     [ConsoleLog FEXErr]).
Proof.
  intros Hres (HFEXErr & Htrue & Hwrapped) HCode Hnonzero HMsg.
  pose proof (first_of_wrapped e FEXErr Hwrapped) as Hfirst.
  unfold ExportElectronicBilling._checkErrors, console_log.
  run_step. rewrite Hres. run_step. rewrite HFEXErr.
  rewrite run_bind, Htrue.
  assert (Hoffending :
    run (ErrCode <- lift (get FEXErr "ErrCode") ;;
         ret (loose_neq_zero L ErrCode)) ((history ++ []) ++ [])%list
    = (Some (Returns true), [])).
  { run_step. destruct Hwrapped as [[Heq _] | [rest Heq]]; rewrite Heq.
    - rewrite HCode. rewrite run_ret.
      rewrite loose_neq_zero_of_number by assumption. reflexivity.
    - reflexivity. }
  rewrite Hoffending. cbv beta iota.
  run_step. rewrite run_bind.
  assert (Herr :
    forall h, run (if is_array FEXErr then lift (get_index FEXErr 0)
                   else ret FEXErr) h = (Some (Returns e), [])).
  { intros h. destruct (is_array FEXErr); [rewrite run_lift | rewrite run_ret];
      congruence. }
  rewrite Herr. cbv beta iota.
  run_step. rewrite HCode. cbv beta iota. rewrite Hnonzero.
  simpl negb. cbv iota.
  run_step. run_step. rewrite HMsg. reflexivity.
Qed.

Lemma run_executeRequest_wsfe operation params history results events :
  answered_wsfe L W afip operation params history results events ->
  run (ElectronicBilling.executeRequest L W afip operation params) history
  = (Some (ElectronicBilling._checkErrors operation results), events).
Proof.
  intros (initial & pre & Hinitial & Hanswer & ->).
  unfold ElectronicBilling.executeRequest.
  rewrite run_bind, Hinitial. cbv zeta. run_step. rewrite Hanswer.
  rewrite run_lift. reflexivity.
Qed.

Lemma run_executeRequest_wsfex operation params history results events :
  answered_wsfex L W afip operation params history results events ->
  run (ExportElectronicBilling.executeRequest L W afip operation params)
    history
  = after events
      (run (ExportElectronicBilling._checkErrors L operation results ;;
            lift (get results (operation ++ "Result")))
         (history ++ events)%list).
Proof.
  intros (initial & pre & Hinitial & Hanswer & ->).
  unfold ExportElectronicBilling.executeRequest.
  rewrite run_bind, Hinitial. cbv zeta. run_step. rewrite Hanswer.
  rewrite after_after, <- app_assoc. reflexivity.
Qed.

(** A request that completes was answered. *)
Lemma executeRequest_wsfe_answered operation params history c events :
  run (ElectronicBilling.executeRequest L W afip operation params) history
  = (Some (Returns c), events) ->
  exists results,
    answered_wsfe L W afip operation params history results events.
Proof.
  unfold ElectronicBilling.executeRequest. rewrite run_bind.
  destruct (run (ElectronicBilling.getWSInitialRequest L W afip operation)
              history) as [[[initial | e] |] pre] eqn:Hinitial;
    try discriminate.
  cbv zeta. run_step.
  destruct (soap_operation W _ "wsfe" operation _) as [results | e]
    eqn:Hanswer; [| discriminate].
  rewrite run_lift. unfold after. simpl.
  intros [= _ <-]. exists results, initial, pre. auto.
Qed.

Lemma executeRequest_wsfex_answered operation params history v events :
  run (ExportElectronicBilling.executeRequest L W afip operation params)
    history
  = (Some (Returns v), events) ->
  exists results sent log,
    answered_wsfex L W afip operation params history results sent
    /\ events = (sent ++ log)%list
    /\ get results (operation ++ "Result") = Returns v.
Proof.
  unfold ExportElectronicBilling.executeRequest. rewrite run_bind.
  destruct (run (ExportElectronicBilling.getWSInitialRequest L W afip
                   operation params) history)
    as [[[initial | e] |] pre] eqn:Hinitial; try discriminate.
  cbv zeta. run_step.
  destruct (soap_operation W _ "wsfex" operation _) as [results | e]
    eqn:Hanswer; [| discriminate].
  rewrite run_bind.
  destruct (run (ExportElectronicBilling._checkErrors L operation results) _)
    as [[[[] | e] |] log]; try discriminate.
  rewrite run_lift. unfold after. simpl. rewrite app_nil_r.
  intros [= Hv <-].
  exists results,
    (pre ++ [SoapOperation "wsfex" operation
               (VObject (Object_assign params initial))])%list, log.
  repeat split.
  - exists initial, pre. auto.
  - now rewrite <- app_assoc.
  - destruct (get results (operation ++ "Result")); congruence.
Qed.

(** C5, as the code has it: in each of the three shapes an error entry
    comes in (a flat list res.Errors.Err, the observations of a
    FECAESolicitar detail whose Resultado is not 'A', an export error
    object res.FEXErr whose ErrCode is not zero as a number)
    executeRequest throws an Error whose text is made of the code and the
    message of the entry, the entry being the value itself or the first
    element of the array that wraps it; the text is the same in the three
    shapes for the same code and message.  In an answer to FECAESolicitar
    the flat list is what is thrown when there is no detail block, or
    when the detail has no observations or has Resultado 'A'; the
    observations of any other detail are thrown whatever the flat list
    holds; and a detail block without a detail makes the call throw the
    TypeError of reading Observaciones from undefined or null. *)
Theorem error_shapes_agree Code Msg :
  (forall operation params history results events res e,
     answered_wsfe L W afip operation params history results events ->
     get results (operation ++ "Result") = Returns res ->
     flat_error_list operation res e ->
     get e "Code" = Returns Code ->
     get e "Msg" = Returns Msg ->
     run (ElectronicBilling.executeRequest L W afip operation params) history
     = (Some (Throws (VError "Error" (error_text Code Msg))), events))
  /\ (forall params history results events res e,
        answered_wsfe L W afip "FECAESolicitar" params history results
          events ->
        get results "FECAESolicitarResult" = Returns res ->
        rejected_detail res e ->
        get e "Code" = Returns Code ->
        get e "Msg" = Returns Msg ->
        run (ElectronicBilling.executeRequest L W afip "FECAESolicitar" params)
          history
        = (Some (Throws (VError "Error" (error_text Code Msg))), events))
  /\ (forall operation params history results events res FEXErr e,
        answered_wsfex L W afip operation params history results events ->
        get results (operation ++ "Result") = Returns res ->
        export_error res FEXErr e ->
        get e "ErrCode" = Returns Code ->
        number_is_zero (to_number L Code) = false ->
        get e "ErrMsg" = Returns Msg ->
        run (ExportElectronicBilling.executeRequest L W afip operation params)
          history
        = (Some (Throws (VError "Error" (error_text Code Msg))),
           (events ++ [ConsoleLog FEXErr])%list))
  /\ (forall params history results events res FeDetResp Det,
        answered_wsfe L W afip "FECAESolicitar" params history results
          events ->
        get results "FECAESolicitarResult" = Returns res ->
        get res "FeDetResp" = Returns FeDetResp ->
        to_boolean FeDetResp = true ->
        get FeDetResp "FECAEDetResponse" = Returns Det ->
        nullish Det = true ->
        run (ElectronicBilling.executeRequest L W afip "FECAESolicitar" params)
          history
        = (Some (Throws (type_error Det "Observaciones")), events)).
Proof.
  repeat split.
  - intros operation params history results events res e
      Hanswered Hres Hshape HCode HMsg.
    rewrite (run_executeRequest_wsfe _ _ _ _ _ Hanswered).
    now rewrite (flat_errors_thrown operation results res e Code Msg).
  - intros params history results events res e
      Hanswered Hres Hshape HCode HMsg.
    rewrite (run_executeRequest_wsfe _ _ _ _ _ Hanswered).
    now rewrite (observations_thrown results res e Code Msg).
  - intros operation params history results events res FEXErr e
      Hanswered Hres Hshape HCode Hnonzero HMsg.
    rewrite (run_executeRequest_wsfex _ _ _ _ _ Hanswered), run_bind.
    now rewrite (export_error_thrown operation results res FEXErr e Code Msg).
  - intros params history results events res FeDetResp Det
      Hanswered Hres HFeDetResp Htrue HDet Hnull.
    rewrite (run_executeRequest_wsfe _ _ _ _ _ Hanswered).
    unfold ElectronicBilling._checkErrors. cbn -[assign get].
    rewrite Hres, HFeDetResp, Htrue. cbn -[assign get]. rewrite HDet.
    destruct Det; try discriminate; cbn -[assign get];
      rewrite HFeDetResp; cbn -[assign get]; rewrite HDet; reflexivity.
Qed.

(** C8, as the code has it: when executeRequest returns, it returns the
    value the answer holds under <operation>Result.  The export class
    returns it as it came.  The wsfe class returns it as it came unless
    the operation is FECAESolicitar and FeDetResp.FECAEDetResponse is an
    array: that array has then been replaced by its first element, and
    nothing else has changed. *)
Theorem result_subtree_is_returned operation params history v events :
  (run (ElectronicBilling.executeRequest L W afip operation params) history
   = (Some (Returns v), events) ->
   exists results res,
     answered_wsfe L W afip operation params history results events
     /\ get results (operation ++ "Result") = Returns res
     /\ ((v = res /\ untouched operation res)
         \/ (operation = "FECAESolicitar" /\ unwrapped res v)))
  /\ (run (ExportElectronicBilling.executeRequest L W afip operation params)
        history
      = (Some (Returns v), events) ->
      exists results sent log,
        answered_wsfex L W afip operation params history results sent
        /\ events = (sent ++ log)%list
        /\ get results (operation ++ "Result") = Returns v).
Proof.
  split.
  - intros Hrun.
    destruct (executeRequest_wsfe_answered _ _ _ _ _ Hrun)
      as [results Hanswered].
    rewrite (run_executeRequest_wsfe _ _ _ _ _ Hanswered) in Hrun.
    injection Hrun as Hcheck.
    destruct (checkErrors_returns operation results v Hcheck)
      as (res & Hres & Hv).
    exists results, res. auto.
  - apply executeRequest_wsfex_answered.
Qed.

(** The health check of wsfe goes out without a ticket: the remote call is
    the only thing the request does. *)
Lemma FEDummy_needs_no_ticket params history :
  snd (run (ElectronicBilling.executeRequest L W afip "FEDummy" params)
         history)
  = [SoapOperation "wsfe" "FEDummy" (VObject params)].
Proof.
  unfold ElectronicBilling.executeRequest,
    ElectronicBilling.getWSInitialRequest.
  simpl String.eqb. cbv iota. rewrite run_bind, run_ret. cbv beta iota zeta.
  run_step. simpl Object_assign.
  destruct (soap_operation W _ _ _ _); reflexivity.
Qed.

(** Any other operation of wsfe asks for the ticket of wsfe first and
    sends its token and sign, with the CUIT, under [Auth]. *)
Lemma wsfe_operations_authenticate operation history :
  String.eqb operation "FEDummy" = false ->
  run (ElectronicBilling.getWSInitialRequest L W afip operation) history
  = run (ta <- GetServiceTA L W afip "wsfe" true ;;
         ret [("Auth", VObject [("Token", token ta); ("Sign", sign ta);
                                ("Cuit", CUIT afip)])]) history.
Proof.
  intros Hop. unfold ElectronicBilling.getWSInitialRequest. now rewrite Hop.
Qed.

(** The health check of wsfex is [FEXDummy], which the test of
    [getWSInitialRequest] does not name: the request starts by reading the
    stored ticket. *)
Lemma FEXDummy_reads_ticket_first params :
  starts_with (GetObject S3Connection.bucket (taFilePath afip "wsfex"))
    (ExportElectronicBilling.executeRequest L W afip "FEXDummy" params).
Proof.
  unfold ExportElectronicBilling.executeRequest,
    ExportElectronicBilling.getWSInitialRequest.
  simpl String.eqb. cbv iota.
  do 2 apply starts_with_bind. apply GetServiceTA_reads_first.
Qed.

End GatewayProperties.

(* ===================================================================== *)
(** ** The properties at work *)
(* ===================================================================== *)

Module Runs.

Import Scenario.

Local Abbreviation ticket_key := "TA-20111111112-wsfe.json".

Local Abbreviation issuing :=
  [DateNow; FsReadFile "/Afip_res/cert"; FsReadFile "/Afip_res/key";
   DateNow;
   SoapCreateClient "/Afip_res/wsaa.wsdl"
     "https://wsaahomo.afip.gov.ar/ws/services/LoginCms";
   LoginCms "CMS wsfe"].

(** C1: the store refuses the read with AccessDenied, which is not the
    error of a missing object.  GetServiceTA does not throw it: it logs
    it, goes on as if nothing were stored, issues a ticket, writes it and
    returns it. *)
Theorem denied_read_is_taken_for_absence :
  let W := world noon denied (login "<fresh/>") no_answer in
  s3_GetObject W [] S3Connection.bucket ticket_key = Throws access_denied
  /\ run (GetServiceTA lib W afip "wsfe" true) []
     = (Some (Returns {| token := VString "T1"; sign := VString "S1" |}),
        ([GetObject S3Connection.bucket ticket_key;
          ConsoleLog access_denied; ConsoleLog access_denied]
           ++ issuing
           ++ [PutObject S3Connection.bucket ticket_key (Some "fresh.json");
               GetObject S3Connection.bucket ticket_key; DateNow])%list).
Proof. split; reflexivity. Qed.

(** C6: getServerStatus of the export class sends FEXDummy, and the
    request reads the stored ticket of wsfex and sends its token and sign
    under Auth, as for any authenticated operation. *)
Theorem FEXDummy_fetches_a_ticket :
  let W := world noon (holding "fresh.json") (login "<fresh/>") accepting in
  run (ExportElectronicBilling.getServerStatus lib W afip) []
  = (Some (Returns status),
     [GetObject S3Connection.bucket "TA-20111111112-wsfex.json"; DateNow;
      SoapOperation "wsfex" "FEXDummy"
        (VObject [("Auth", VObject [("Token", VString "T1");
                                    ("Sign", VString "S1");
                                    ("Cuit", VNumber (Num 20111111112))])])]).
Proof. reflexivity. Qed.

Lemma stale_ticket_is_refreshed_witness :
  let W := world noon (holding "margin.json") (login "<fresh/>") no_answer in
  expirationTime_of lib on_the_margin = Returns (Num (noon + 600000))
  /\ run (usable_ticket lib W on_the_margin)
       [GetObject S3Connection.bucket ticket_key]
     = (Some (Returns None), [DateNow])
  /\ run (GetServiceTA lib W afip "wsfe" true) []
     = after [GetObject S3Connection.bucket ticket_key; DateNow]
         (run (refresh lib W afip (GetServiceTA lib W afip) "wsfe" true)
            [GetObject S3Connection.bucket ticket_key; DateNow]).
Proof.
  intros W.
  pose proof
    (stale_ticket_is_refreshed lib W afip "wsfe" [] on_the_margin
       [GetObject S3Connection.bucket ticket_key] (noon + 600000))
    as H.
  destruct H as (Hprobe & Hrun & _);
    [reflexivity | reflexivity | reflexivity | vm_compute; discriminate |].
  split; [reflexivity | split; [exact Hprobe | exact Hrun]].
Defined.

Lemma fresh_ticket_is_returned_witness :
  let W := world noon (holding "fresh.json") (login "<fresh/>") no_answer in
  run (GetServiceTA lib W afip "wsfe" true) []
  = (Some (Returns {| token := VString "T1"; sign := VString "S1" |}),
     [GetObject S3Connection.bucket ticket_key; DateNow]).
Proof.
  intros W.
  apply (fresh_ticket_is_returned lib W afip "wsfe" true [] fresh
           [GetObject S3Connection.bucket ticket_key]
           (VArray [VObject [("version", VString "1.0")];
                    VObject [("source", VString "CN=wsaa");
                             ("expirationtime",
                              VString "2026-11-02T00:00:00.000Z")]])
           (VObject [("source", VString "CN=wsaa");
                     ("expirationtime", VString "2026-11-02T00:00:00.000Z")])
           (VString "2026-11-02T00:00:00.000Z") (noon + 43200000)
           (VObject [("token", VString "T1"); ("sign", VString "S1")])
           (VString "T1") (VString "S1")).
  - reflexivity.
  - reflexivity.
  - reflexivity.
  - reflexivity.
  - reflexivity.
  - reflexivity.
  - reflexivity.
  - reflexivity.
  - reflexivity.
  - vm_compute; discriminate.
  - vm_compute; reflexivity.
Defined.

Lemma refresh_runs_at_most_once_witness :
  let W := world noon (holding "stale.json") (login "<stale/>") no_answer in
  run (GetServiceTA lib W afip "wsfe" true) []
  = (Some (Throws (VError "Error" "Error getting Token Autorization")),
     ([GetObject S3Connection.bucket ticket_key; DateNow] ++ issuing
        ++ [PutObject S3Connection.bucket ticket_key (Some "stale.json");
            GetObject S3Connection.bucket ticket_key; DateNow])%list).
Proof.
  intros W.
  apply (proj2 (proj2 (proj2 (proj2
           (refresh_runs_at_most_once lib W afip "wsfe" []))))
           stale [GetObject S3Connection.bucket ticket_key] [DateNow]
           (issuing
              ++ [PutObject S3Connection.bucket ticket_key
                    (Some "stale.json")])%list
           stale [GetObject S3Connection.bucket ticket_key] [DateNow]);
    reflexivity.
Defined.

Lemma error_shapes_agree_witness :
  let W := world noon (holding "fresh.json") (login "<fresh/>") rejecting in
  let approving :=
    world noon (holding "fresh.json") (login "<fresh/>")
      (Office.beside_errors
         (VObject [("FECAEDetResponse", VArray [approved_detail])])) in
  let hollow :=
    world noon (holding "fresh.json") (login "<fresh/>")
      (Office.beside_errors (VObject [])) in
  let thrown :=
    Some (Throws (VError "Error"
            "(10016) El numero o fecha del comprobante no se corresponde")) in
  fst (run (ElectronicBilling.executeRequest lib W afip
              "FECompUltimoAutorizado" []) []) = thrown
  /\ fst (run (ElectronicBilling.executeRequest lib W afip
                 "FECAESolicitar" []) []) = thrown
  /\ fst (run (ExportElectronicBilling.executeRequest lib W afip
                 "FEXAuthorize" []) []) = thrown
  /\ fst (run (ElectronicBilling.executeRequest lib approving afip
                 "FECAESolicitar" []) [])
     = Some (Throws (VError "Error"
                "(600) ValidacionDeToken: No aparecio CUIT en lista de relaciones"))
  /\ fst (run (ElectronicBilling.executeRequest lib hollow afip
                 "FECAESolicitar" []) [])
     = Some (Throws (type_error VUndefined "Observaciones")).
Proof.
  intros W approving hollow thrown.
  destruct (error_shapes_agree lib hollow afip VUndefined VUndefined)
    as (_ & _ & _ & Hhollow).
  destruct (error_shapes_agree lib W afip (VNumber (Num 10016))
              (VString "El numero o fecha del comprobante no se corresponde"))
    as (Hflat & Hobservations & Hexport & _).
  destruct (error_shapes_agree lib approving afip (VNumber (Num 600))
              (VString
                 "ValidacionDeToken: No aparecio CUIT en lista de relaciones"))
    as (Hbeside & _).
  split; [| split; [| split; [| split]]].
  - erewrite Hflat with (e := entry); [reflexivity | | | | |].
    + eexists. eexists. repeat split; reflexivity.
    + reflexivity.
    + split; [left; reflexivity |].
      eexists. eexists. repeat split; try reflexivity.
      right. exists []. reflexivity.
    + reflexivity.
    + reflexivity.
  - erewrite Hobservations with (e := entry); [reflexivity | | | | |].
    + eexists. eexists. repeat split; reflexivity.
    + reflexivity.
    + do 3 eexists. exists refused_detail. do 3 eexists.
      repeat split; try reflexivity; right; exists []; reflexivity.
    + reflexivity.
    + reflexivity.
  - erewrite Hexport with (e := export_entry); [reflexivity | | | | | |].
    + eexists. eexists. repeat split; reflexivity.
    + reflexivity.
    + repeat split; try reflexivity. left. split; reflexivity.
    + reflexivity.
    + reflexivity.
    + reflexivity.
  - erewrite Hbeside with (e := Office.no_authority);
      [reflexivity | | | | |].
    + eexists. eexists. repeat split; reflexivity.
    + reflexivity.
    + split.
      * right. right. do 2 eexists. exists approved_detail. eexists.
        repeat split; try reflexivity.
        -- right. exists []. reflexivity.
        -- left. reflexivity.
      * eexists. eexists. repeat split; try reflexivity.
        right. exists []. reflexivity.
    + reflexivity.
    + reflexivity.
  - erewrite Hhollow with (FeDetResp := VObject []) (Det := VUndefined);
      [reflexivity | | | | | |].
    + eexists. eexists. repeat split; reflexivity.
    + reflexivity.
    + reflexivity.
    + reflexivity.
    + reflexivity.
    + reflexivity.
Defined.

(** C5 fails for a flat list of errors in an answer to FECAESolicitar
    that has a detail block.  With an empty detail block the call throws
    a TypeError and the list is never looked at; with a refused detail
    that has observations, the observation is thrown and not the entry of
    the list. *)
Lemma detail_block_hides_error_list :
  let answer := Office.beside_errors (VObject []) in
  let refusal :=
    Office.beside_errors (VObject [("FECAEDetResponse", refused_detail)]) in
  let W := world noon (holding "fresh.json") (login "<fresh/>") answer in
  let W' := world noon (holding "fresh.json") (login "<fresh/>") refusal in
  (exists res Errors,
     get (answer "FECAESolicitar") "FECAESolicitarResult" = Returns res
     /\ get res "Errors" = Returns Errors
     /\ get Errors "Err" = Returns (VArray [Office.no_authority]))
  /\ fst (run (ElectronicBilling.executeRequest lib W afip
                 "FECAESolicitar" []) [])
     = Some (Throws (VError "TypeError"
                "Cannot read properties of undefined (reading 'Observaciones')"))
  /\ fst (run (ElectronicBilling.executeRequest lib W' afip
                 "FECAESolicitar" []) [])
     = Some (Throws (VError "Error"
                "(10016) El numero o fecha del comprobante no se corresponde")).
Proof.
  intros answer refusal W W'. split; [| split; reflexivity].
  do 2 eexists. repeat split; reflexivity.
Qed.


(** C8 fails: the service answers FECAESolicitar with one approved detail
    in an array, and executeRequest returns the result with the detail
    taken out of its array. *)
Lemma detail_array_is_unwrapped :
  let W := world noon (holding "fresh.json") (login "<fresh/>") accepting in
  get (accepting "FECAESolicitar") "FECAESolicitarResult"
  = Returns (solicitar (VArray [approved_detail]))
  /\ fst (run (ElectronicBilling.executeRequest lib W afip
                 "FECAESolicitar" []) [])
     = Some (Returns (solicitar approved_detail))
  /\ solicitar approved_detail <> solicitar (VArray [approved_detail]).
Proof. repeat split; try reflexivity. discriminate. Qed.

Lemma result_subtree_is_returned_witness :
  let W := world noon (holding "fresh.json") (login "<fresh/>") accepting in
  let events :=
    [GetObject S3Connection.bucket ticket_key; DateNow;
     SoapOperation "wsfe" "FEParamGetPtosVenta"
       (VObject [("Auth", VObject [("Token", VString "T1");
                                   ("Sign", VString "S1");
                                   ("Cuit", VNumber (Num 20111111112))])])] in
  run (ElectronicBilling.executeRequest lib W afip "FEParamGetPtosVenta" [])
    []
  = (Some (Returns status), events)
  /\ exists results res,
       answered_wsfe lib W afip "FEParamGetPtosVenta" [] [] results events
       /\ get results "FEParamGetPtosVentaResult" = Returns res
       /\ ((status = res /\ untouched "FEParamGetPtosVenta" res)
           \/ ("FEParamGetPtosVenta" = "FECAESolicitar"
               /\ unwrapped res status)).
Proof.
  intros W events. split; [reflexivity |].
  apply (proj1 (result_subtree_is_returned lib W afip "FEParamGetPtosVenta"
                  [] [] status events)).
  reflexivity.
Defined.

(** C9 fails: in the test environment the service named wsfe-production
    has the key that the service wsfe has in production. *)
Lemma keys_can_collide :
  production afip = false /\ production afip_production = true
  /\ CUIT afip = CUIT afip_production
  /\ "wsfe-production" <> "wsfe"
  /\ taFilePath afip "wsfe-production" = taFilePath afip_production "wsfe".
Proof. repeat split; try reflexivity. discriminate. Qed.

Lemma ticket_key_is_shared_witness :
  let W := world noon absent (login "<fresh/>") no_answer in
  taFilePath afip_production "wsfe" <> taFilePath afip "wsfe"
  /\ taFilePath afip "wsfex" <> taFilePath afip "wsfe"
  /\ taFilePath afip_production "wsfex" <> taFilePath afip "wsfe"
  /\ taFilePath afip_production "wsfe" = taFilePath afip "wsfe-production".
Proof.
  intros W.
  destruct (ticket_key_is_shared lib W afip "wsfe") as (_ & _ & _ & Hkeys).
  destruct (ticket_key_is_shared lib W afip "wsfe-production")
    as (_ & _ & _ & Hsuffixed).
  split; [| split; [| split]].
  - intros Hkey. apply (Hkeys afip_production "wsfe" eq_refl) in Hkey.
    destruct Hkey as [[Hk _] | [(_ & _ & Hk) | (Hk & _)]]; discriminate.
  - intros Hkey. apply (Hkeys afip "wsfex" eq_refl) in Hkey.
    destruct Hkey as [[_ Hk] | [(Hk & _) | (_ & Hk & _)]]; discriminate.
  - intros Hkey. apply (Hkeys afip_production "wsfex" eq_refl) in Hkey.
    destruct Hkey as [[Hk _] | [(_ & _ & Hk) | (Hk & _)]]; discriminate.
  - apply (Hsuffixed afip_production "wsfe" eq_refl).
    right. left. repeat split.
Defined.

(** C10 fails: the stored record has a header of two elements, the second
    without expirationtime.  No TypeError is thrown: the record counts as
    expired and the call refreshes. *)
Lemma header_without_expiration_is_refreshed :
  let W := world noon (holding "timeless.json") (login "<fresh/>") no_answer in
  JSON_parse lib "timeless.json" = Returns timeless
  /\ get timeless "header" = Returns (VArray [VObject []; VObject []])
  /\ expirationTime_of lib timeless = Returns NaN
  /\ run (GetServiceTA lib W afip "wsfe" true) []
     = (Some (Returns {| token := VString "T1"; sign := VString "S1" |}),
        ([GetObject S3Connection.bucket ticket_key; DateNow] ++ issuing
           ++ [PutObject S3Connection.bucket ticket_key (Some "fresh.json");
               GetObject S3Connection.bucket ticket_key; DateNow])%list).
Proof. repeat split; reflexivity. Qed.

Lemma broken_header_throws_witness :
  let W := world noon (holding "single.json") (login "<fresh/>") no_answer in
  let W' := world noon (holding "timeless.json") (login "<fresh/>")
              no_answer in
  (exists base key,
     nullish base = true
     /\ run (GetServiceTA lib W afip "wsfe" true) []
        = (Some (Throws (type_error base key)),
           [GetObject S3Connection.bucket ticket_key; DateNow]))
  /\ run (GetServiceTA lib W' afip "wsfe" false) []
     = (Some (Throws (VError "Error" "Error getting Token Autorization")),
        [GetObject S3Connection.bucket ticket_key; DateNow]).
Proof.
  intros W W'. split.
  - apply (proj1 (broken_header_throws lib W afip "wsfe" true [] single_header
                    [GetObject S3Connection.bucket ticket_key]
                    (VObject [("version", VString "1.0")])
                    eq_refl eq_refl eq_refl)).
    right. exists VUndefined. split; reflexivity.
  - apply (proj2 (broken_header_throws lib W' afip "wsfe" false [] timeless
                    [GetObject S3Connection.bucket ticket_key]
                    (VArray [VObject []; VObject []])
                    eq_refl eq_refl eq_refl) (VObject []));
      reflexivity.
Defined.

End Runs.

(* ===================================================================== *)
(** ** formatDate *)
(* ===================================================================== *)

Lemma undashed_app (s t : string) :
  undashed (s ++ t) = undashed s ++ undashed t.
Proof.
  induction s as [| c s IH]; simpl; [reflexivity |].
  destruct (Ascii.eqb c "-"); simpl; now rewrite IH.
Qed.

Lemma digit_is_not_dash c : is_digit c = true -> Ascii.eqb c "-" = false.
Proof.
  intros H. destruct (Ascii.eqb_spec c "-") as [-> | _]; [| reflexivity].
  discriminate H.
Qed.

Lemma digits_split n s taken tail :
  digits n s = Some (taken, tail) ->
  s = taken ++ tail /\ String.length taken = n /\ all_digits taken = true.
Proof.
  revert s taken tail. induction n as [| n IH]; intros s taken tail; simpl.
  - intros [= <- <-]. auto.
  - destruct s as [| c rest]; [discriminate |].
    destruct (is_digit c) eqn:Hc; [| discriminate].
    destruct (digits n rest) as [[taken' tail'] |] eqn:Hrest; [| discriminate].
    intros [= <- <-]. destruct (IH _ _ _ Hrest) as (-> & <- & Hall).
    simpl. rewrite Hc. auto.
Qed.

Lemma digits_app taken tail :
  all_digits taken = true ->
  digits (String.length taken) (taken ++ tail) = Some (taken, tail).
Proof.
  induction taken as [| c taken IH]; simpl; [reflexivity |].
  intros H. apply andb_prop in H. destruct H as [Hc Hall].
  now rewrite Hc, IH.
Qed.

Lemma undashed_digits s : all_digits s = true -> undashed s = s.
Proof.
  induction s as [| c s IH]; simpl; [reflexivity |].
  intros H. apply andb_prop in H. destruct H as [Hc Hall].
  now rewrite (digit_is_not_dash c Hc), IH.
Qed.

Lemma dashed_adds_dashes s :
  undashed (dashed s) = undashed s
  /\ (dashed s = s
      \/ String.length (dashed s) = (String.length s + 2)%nat).
Proof.
  induction s as [| c rest [IHu IHl]]; [simpl; auto |].
  assert (Hskip :
    undashed (String c (dashed rest)) = undashed (String c rest)
    /\ (String c (dashed rest) = String c rest
        \/ String.length (String c (dashed rest))
           = (String.length (String c rest) + 2)%nat)).
  { split.
    - simpl. rewrite IHu. reflexivity.
    - destruct IHl as [-> | Hl]; [now left | right; simpl; now rewrite Hl]. }
  unfold dashed; fold dashed.
  destruct (digits 4 (String c rest)) as [[year after_year] |] eqn:Hy;
    [| exact Hskip].
  destruct (digits 2 after_year) as [[month after_month] |] eqn:Hm;
    [| exact Hskip].
  destruct (digits 2 after_month) as [[day tail] |] eqn:Hd; [| exact Hskip].
  apply digits_split in Hy, Hm, Hd.
  destruct Hy as (Hs & Hly & _), Hm as (-> & Hlm & _), Hd as (-> & Hld & _).
  rewrite Hs. split.
  - rewrite !undashed_app. reflexivity.
  - right. rewrite !length_append. simpl. lia.
Qed.

(** X1: formatDate only ever puts two dashes into the text of its
    argument: without dashes the result reads as the argument does, and it
    is the argument itself or two characters longer. *)
Theorem formatDate_adds_dashes date :
  nullish date = false ->
  exists text,
    formatDate date = Returns text
    /\ undashed text = undashed (to_string date)
    /\ (text = to_string date
        \/ String.length text = (String.length (to_string date) + 2)%nat).
Proof.
  intros Hdate. unfold formatDate. rewrite Hdate.
  exists (dashed (to_string date)).
  split; [reflexivity | apply dashed_adds_dashes].
Qed.

Lemma dashed_date year month day tail :
  all_digits year = true -> String.length year = 4%nat ->
  all_digits month = true -> String.length month = 2%nat ->
  all_digits day = true -> String.length day = 2%nat ->
  dashed (year ++ month ++ day ++ tail)
  = year ++ "-" ++ month ++ "-" ++ day ++ tail.
Proof.
  intros Hy Hly Hm Hlm Hd Hld.
  destruct year as [| c year]; [discriminate |].
  change ((String c year ++ month ++ day ++ tail))
    with (String c (year ++ month ++ day ++ tail)).
  unfold dashed; fold dashed.
  change (String c (year ++ month ++ day ++ tail))
    with (String c year ++ month ++ day ++ tail).
  rewrite <- Hly at 1. rewrite (digits_app (String c year)) by assumption.
  rewrite <- Hlm at 1. rewrite (digits_app month) by assumption.
  rewrite <- Hld at 1. rewrite (digits_app day) by assumption.
  reflexivity.
Qed.

Lemma digits_none_short n s :
  (String.length s < n)%nat -> digits n s = None.
Proof.
  revert s. induction n as [| n IH]; intros s H; [lia |].
  destruct s as [| c rest]; simpl; [reflexivity |].
  destruct (is_digit c); [| reflexivity].
  rewrite IH; [reflexivity | simpl in H; lia].
Qed.

Lemma digits_none_dash n p tail :
  (String.length p < n)%nat -> digits n (p ++ String "-" tail) = None.
Proof.
  revert p. induction n as [| n IH]; intros p H; [lia |].
  destruct p as [| c p]; simpl; [reflexivity |].
  destruct (is_digit c); [| reflexivity].
  rewrite IH; [reflexivity | simpl in H; lia].
Qed.

(** Fewer than eight characters hold no eight digits. *)
Lemma dashed_short s : (String.length s < 8)%nat -> dashed s = s.
Proof.
  induction s as [| c rest IH]; [reflexivity |].
  intros H. unfold dashed; fold dashed.
  rewrite IH by (simpl in H; lia).
  destruct (digits 4 (String c rest)) as [[year after_year] |] eqn:Hy;
    [| reflexivity].
  destruct (digits 2 after_year) as [[month after_month] |] eqn:Hm;
    [| reflexivity].
  destruct (digits 2 after_month) as [[day tail] |] eqn:Hd; [| reflexivity].
  apply digits_split in Hy, Hm, Hd.
  destruct Hy as (Hs & Hly & _), Hm as (-> & Hlm & _), Hd as (-> & Hld & _).
  apply (f_equal String.length) in Hs. rewrite !length_append in Hs. lia.
Qed.

Lemma append_same_length (p q x y : string) :
  p ++ x = q ++ y -> String.length p = String.length q -> p = q.
Proof.
  revert q. induction p as [| a p IH]; intros [| b q] Hs Hl;
    try discriminate; [reflexivity |].
  simpl in Hs, Hl. injection Hs as -> Hs. injection Hl as Hl.
  f_equal. now apply IH.
Qed.

(** Nor does a dash that comes after at most four characters leave room
    for them before it. *)
Lemma dashed_group p tail :
  (String.length p <= 4)%nat ->
  dashed (p ++ String "-" tail) = p ++ String "-" (dashed tail).
Proof.
  induction p as [| c p IH]; intros H.
  - reflexivity.
  - change (String c p ++ String "-" tail)
      with (String c (p ++ String "-" tail)).
    unfold dashed; fold dashed.
    rewrite IH by (simpl in H; lia).
    change (String c (p ++ String "-" tail))
      with (String c p ++ String "-" tail).
    destruct (digits 4 (String c p ++ String "-" tail))
      as [[year after_year] |] eqn:Hy; [| reflexivity].
    destruct (Nat.eq_dec (String.length (String c p)) 4) as [H4 | Hlt].
    + (* four characters, then the dash stops the second group *)
      assert (Hyear : digits 4 (String c p ++ String "-" tail)
                      = Some (String c p, String "-" tail)).
      { rewrite <- H4 at 1. apply digits_app.
        apply digits_split in Hy. destruct Hy as (Hs & Hl & Hall).
        rewrite (append_same_length (String c p) year _ _ Hs) by congruence.
        exact Hall. }
      rewrite Hyear in Hy. injection Hy as <- <-. reflexivity.
    + rewrite digits_none_dash in Hy by lia. discriminate.
Qed.

(** X2: formatDate turns a text that begins with eight digits, yyyymmdd,
    into yyyy-mm-dd followed by the rest, and leaves a date it has
    formatted as it is when given it again. *)
Theorem formatDate_of_a_date year month day tail :
  all_digits year = true -> String.length year = 4%nat ->
  all_digits month = true -> String.length month = 2%nat ->
  all_digits day = true -> String.length day = 2%nat ->
  formatDate (VString (year ++ month ++ day ++ tail))
  = Returns (year ++ "-" ++ month ++ "-" ++ day ++ tail)
  /\ formatDate (VString (year ++ "-" ++ month ++ "-" ++ day))
     = Returns (year ++ "-" ++ month ++ "-" ++ day).
Proof.
  intros Hy Hly Hm Hlm Hd Hld. unfold formatDate. simpl nullish. cbv iota.
  simpl to_string. split.
  - now rewrite dashed_date.
  - f_equal.
    change (year ++ "-" ++ month ++ "-" ++ day)
      with (year ++ String "-" (month ++ String "-" day)).
    rewrite dashed_group by lia. rewrite dashed_group by lia.
    rewrite dashed_short by lia. reflexivity.
Qed.

(* ===================================================================== *)
(** ** More on GetServiceTA and CreateServiceTA *)
(* ===================================================================== *)

Section MoreTicketProperties.

Context (L : Lib) (W : World) (afip : Options).

Local Abbreviation stored_ticket service :=
  (read_ticket afip (S3Connection.readFileS3 L W) service).

(** X3: when nothing usable is stored, CreateServiceTA returns, and the
    record read afterwards is good for more than ten minutes by the date
    under its header[1].expirationtime, GetServiceTA returns the token and the sign under the credentials of that second
    record; the call has read the store twice and issued once. *)
Theorem refreshed_ticket_is_returned
    service history tk added probe created tk' added'
    header second expirationtime t' credentials stored_token stored_sign :
  run (stored_ticket service) history = (Some (Returns tk), added) ->
  run (usable_ticket L W tk) (history ++ added)%list
  = (Some (Returns None), probe) ->
  run (CreateServiceTA L W afip service) (history ++ added ++ probe)%list
  = (Some (Returns tt), created) ->
  run (stored_ticket service) (history ++ added ++ probe ++ created)%list
  = (Some (Returns tk'), added') ->
  to_boolean tk' = true ->
  get tk' "header" = Returns header ->
  get_index header 1 = Returns second ->
  get second "expirationtime" = Returns expirationtime ->
  new_Date L expirationtime = Num t' ->
  get tk' "credentials" = Returns credentials ->
  get credentials "token" = Returns stored_token ->
  get credentials "sign" = Returns stored_sign ->
  - max_time
  <= Date_now W (history ++ added ++ probe ++ created ++ added')%list ->
  Date_now W (history ++ added ++ probe ++ created ++ added')%list + 600000
  < t' ->
  run (GetServiceTA L W afip service true) history
  = (Some (Returns {| token := stored_token; sign := stored_sign |}),
     (added ++ probe ++ created ++ added' ++ [DateNow])%list).
Proof.
  intros Hread Hprobe Hcreate Hread' Htk' Hheader Hsecond Hexpirationtime
    Hdate Hcredentials Htoken Hsign Hlo Hlt.
  assert (Hexp' : expirationTime_of L tk' = Returns (Num t')).
  { unfold expirationTime_of. cbn -[get get_index new_Date].
    now rewrite Hheader, Hsecond, Hexpirationtime, Hdate. }
  assert (Hcred' : credentials_of tk'
                   = Returns {| token := stored_token; sign := stored_sign |}).
  { unfold credentials_of. cbn -[get].
    now rewrite Hcredentials, Htoken, Hsign. }
  unfold GetServiceTA.
  rewrite (unusable_ticket_refresh L W afip 1 service true history tk added
             probe Hread Hprobe).
  unfold refresh at 1. simpl negb. cbv iota.
  rewrite run_bind, run_catch, Hcreate.
  rewrite <- !app_assoc in *.
  rewrite (usable_ticket_returned L W afip 0 service false _ tk' added' t' _
             Hread' Htk' Hexp' Hcred').
  - unfold after. simpl. now rewrite <- !app_assoc.
  - now rewrite <- !app_assoc.
  - now rewrite <- !app_assoc.
Qed.

(** X4: when CreateServiceTA throws, GetServiceTA throws an Error whose
    message is 'Error getting Token Autorization ' followed by the text of
    what was thrown, and does not read the store again. *)
Theorem failed_issuance_is_reported
    service history tk added probe err created :
  run (stored_ticket service) history = (Some (Returns tk), added) ->
  run (usable_ticket L W tk) (history ++ added)%list
  = (Some (Returns None), probe) ->
  run (CreateServiceTA L W afip service) (history ++ added ++ probe)%list
  = (Some (Throws err), created) ->
  run (GetServiceTA L W afip service true) history
  = (Some (Throws (VError "Error"
                     ("Error getting Token Autorization " ++ to_string err))),
     (added ++ probe ++ created)%list).
Proof.
  intros Hread Hprobe Hcreate.
  unfold GetServiceTA.
  rewrite (unusable_ticket_refresh L W afip 1 service true history tk added
             probe Hread Hprobe).
  unfold refresh at 1. simpl negb. cbv iota.
  rewrite run_bind, run_catch, Hcreate.
  unfold after. simpl. now rewrite <- !app_assoc, !app_nil_r.
Qed.

(** X5: when one of the two credential files cannot be read, or the
    signing fails, CreateServiceTA throws that error having done nothing
    over the network: no SOAP client, no login call, no write. *)
Theorem credential_failure_stays_local service history e :
  let h1 := (history ++ [DateNow])%list in
  let h2 := (h1 ++ [FsReadFile (CERT afip)])%list in
  let h3 := (h2 ++ [FsReadFile (PRIVATEKEY afip)])%list in
  ((fs_readFile W h1 (CERT afip) = Throws e
    /\ exists key, fs_readFile W h2 (PRIVATEKEY afip) = Returns key)
   \/ ((exists cert, fs_readFile W h1 (CERT afip) = Returns cert)
       /\ fs_readFile W h2 (PRIVATEKEY afip) = Throws e)
   \/ exists cert key,
        fs_readFile W h1 (CERT afip) = Returns cert
        /\ fs_readFile W h2 (PRIVATEKEY afip) = Returns key
        /\ pkcs7_sign L
             {| uniqueId := Date_now W history / 1000;
                generationTime := Date_now W history - 600000;
                expirationTime := Date_now W history + 600000;
                tra_service := service |}
             cert key (Date_now W h3) = Throws e) ->
  fst (run (CreateServiceTA L W afip service) history) = Some (Throws e)
  /\ cost network (snd (run (CreateServiceTA L W afip service) history))
     = 0%nat.
Proof.
  intros h1 h2 h3 H. subst h1 h2 h3.
  unfold CreateServiceTA, readFile, Date_now_.
  run_step. run_step. run_step.
  rewrite <- ?app_assoc, ?app_nil_r in *. simpl app in *.
  destruct H as [(Hcert & key & Hkey) | [((cert & Hcert) & Hkey)
                | (cert & key & Hcert & Hkey & Hsign)]].
  - run_step. rewrite Hcert. split; reflexivity.
  - run_step. rewrite Hcert. run_step.
    rewrite <- ?app_assoc, ?app_nil_r. simpl app.
    rewrite Hkey. split; reflexivity.
  - run_step. rewrite Hcert. run_step.
    rewrite <- ?app_assoc, ?app_nil_r. simpl app.
    rewrite Hkey. run_step. run_step.
    rewrite <- ?app_assoc, ?app_nil_r. simpl app.
    rewrite Hsign. split; reflexivity.
Qed.

(** X6: a stored record that is still good for more than ten minutes but
    has no credentials makes GetServiceTA throw the TypeError of reading
    token from undefined or null; it does not refresh. *)
Theorem missing_credentials_throw
    service firstTry history tk added t credentials :
  run (stored_ticket service) history = (Some (Returns tk), added) ->
  to_boolean tk = true ->
  expirationTime_of L tk = Returns (Num t) ->
  - max_time <= Date_now W (history ++ added) ->
  Date_now W (history ++ added) + 600000 < t ->
  get tk "credentials" = Returns credentials ->
  nullish credentials = true ->
  run (GetServiceTA L W afip service firstTry) history
  = (Some (Throws (type_error credentials "token")),
     (added ++ [DateNow])%list).
Proof.
  intros Hread Htk Hexp Hlo Hlt Hcred Hnull.
  unfold GetServiceTA.
  rewrite GetServiceTA_rec_step, run_bind, Hread, run_bind.
  unfold usable_ticket, Date_now_. rewrite Htk.
  run_step. run_step. rewrite Hexp.
  rewrite date_lt_fresh by eauto using expirationTime_of_clipped.
  run_step. unfold credentials_of. cbn -[get]. rewrite Hcred.
  destruct credentials; try discriminate; reflexivity.
Qed.

(** X7: an object stored with an empty body is not parsed: it reads as
    null, and GetServiceTA goes on to the refresh as for a missing one. *)
Theorem empty_body_is_absence service history :
  s3_GetObject W history S3Connection.bucket (taFilePath afip service)
  = Returns (Some (Returns "")) ->
  run (stored_ticket service) history
  = (Some (Returns VNull),
     [GetObject S3Connection.bucket (taFilePath afip service)])
  /\ run (GetServiceTA L W afip service true) history
     = after [GetObject S3Connection.bucket (taFilePath afip service)]
         (run (refresh L W afip (GetServiceTA L W afip) service true)
            (history
               ++ [GetObject S3Connection.bucket (taFilePath afip service)])).
Proof.
  intros Hget.
  assert (Hread : run (stored_ticket service) history
                  = (Some (Returns VNull),
                     [GetObject S3Connection.bucket
                        (taFilePath afip service)])).
  { unfold read_ticket, S3Connection.readFileS3.
    rewrite !run_catch. run_step. rewrite Hget. cbv beta iota.
    run_step. reflexivity. }
  split; [exact Hread |].
  exact (absent_ticket_is_refreshed L W afip service history VNull _ Hread
           eq_refl).
Qed.

(** X8: the readFileS3 that takes a bucket and a folder reads the object
    at folder + fileName; when the store rejects with an error named
    NoSuchKey it resolves to undefined, and any other rejection it throws
    again as it is. *)
Theorem readFileS3_tells_absence bucket folder fileName history e name :
  s3_GetObject W history bucket (folder ++ fileName) = Throws e ->
  get e "name" = Returns name ->
  run (S3Connection_part_000.readFileS3 L W bucket folder fileName) history
  = (Some (if strict_eq_string name "NoSuchKey" then Returns VUndefined
           else Throws e),
     [GetObject bucket (folder ++ fileName)]).
Proof.
  intros Hget Hname. unfold S3Connection_part_000.readFileS3.
  rewrite run_catch. run_step. rewrite Hget. cbv beta iota.
  run_step. rewrite Hname.
  destruct (strict_eq_string name "NoSuchKey"); reflexivity.
Qed.

End MoreTicketProperties.

(* ===================================================================== *)
(** ** More on executeRequest and _checkErrors *)
(* ===================================================================== *)

Lemma lookup_delete key fields : lookup key (delete key fields) = None.
Proof.
  induction fields as [| [k v] rest IH]; simpl; [reflexivity |].
  destruct (String.eqb k key) eqn:Hk; simpl; [exact IH |].
  now rewrite Hk.
Qed.

Lemma lookup_delete_other k key fields :
  k <> key -> lookup k (delete key fields) = lookup k fields.
Proof.
  intros Hk. induction fields as [| [k' v] rest IH]; simpl; [reflexivity |].
  destruct (String.eqb_spec k' key) as [-> | Hk']; simpl.
  - destruct (String.eqb_spec key k); [congruence | exact IH].
  - destruct (String.eqb_spec k' k); [reflexivity | exact IH].
Qed.

Lemma lookup_wrap_other k key inner data :
  k <> key -> lookup k (wrap key inner data) = lookup k data.
Proof.
  intros Hk. unfold wrap. destruct (to_boolean (field data key));
    [now apply lookup_assign_other | reflexivity].
Qed.

Lemma lookup_wrap key inner data :
  lookup key (wrap key inner data)
  = if to_boolean (field data key)
    then Some (VObject [(inner, field data key)])
    else lookup key data.
Proof.
  unfold wrap. destruct (to_boolean (field data key));
    [apply lookup_assign | reflexivity].
Qed.

Lemma get_field fields key :
  get (VObject fields) key = Returns (field fields key).
Proof. unfold field. simpl. now destruct (lookup key fields). Qed.

Section MoreGatewayProperties.

Context (L : Lib) (W : World) (afip : Options).

Lemma GetServiceTA_rec_operations n service firstTry :
  bounded operations 0 (GetServiceTA_rec L W afip n service firstTry).
Proof.
  revert firstTry. induction n as [| n IH]; intros firstTry; simpl.
  - bound.
  - open_methods. bound_by ltac:(apply IH).
Qed.

(** X9: an operation that needs a ticket is not sent without one: when
    GetServiceTA throws, executeRequest of either class throws the same
    and no remote operation has been called. *)
Theorem no_operation_without_ticket operation params history e events :
  String.eqb operation "FEDummy" = false ->
  (run (GetServiceTA L W afip "wsfe" true) history
   = (Some (Throws e), events) ->
   run (ElectronicBilling.executeRequest L W afip operation params) history
   = (Some (Throws e), events)
   /\ cost operations events = 0%nat)
  /\ (run (GetServiceTA L W afip "wsfex" true) history
      = (Some (Throws e), events) ->
      run (ExportElectronicBilling.executeRequest L W afip operation params)
        history
      = (Some (Throws e), events)
      /\ cost operations events = 0%nat).
Proof.
  intros Hop. split; intros Hticket.
  - split.
    + unfold ElectronicBilling.executeRequest,
        ElectronicBilling.getWSInitialRequest.
      rewrite Hop, !run_bind, Hticket. reflexivity.
    + pose proof (GetServiceTA_rec_operations 2 "wsfe" true history) as H.
      fold (GetServiceTA L W afip "wsfe" true) in H. rewrite Hticket in H.
      simpl in H. lia.
  - split.
    + unfold ExportElectronicBilling.executeRequest,
        ExportElectronicBilling.getWSInitialRequest.
      rewrite Hop, !run_bind, Hticket. reflexivity.
    + pose proof (GetServiceTA_rec_operations 2 "wsfex" true history) as H.
      fold (GetServiceTA L W afip "wsfex" true) in H. rewrite Hticket in H.
      simpl in H. lia.
Qed.

(** X10: with a ticket, executeRequest of wsfe sends the caller's
    parameters with Auth set to the token, the sign and the CUIT: an Auth
    the caller passed is replaced, every other parameter goes out as it
    came, and nothing happens after the remote call. *)
Theorem wsfe_request_carries_ticket operation params history ta pre :
  String.eqb operation "FEDummy" = false ->
  run (GetServiceTA L W afip "wsfe" true) history
  = (Some (Returns ta), pre) ->
  exists sent,
    snd (run (ElectronicBilling.executeRequest L W afip operation params)
           history)
    = (pre ++ [SoapOperation "wsfe" operation (VObject sent)])%list
    /\ lookup "Auth" sent
       = Some (VObject [("Token", token ta); ("Sign", sign ta);
                        ("Cuit", CUIT afip)])
    /\ forall k, k <> "Auth" -> lookup k sent = lookup k params.
Proof.
  intros Hop Hticket.
  exists (assign "Auth"
            (VObject [("Token", token ta); ("Sign", sign ta);
                      ("Cuit", CUIT afip)]) params).
  split; [| split].
  - assert (Hinitial :
      run (ElectronicBilling.getWSInitialRequest L W afip operation) history
      = (Some (Returns [("Auth",
                         VObject [("Token", token ta); ("Sign", sign ta);
                                  ("Cuit", CUIT afip)])]), pre)).
    { unfold ElectronicBilling.getWSInitialRequest.
      rewrite Hop, run_bind, Hticket, run_ret. unfold after. simpl.
      now rewrite app_nil_r. }
    unfold ElectronicBilling.executeRequest.
    rewrite run_bind, Hinitial. cbv beta iota zeta. simpl Object_assign.
    run_step.
    destruct (soap_operation W _ _ _ _); rewrite ?run_lift; unfold after;
      simpl; now rewrite ?app_nil_r.
  - apply lookup_assign.
  - intros k Hk. now apply lookup_assign_other.
Qed.

(** X11: the same for wsfex, where for FEXGetLast_CMP the Auth also
    carries the caller's Pto_venta and Cbte_Tipo, which stay among the
    parameters as well. *)
Theorem wsfex_request_carries_ticket operation params history ta pre :
  String.eqb operation "FEDummy" = false ->
  run (GetServiceTA L W afip "wsfex" true) history
  = (Some (Returns ta), pre) ->
  exists sent log,
    snd (run (ExportElectronicBilling.executeRequest L W afip operation
                params) history)
    = (pre ++ SoapOperation "wsfex" operation (VObject sent) :: log)%list
    /\ lookup "Auth" sent
       = Some (VObject
                 (if String.eqb operation "FEXGetLast_CMP" then
                    [("Token", token ta); ("Sign", sign ta);
                     ("Cuit", CUIT afip);
                     ("Pto_venta", field params "Pto_venta");
                     ("Cbte_Tipo", field params "Cbte_Tipo")]
                  else
                    [("Token", token ta); ("Sign", sign ta);
                     ("Cuit", CUIT afip)]))
    /\ forall k, k <> "Auth" -> lookup k sent = lookup k params.
Proof.
  intros Hop Hticket.
  set (Auth := if String.eqb operation "FEXGetLast_CMP" then
                 [("Token", token ta); ("Sign", sign ta);
                  ("Cuit", CUIT afip);
                  ("Pto_venta", field params "Pto_venta");
                  ("Cbte_Tipo", field params "Cbte_Tipo")]
               else
                 [("Token", token ta); ("Sign", sign ta);
                  ("Cuit", CUIT afip)]).
  assert (Hinitial :
    run (ExportElectronicBilling.getWSInitialRequest L W afip operation
           params) history
    = (Some (Returns [("Auth", VObject Auth)]), pre)).
  { unfold ExportElectronicBilling.getWSInitialRequest.
    rewrite Hop, run_bind, Hticket. cbv beta iota zeta. subst Auth.
    destruct (String.eqb operation "FEXGetLast_CMP").
    - rewrite !get_field, run_bind. run_step. run_step. rewrite !run_ret.
      unfold after. simpl. now rewrite ?app_nil_r.
    - rewrite run_bind, !run_ret. unfold after. simpl.
      now rewrite ?app_nil_r. }
  unfold ExportElectronicBilling.executeRequest.
  rewrite run_bind, Hinitial. cbv beta iota zeta. simpl Object_assign.
  run_step.
  destruct (soap_operation W _ _ _ _) as [results | e'].
  - rewrite run_bind.
    destruct (run (ExportElectronicBilling._checkErrors L operation results)
                (((history ++ pre) ++ _)))
      as [[[[] | e'] |] log].
    + exists (assign "Auth" (VObject Auth) params), log.
      rewrite run_lift. unfold after. simpl. rewrite app_nil_r.
      split; [reflexivity | split].
      * apply lookup_assign.
      * intros k Hk. now apply lookup_assign_other.
    + exists (assign "Auth" (VObject Auth) params), log.
      split; [reflexivity | split].
      * apply lookup_assign.
      * intros k Hk. now apply lookup_assign_other.
    + exists (assign "Auth" (VObject Auth) params), log.
      split; [reflexivity | split].
      * apply lookup_assign.
      * intros k Hk. now apply lookup_assign_other.
  - exists (assign "Auth" (VObject Auth) params), [].
    split; [reflexivity | split].
    + apply lookup_assign.
    + intros k Hk. now apply lookup_assign_other.
Qed.

End MoreGatewayProperties.

(** X12: a FECAESolicitar detail whose Resultado is 'A' raises nothing,
    whatever observations come with it, when the answer has no Errors. *)
Theorem approved_observations_pass results fields dfields Det det Errors :
  get results "FECAESolicitarResult" = Returns (VObject fields) ->
  get (VObject fields) "FeDetResp" = Returns (VObject dfields) ->
  get (VObject dfields) "FECAEDetResponse" = Returns Det ->
  wrapped det Det ->
  get det "Resultado" = Returns (VString "A") ->
  get (VObject fields) "Errors" = Returns Errors ->
  to_boolean Errors = false ->
  exists v,
    ElectronicBilling._checkErrors "FECAESolicitar" results = Returns v
    /\ (v = VObject fields \/ unwrapped (VObject fields) v).
Proof.
  intros Hres HFeDetResp HDet Hdet HResultado HErrors Hfalse.
  assert (Hobs : exists Observaciones,
            get det "Observaciones" = Returns Observaciones).
  { apply get_not_nullish. destruct det; try discriminate; reflexivity. }
  destruct Hobs as [Observaciones HObservaciones].
  assert (Hrejected :
    (if to_boolean Observaciones
     then match get det "Resultado" with
          | Returns Resultado => Returns (negb (strict_eq_string Resultado "A"))
          | Throws e => Throws e
          end
     else Returns false) = Returns false).
  { rewrite HResultado. now destruct (to_boolean Observaciones). }
  unfold ElectronicBilling._checkErrors. cbn -[assign get].
  rewrite Hres, HFeDetResp. cbn -[assign get]. rewrite HDet.
  destruct Hdet as [[-> Hnot] | [rest ->]]; cbn -[assign get].
  - rewrite Hnot, HFeDetResp, HDet, HObservaciones, Hrejected.
    rewrite HErrors, Hfalse. eauto.
  - rewrite !get_assign, HObservaciones, Hrejected.
    assert (HErrors' :
      get (VObject (assign "FeDetResp"
                      (VObject (assign "FECAEDetResponse" det dfields))
                      fields)) "Errors" = Returns Errors).
    { simpl. rewrite lookup_assign_other by discriminate. exact HErrors. }
    rewrite HErrors', Hfalse. eexists. split; [reflexivity |].
    right. exists fields, dfields, (det :: rest).
    repeat split.
    + simpl in HFeDetResp. destruct (lookup "FeDetResp" fields); congruence.
    + simpl in HDet.
      destruct (lookup "FECAEDetResponse" dfields); congruence.
Qed.

(** X13: an answer that does not hold <operation>Result makes
    _checkErrors of wsfe throw the TypeError of reading from undefined,
    and so does an Errors whose Err is an empty array. *)
Theorem malformed_answers_throw operation results :
  (forall r,
     get results (operation ++ "Result") = Returns r ->
     nullish r = true ->
     ElectronicBilling._checkErrors operation results
     = Throws (type_error r (if String.eqb operation "FECAESolicitar"
                             then "FeDetResp" else "Errors")))
  /\ (forall res Errors,
        get results (operation ++ "Result") = Returns res ->
        (String.eqb operation "FECAESolicitar" = false
         \/ exists FeDetResp,
              get res "FeDetResp" = Returns FeDetResp
              /\ to_boolean FeDetResp = false) ->
        get res "Errors" = Returns Errors ->
        to_boolean Errors = true ->
        get Errors "Err" = Returns (VArray []) ->
        ElectronicBilling._checkErrors operation results
        = Throws (type_error VUndefined "Code")).
Proof.
  split.
  - intros r Hres Hnull.
    unfold ElectronicBilling._checkErrors. cbn -[get]. rewrite Hres.
    destruct (String.eqb operation "FECAESolicitar");
      destruct r; try discriminate; reflexivity.
  - intros res Errors Hres Hdetail HErrors Htrue HErr.
    unfold ElectronicBilling._checkErrors. cbn -[get]. rewrite Hres.
    destruct Hdetail as [-> | (FeDetResp & -> & ->)].
    + rewrite HErrors, Htrue, HErr. reflexivity.
    + destruct (String.eqb operation "FECAESolicitar");
        rewrite HErrors, Htrue, HErr; reflexivity.
Qed.

Section ExportCodes.

Context (L : Lib) (W : World) (afip : Options).

Lemma quiet_FEXErr operation results res FEXErr history :
  get results (operation ++ "Result") = Returns res ->
  get res "FEXErr" = Returns FEXErr ->
  (to_boolean FEXErr = false
   \/ exists ErrCode,
        get FEXErr "ErrCode" = Returns ErrCode
        /\ loose_neq_zero L ErrCode = false) ->
  run (ExportElectronicBilling._checkErrors L operation results) history
  = (Some (Returns tt), []).
Proof.
  intros Hres HFEXErr Hquiet.
  unfold ExportElectronicBilling._checkErrors.
  run_step. rewrite Hres. run_step. rewrite HFEXErr. rewrite run_bind.
  destruct Hquiet as [-> | (ErrCode & HCode & Hzero)].
  - rewrite run_ret. reflexivity.
  - destruct (to_boolean FEXErr); [| rewrite run_ret; reflexivity].
    run_step. rewrite HCode, run_ret, Hzero. reflexivity.
Qed.

Lemma logged_FEXErr operation results res FEXErr e ErrCode history :
  get results (operation ++ "Result") = Returns res ->
  export_error res FEXErr e ->
  get e "ErrCode" = Returns ErrCode ->
  number_is_zero (to_number L ErrCode) = true ->
  is_array FEXErr = true \/ ErrCode = VNull ->
  run (ExportElectronicBilling._checkErrors L operation results) history
  = (Some (Returns tt), [ConsoleLog FEXErr]).
Proof.
  intros Hres (HFEXErr & Htrue & Hwrapped) HCode Hzero Hfirst.
  pose proof (first_of_wrapped e FEXErr Hwrapped) as Hunwrap.
  unfold ExportElectronicBilling._checkErrors, console_log.
  run_step. rewrite Hres. run_step. rewrite HFEXErr.
  rewrite run_bind, Htrue.
  assert (Hoffending :
    run (ErrCode <- lift (get FEXErr "ErrCode") ;;
         ret (loose_neq_zero L ErrCode)) ((history ++ []) ++ [])%list
    = (Some (Returns true), [])).
  { run_step. destruct Hfirst as [Harray | ->].
    - destruct FEXErr; try discriminate. reflexivity.
    - destruct Hwrapped as [[Heq _] | [rest Heq]]; rewrite Heq.
      + rewrite HCode. reflexivity.
      + reflexivity. }
  rewrite Hoffending. cbv beta iota.
  run_step. rewrite run_bind.
  assert (Herr :
    forall h, run (if is_array FEXErr then lift (get_index FEXErr 0)
                   else ret FEXErr) h = (Some (Returns e), [])).
  { intros h. destruct (is_array FEXErr);
      [rewrite run_lift | rewrite run_ret]; congruence. }
  rewrite Herr. cbv beta iota.
  run_step. rewrite HCode. cbv beta iota. rewrite Hzero. reflexivity.
Qed.

(** X14: executeRequest of wsfex returns the result when FEXErr is
    missing or its ErrCode is 0, and logs nothing.  When FEXErr is an
    array whose first entry has a code that is 0 as a number, or an
    object whose ErrCode is null, it logs FEXErr and returns the result
    all the same: only the first entry of an array is looked at. *)
Theorem zero_codes_are_no_error
    operation params history results events res FEXErr :
  answered_wsfex L W afip operation params history results events ->
  get results (operation ++ "Result") = Returns res ->
  get res "FEXErr" = Returns FEXErr ->
  ((to_boolean FEXErr = false
    \/ exists ErrCode,
         get FEXErr "ErrCode" = Returns ErrCode
         /\ loose_neq_zero L ErrCode = false) ->
   run (ExportElectronicBilling.executeRequest L W afip operation params)
     history
   = (Some (Returns res), events))
  /\ (forall e ErrCode,
        to_boolean FEXErr = true ->
        wrapped e FEXErr ->
        get e "ErrCode" = Returns ErrCode ->
        number_is_zero (to_number L ErrCode) = true ->
        is_array FEXErr = true \/ ErrCode = VNull ->
        run (ExportElectronicBilling.executeRequest L W afip operation params)
          history
        = (Some (Returns res), (events ++ [ConsoleLog FEXErr])%list)).
Proof.
  intros Hanswered Hres HFEXErr. split.
  - intros Hquiet.
    rewrite (run_executeRequest_wsfex _ _ _ _ _ _ _ _ Hanswered), run_bind.
    rewrite (quiet_FEXErr operation results res FEXErr _ Hres HFEXErr Hquiet).
    rewrite run_lift, Hres. unfold after. simpl. now rewrite !app_nil_r.
  - intros e ErrCode Htrue Hwrapped HCode Hzero Hfirst.
    rewrite (run_executeRequest_wsfex _ _ _ _ _ _ _ _ Hanswered), run_bind.
    rewrite (logged_FEXErr operation results res FEXErr e ErrCode _ Hres)
      by (unfold export_error; auto).
    rewrite run_lift, Hres. unfold after. simpl. now rewrite ?app_nil_r.
Qed.

End ExportCodes.

(* ===================================================================== *)
(** ** The methods above executeRequest *)
(* ===================================================================== *)

Lemma run_lift_returns {A B} (a : A) (k : A -> M B) history :
  run (x <- lift (Returns a) ;; k x) history = run (k a) history.
Proof.
  rewrite run_bind, run_lift. unfold after. rewrite app_nil_r.
  now destruct (run (k a) history).
Qed.

Lemma run_ret_bind {A B} (a : A) (k : A -> M B) history :
  run (x <- ret a ;; k x) history = run (k a) history.
Proof.
  rewrite run_bind, run_ret. unfold after. rewrite app_nil_r.
  now destruct (run (k a) history).
Qed.

Lemma run_bind_returns {A B} (m : M A) (k : A -> M B) history a events :
  run m history = (Some (Returns a), events) ->
  run (x <- m ;; k x) history
  = after events (run (k a) (history ++ events)%list).
Proof. intros H. now rewrite run_bind, H. Qed.

Lemma run_bind_ret {A} (m : M A) history :
  run (x <- m ;; ret x) history = run m history.
Proof.
  rewrite run_bind.
  destruct (run m history) as [[[a | e] |] added]; try reflexivity.
  rewrite run_ret. unfold after. simpl. now rewrite app_nil_r.
Qed.

Lemma after_nil {A} (r : option (completion A) * list event) :
  after [] r = r.
Proof. now destruct r. Qed.

Lemma object_of_property results key fields :
  get results key = Returns (VObject fields) ->
  exists rfields, results = VObject rfields.
Proof.
  destruct results as [| | | | | | rfields | name message];
    try discriminate; [eauto |].
  simpl. destruct (String.eqb key "message"); [discriminate |].
  destruct (String.eqb key "name"); discriminate.
Qed.

Lemma object_of_array results key items :
  get results key = Returns (VArray items) ->
  exists rfields, results = VObject rfields.
Proof.
  destruct results as [| | | | | | rfields | name message];
    try discriminate; [eauto |].
  simpl. destruct (String.eqb key "message"); [discriminate |].
  destruct (String.eqb key "name"); discriminate.
Qed.

Lemma field_delete_other k key fields :
  k <> key -> field (delete key fields) k = field fields k.
Proof. intros H. unfold field. now rewrite lookup_delete_other. Qed.

Lemma field_wrap_other k key inner fields :
  k <> key -> field (wrap key inner fields) k = field fields k.
Proof. intros H. unfold field. now rewrite lookup_wrap_other. Qed.

Lemma field_assign_other k key v fields :
  k <> key -> field (assign key v fields) k = field fields k.
Proof. intros H. unfold field. now rewrite lookup_assign_other. Qed.

Ltac through_wrappers :=
  repeat first
    [ rewrite lookup_wrap_other by discriminate
    | rewrite lookup_wrap
    | rewrite lookup_delete_other by discriminate
    | rewrite lookup_assign_other by discriminate
    | rewrite field_wrap_other by discriminate
    | rewrite field_delete_other by discriminate
    | rewrite field_assign_other by discriminate ].

(** Within 2^53 a sum of integers is the integer sum. *)
Lemma number_add_exact x y :
  Z.abs x < infinity -> Z.abs y < infinity -> Z.abs (x + y) <= 2 ^ 53 ->
  number_add (Num x) (Num y) = Num (x + y).
Proof.
  intros Hx Hy Hsum. unfold number_add, is_infinite.
  destruct (Z.leb_spec infinity (Z.abs x)); [lia |].
  destruct (Z.leb_spec infinity (Z.abs y)); [lia |].
  unfold double_of.
  destruct (Z.leb_spec (Z.abs (x + y)) (2 ^ 53)); [reflexivity | lia].
Qed.

Lemma successor_exact n :
  Z.abs (n + 1) <= 2 ^ 53 -> number_add (Num n) (Num 1) = Num (n + 1).
Proof.
  intros Hsafe.
  assert (Hfar : 2 ^ 53 + 1 < infinity) by (vm_compute; reflexivity).
  apply number_add_exact; lia.
Qed.

Section Vouchers.

Context (L : Lib) (W : World) (afip : Options).

(** X15: when wsfe answers FECompConsultar with an error, 602 (no such
    voucher) included, getVoucherInfo throws the Error of executeRequest:
    that Error has no code property, so the handler that would return
    null for code 602 rethrows it. *)
Theorem service_error_is_rethrown
    number salesPoint type history results res e Code Msg events :
  answered_wsfe L W afip "FECompConsultar"
    [("FeCompConsReq", VObject [("CbteNro", number);
                                ("PtoVta", salesPoint);
                                ("CbteTipo", type)])]
    history results events ->
  get results "FECompConsultarResult" = Returns res ->
  flat_error_list "FECompConsultar" res e ->
  get e "Code" = Returns Code ->
  get e "Msg" = Returns Msg ->
  run (Wsfe.getVoucherInfo L W afip number salesPoint type) history
  = (Some (Throws (VError "Error" (error_text Code Msg))), events).
Proof.
  intros Hanswered Hres Hflat HCode HMsg.
  unfold Wsfe.getVoucherInfo.
  rewrite run_bind, run_catch.
  rewrite (run_executeRequest_wsfe L W afip _ _ _ _ _ Hanswered).
  rewrite (flat_errors_thrown "FECompConsultar" _ _ _ _ _ Hres Hflat HCode
               HMsg).
  cbv beta iota. simpl get. rewrite run_lift_returns.
  simpl strict_eq_number. cbv iota.
  unfold after. simpl. now rewrite app_nil_r.
Qed.

(** X16: a request of getVoucherInfo that fails never gives null.  The
    error is thrown again unless its code is 602; then the handler
    returns null and reading ResultGet of it throws a TypeError. *)
Theorem failed_lookup_throws number salesPoint type history err events :
  run (ElectronicBilling.executeRequest L W afip "FECompConsultar"
         [("FeCompConsReq", VObject [("CbteNro", number);
                                     ("PtoVta", salesPoint);
                                     ("CbteTipo", type)])]) history
  = (Some (Throws err), events) ->
  exists e,
    run (Wsfe.getVoucherInfo L W afip number salesPoint type) history
    = (Some (Throws e), events)
    /\ (forall code,
          get err "code" = Returns code ->
          e = if strict_eq_number code 602
              then type_error VNull "ResultGet" else err).
Proof.
  intros Hrun. unfold Wsfe.getVoucherInfo.
  rewrite run_bind, run_catch, Hrun. cbv beta iota.
  destruct (get err "code") as [code | t] eqn:Hcode.
  - rewrite run_lift_returns.
    destruct (strict_eq_number code 602) eqn:H602.
    + rewrite run_ret. unfold after. simpl. rewrite ?run_lift. simpl.
      rewrite ?app_nil_r. eexists. split; [reflexivity |].
      intros c [= <-]. now rewrite H602.
    + unfold after. simpl. rewrite app_nil_r. eexists.
      split; [reflexivity |]. intros c [= <-]. now rewrite H602.
  - rewrite run_bind, run_lift. unfold after. simpl. rewrite app_nil_r.
    eexists. split; [reflexivity |]. discriminate.
Qed.

(** X17: the request of createVoucher.  The header counts the vouchers
    as CbteHasta - CbteDesde + 1 and carries PtoVta and CbteTipo; the
    detail is the caller's data without CantReg, PtoVta and CbteTipo,
    with each of Tributos, Iva, CbtesAsoc, Compradores and Opcionales
    that is truthy put under its singular name, and everything else as
    the caller gave it. *)
Theorem voucher_request_shape data :
  exists detail,
    Wsfe.voucher_request L data
    = [("FeCAEReq",
        VObject
          [("FeCabReq",
            VObject
              [("CantReg",
                VNumber (number_add
                           (number_sub
                              (to_number L (field data "CbteHasta"))
                              (to_number L (field data "CbteDesde")))
                           (Num 1)));
               ("PtoVta", field data "PtoVta");
               ("CbteTipo", field data "CbteTipo")]);
           ("FeDetReq", VObject [("FECAEDetRequest", VObject detail)])])]
    /\ lookup "CantReg" detail = None
    /\ lookup "PtoVta" detail = None
    /\ lookup "CbteTipo" detail = None
    /\ (forall key inner,
          In (key, inner)
            [("Tributos", "Tributo"); ("Iva", "AlicIva");
             ("CbtesAsoc", "CbteAsoc"); ("Compradores", "Comprador");
             ("Opcionales", "Opcional")] ->
          lookup key detail
          = if to_boolean (field data key)
            then Some (VObject [(inner, field data key)])
            else lookup key data)
    /\ (forall key,
          ~ In key ["CantReg"; "PtoVta"; "CbteTipo"; "Tributos"; "Iva";
                    "CbtesAsoc"; "Compradores"; "Opcionales"] ->
          lookup key detail = lookup key data).
Proof.
  eexists. split; [reflexivity |].
  split; [| split; [| split; [| split]]].
  - through_wrappers. apply lookup_delete.
  - through_wrappers. apply lookup_delete.
  - through_wrappers. apply lookup_delete.
  - intros key inner Hin. simpl in Hin.
    destruct Hin as [[= <- <-] | [[= <- <-] | [[= <- <-] | [[= <- <-] |
                    [[= <- <-] | []]]]]];
      through_wrappers; reflexivity.
  - intros key Hkey.
    rewrite !lookup_wrap_other, !lookup_delete_other;
      trivial; intros ->; apply Hkey; simpl; tauto.
Qed.

(** X18: what createVoucher makes of the result.  With returnResponse
    exactly true it is the result of executeRequest; with anything else
    it is the CAE of the detail and its expiry date with dashes, the
    detail being taken out of an array, and a detail without CAEFchVto
    makes it throw a TypeError after the voucher was requested. *)
Theorem createVoucher_result data history results events :
  run (ElectronicBilling.executeRequest L W afip "FECAESolicitar"
         (Wsfe.voucher_request L data)) history
  = (Some (Returns results), events) ->
  run (Wsfe.createVoucher L W afip data (VBool true)) history
  = (Some (Returns results), events)
  /\ (forall flag dfields Det det CAE date,
        is_true flag = false ->
        get results "FeDetResp" = Returns (VObject dfields) ->
        get (VObject dfields) "FECAEDetResponse" = Returns Det ->
        wrapped det Det ->
        get det "CAE" = Returns CAE ->
        get det "CAEFchVto" = Returns date ->
        run (Wsfe.createVoucher L W afip data flag) history
        = (Some (if nullish date then Throws (type_error date "toString")
                 else Returns
                        (VObject [("CAE", CAE);
                                  ("CAEFchVto",
                                   VString (dashed (to_string date)))])),
           events)).
Proof.
  intros Hrun. split.
  - unfold Wsfe.createVoucher. rewrite (run_bind_returns _ _ _ _ _ Hrun).
    simpl is_true. cbv iota. rewrite run_ret. unfold after. simpl.
    now rewrite app_nil_r.
  - intros flag dfields Det det CAE date Hflag HFeDetResp HDet Hdet HCAE Hdate.
    destruct (object_of_property _ _ _ HFeDetResp) as [rfields ->].
    unfold Wsfe.createVoucher. rewrite (run_bind_returns _ _ _ _ _ Hrun).
    rewrite Hflag. cbv iota.
    rewrite HFeDetResp, run_lift_returns, HDet, run_lift_returns.
    assert (Hsummary :
      forall results' h,
        get results' "FeDetResp" = Returns (VObject
                                             (assign "FECAEDetResponse" det
                                                dfields))
        \/ (get results' "FeDetResp" = Returns (VObject dfields)
            /\ Det = det) ->
        run (FeDetResp <- lift (get results' "FeDetResp") ;;
             FECAEDetResponse <- lift (get FeDetResp "FECAEDetResponse") ;;
             CAE <- lift (get FECAEDetResponse "CAE") ;;
             FeDetResp <- lift (get results' "FeDetResp") ;;
             FECAEDetResponse <- lift (get FeDetResp "FECAEDetResponse") ;;
             CAEFchVto <- lift (get FECAEDetResponse "CAEFchVto") ;;
             CAEFchVto <- lift (formatDate CAEFchVto) ;;
             ret (VObject [("CAE", CAE); ("CAEFchVto", VString CAEFchVto)]))
          h
        = (Some (if nullish date then Throws (type_error date "toString")
                 else Returns
                        (VObject [("CAE", CAE);
                                  ("CAEFchVto",
                                   VString (dashed (to_string date)))])),
           [])).
    { intros results' h [Hget | [Hget Heq]];
        [| rewrite Heq in HDet];
        repeat first [ rewrite run_lift_returns | rewrite Hget
                     | rewrite get_assign | rewrite HDet
                     | rewrite HCAE | rewrite Hdate ];
        unfold formatDate; destruct (nullish date);
        solve [ now rewrite run_bind, run_lift
              | now rewrite run_lift_returns, run_ret ]. }
    destruct Hdet as [[-> Hnot] | [rest ->]].
    + rewrite Hnot, run_ret_bind, Hsummary by (right; auto).
      unfold after. simpl. now rewrite app_nil_r.
    + simpl is_array. cbv iota. rewrite run_bind.
      rewrite run_lift_returns, HDet, run_lift_returns.
      simpl get_index. rewrite run_lift_returns.
      simpl set. rewrite run_lift_returns, run_lift.
      cbv beta iota. rewrite after_nil, Hsummary.
      * unfold after. simpl. now rewrite app_nil_r.
      * left. apply get_assign.
Qed.

(** X19: createNextVoucher numbers the voucher lastVoucher + 1.  When
    the service gives a number n and n + 1 is at most 2^53 in size, that
    is n + 1; from 2^53 on the sum is rounded to a double, and at 2^53
    itself the number does not advance.  When the service gives a string
    it is the string with a 1 appended.  The number goes into CbteDesde
    and CbteHasta of the data and comes back as voucherNumber beside what
    createVoucher gives. *)
Theorem next_voucher_number data history res last events summary events' :
  run (ElectronicBilling.executeRequest L W afip "FECompUltimoAutorizado"
         [("PtoVta", field data "PtoVta");
          ("CbteTipo", field data "CbteTipo")]) history
  = (Some (Returns res), events) ->
  get res "CbteNro" = Returns last ->
  let voucherNumber := js_add L last (VNumber (Num 1)) in
  run (Wsfe.createVoucher L W afip
         (assign "CbteHasta" voucherNumber
            (assign "CbteDesde" voucherNumber data))
         (VBool false)) (history ++ events)
  = (Some (Returns (VObject summary)), events') ->
  run (Wsfe.createNextVoucher L W afip data) history
  = (Some (Returns (VObject (assign "voucherNumber" voucherNumber summary))),
     (events ++ events')%list)
  /\ (forall n, last = VNumber (Num n) -> Z.abs (n + 1) <= 2 ^ 53 ->
                voucherNumber = VNumber (Num (n + 1)))
  /\ (last = VNumber (Num (2 ^ 53)) -> voucherNumber = VNumber (Num (2 ^ 53)))
  /\ (forall s, last = VString s -> voucherNumber = VString (s ++ "1")).
Proof.
  intros Hlast HCbteNro voucherNumber Hcreate. split; [| split; [| split]].
  - assert (Hnumber :
      run (Wsfe.getLastVoucher L W afip (field data "PtoVta")
             (field data "CbteTipo")) history
      = (Some (Returns last), events)).
    { unfold Wsfe.getLastVoucher.
      rewrite (run_bind_returns _ _ _ _ _ Hlast), HCbteNro, run_lift.
      unfold after. simpl. now rewrite app_nil_r. }
    unfold Wsfe.createNextVoucher.
    rewrite (run_bind_returns _ _ _ _ _ Hnumber). cbv zeta.
    fold voucherNumber.
    rewrite (run_bind_returns _ _ _ _ _ Hcreate), run_lift.
    unfold after. simpl. now rewrite app_nil_r.
  - intros n Hn Hsafe. unfold voucherNumber. rewrite Hn.
    change (js_add L (VNumber (Num n)) (VNumber (Num 1)))
      with (VNumber (number_add (Num n) (Num 1))).
    now rewrite successor_exact.
  - intros Hn. unfold voucherNumber. rewrite Hn. reflexivity.
  - intros s Hs. unfold voucherNumber. rewrite Hs. reflexivity.
Qed.

(** X20: the Id of an export voucher is the last id of the service plus
    one as numbers, which is the next integer as long as it is at most
    2^53 in size, whatever Id the caller's data had; the Cmp of the
    FEXAuthorize request is the data with that Id, with each of
    Permisos, Cmps_asoc, Items and Opcionales that is truthy put under
    its singular name and everything else as the caller gave it. *)
Theorem export_voucher_id data history lastId n events :
  run (Wsfex.getLastId L W afip) history = (Some (Returns lastId), events) ->
  to_number L lastId = Num n ->
  Z.abs (n + 1) <= 2 ^ 53 ->
  exists cmp,
    run (Wsfex.createVoucher L W afip data (VBool true)) history
    = after events
        (run (ExportElectronicBilling.executeRequest L W afip "FEXAuthorize"
                [("Cmp", VObject cmp)]) (history ++ events)%list)
    /\ lookup "Id" cmp = Some (VNumber (Num (n + 1)))
    /\ (forall key inner,
          In (key, inner)
            [("Permisos", "Permiso"); ("Cmps_asoc", "Cmp_asoc");
             ("Items", "Item"); ("Opcionales", "Opcional")] ->
          lookup key cmp
          = if to_boolean (field data key)
            then Some (VObject [(inner, field data key)])
            else lookup key data)
    /\ (forall key,
          ~ In key ["Id"; "Permisos"; "Cmps_asoc"; "Items"; "Opcionales"] ->
          lookup key cmp = lookup key data).
Proof.
  intros Hid Hn Hsafe.
  exists (Wsfex.voucher_cmp (VNumber (Num (n + 1))) data).
  split; [| split; [| split]].
  - unfold Wsfex.createVoucher. rewrite (run_bind_returns _ _ _ _ _ Hid).
    rewrite Hn, successor_exact by exact Hsafe. simpl is_true. cbv iota.
    now rewrite run_bind_ret.
  - unfold Wsfex.voucher_cmp. through_wrappers. apply lookup_assign.
  - intros key inner Hin. simpl in Hin. unfold Wsfex.voucher_cmp.
    destruct Hin as [[= <- <-] | [[= <- <-] | [[= <- <-] | [[= <- <-] |
                    []]]]];
      through_wrappers; reflexivity.
  - intros key Hkey. unfold Wsfex.voucher_cmp.
    rewrite !lookup_wrap_other, lookup_assign_other;
      trivial; intros ->; apply Hkey; simpl; tauto.
Qed.

(** X21: createNextVoucher of wsfex asks for the last voucher, then for
    the last id, then authorises; it returns the Cae, its expiry date
    with dashes and voucherNumber = lastVoucher + 1.  That number goes
    into CbteDesde and CbteHasta of the Cmp; Cbte_nro stays what the
    caller gave. *)
Theorem export_next_voucher
    data history last ev1 lastId ev2 results ev3 auth Auth Cae date :
  run (Wsfex.getLastVoucher L W afip (field data "Punto_vta")
         (field data "Cbte_Tipo")) history
  = (Some (Returns last), ev1) ->
  let voucherNumber := js_add L last (VNumber (Num 1)) in
  let numbered :=
    assign "CbteHasta" voucherNumber
      (assign "CbteDesde" voucherNumber data) in
  run (Wsfex.getLastId L W afip) (history ++ ev1)
  = (Some (Returns lastId), ev2) ->
  let cmp :=
    Wsfex.voucher_cmp
      (VNumber (number_add (to_number L lastId) (Num 1))) numbered in
  run (ExportElectronicBilling.executeRequest L W afip "FEXAuthorize"
         [("Cmp", VObject cmp)]) ((history ++ ev1) ++ ev2)
  = (Some (Returns results), ev3) ->
  get results "FEXResultAuth" = Returns Auth ->
  wrapped auth Auth ->
  get auth "Cae" = Returns Cae ->
  get auth "Fch_venc_Cae" = Returns date ->
  nullish date = false ->
  run (Wsfex.createNextVoucher L W afip data) history
  = (Some (Returns
             (VObject [("CAE", Cae);
                       ("CAEFchVto", VString (dashed (to_string date)));
                       ("voucherNumber", voucherNumber)])),
     (ev1 ++ ev2 ++ ev3)%list)
  /\ lookup "Cbte_nro" cmp = lookup "Cbte_nro" data
  /\ lookup "CbteDesde" cmp = Some voucherNumber
  /\ lookup "CbteHasta" cmp = Some voucherNumber.
Proof.
  intros Hlast voucherNumber numbered Hid cmp Hrun HAuth Hauth HCae Hdate
    Hnullish.
  split; [| split; [| split]].
  - unfold Wsfex.createNextVoucher.
    rewrite (run_bind_returns _ _ _ _ _ Hlast).
    fold voucherNumber. fold numbered.
    rewrite run_bind. unfold Wsfex.createVoucher.
    rewrite (run_bind_returns _ _ _ _ _ Hid).
    fold cmp. rewrite (run_bind_returns _ _ _ _ _ Hrun).
    simpl is_true. cbv iota.
    rewrite HAuth, run_lift_returns.
    assert (Hsummary :
      forall results' h,
        get results' "FEXResultAuth" = Returns auth ->
        run (FEXResultAuth <- lift (get results' "FEXResultAuth") ;;
             Cae <- lift (get FEXResultAuth "Cae") ;;
             FEXResultAuth <- lift (get results' "FEXResultAuth") ;;
             Fch_venc_Cae <- lift (get FEXResultAuth "Fch_venc_Cae") ;;
             CAEFchVto <- lift (formatDate Fch_venc_Cae) ;;
             ret (VObject [("CAE", Cae); ("CAEFchVto", VString CAEFchVto)]))
          h
        = (Some (Returns
                   (VObject [("CAE", Cae);
                             ("CAEFchVto",
                              VString (dashed (to_string date)))])), [])).
    { intros results' h Hget.
      repeat first [ rewrite run_lift_returns | rewrite Hget
                   | rewrite HCae | rewrite Hdate ].
      unfold formatDate. rewrite Hnullish.
      now rewrite run_lift_returns, run_ret. }
    destruct Hauth as [[-> Hnot] | [rest ->]].
    + rewrite Hnot, run_ret_bind, Hsummary by assumption.
      unfold after. simpl. rewrite ?run_lift. simpl.
      now rewrite ?app_nil_r, <- ?app_assoc.
    + destruct (object_of_array _ _ _ HAuth) as [rfields ->].
      simpl is_array. cbv iota. rewrite run_bind.
      rewrite run_lift_returns. simpl get_index.
      rewrite run_lift_returns. simpl set. rewrite run_lift.
      cbv beta iota. rewrite after_nil, Hsummary by apply get_assign.
      unfold after. simpl. rewrite ?run_lift. simpl.
      now rewrite ?app_nil_r, <- ?app_assoc.
  - unfold cmp, numbered, Wsfex.voucher_cmp. now through_wrappers.
  - unfold cmp, numbered, Wsfex.voucher_cmp. through_wrappers.
    apply lookup_assign.
  - unfold cmp, numbered, Wsfex.voucher_cmp. through_wrappers.
    apply lookup_assign.
Qed.

(** X22: a parameter method of wsfe (getSalesPoints, getVoucherTypes,
    getConceptTypes, getDocumentTypes, getAliquotTypes,
    getCurrenciesTypes, getOptionsTypes, getTaxTypes) returns the named
    field of ResultGet when the answer has no Errors, and throws the
    TypeError of reading from undefined when the answer has no
    ResultGet. *)
Theorem wsfe_listing
    operation name history results res Errors ResultGet events :
  answered_wsfe L W afip operation [] history results events ->
  operation <> "FECAESolicitar" ->
  get results (operation ++ "Result") = Returns res ->
  get res "Errors" = Returns Errors ->
  to_boolean Errors = false ->
  get res "ResultGet" = Returns ResultGet ->
  run (Wsfe.listing L W afip operation name) history
  = (Some (if nullish ResultGet then Throws (type_error ResultGet name)
           else get ResultGet name), events).
Proof.
  intros Hanswered Hop Hres HErrors Hfalse HResultGet.
  unfold Wsfe.listing.
  rewrite run_bind, (run_executeRequest_wsfe L W afip _ _ _ _ _ Hanswered).
  assert (Hcheck :
    ElectronicBilling._checkErrors operation results = Returns res).
  { unfold ElectronicBilling._checkErrors. cbn -[get]. rewrite Hres.
    destruct (String.eqb_spec operation "FECAESolicitar"); [contradiction |].
    now rewrite HErrors, Hfalse. }
  rewrite Hcheck. cbv beta iota.
  rewrite HResultGet, run_lift_returns, run_lift.
  unfold after. simpl. rewrite app_nil_r.
  now destruct ResultGet.
Qed.

(** X23: a parameter method of wsfex (getCurrencies, getExportTypes,
    getUnits, getLanguage, getCountries, getIncoterms,
    getCUITsOfCountries, getOptionsTypes, getsVoucherTypes,
    getActivities) returns the named field of FEXResultGet when FEXErr is
    missing or has code 0, and throws the TypeError of reading from
    undefined when the answer has no FEXResultGet. *)
Theorem wsfex_listing
    operation name history results res FEXErr FEXResultGet events :
  answered_wsfex L W afip operation [] history results events ->
  get results (operation ++ "Result") = Returns res ->
  get res "FEXErr" = Returns FEXErr ->
  (to_boolean FEXErr = false
   \/ exists ErrCode,
        get FEXErr "ErrCode" = Returns ErrCode
        /\ loose_neq_zero L ErrCode = false) ->
  get res "FEXResultGet" = Returns FEXResultGet ->
  run (Wsfex.listing L W afip operation name) history
  = (Some (if nullish FEXResultGet
           then Throws (type_error FEXResultGet name)
           else get FEXResultGet name), events).
Proof.
  intros Hanswered Hres HFEXErr Hquiet HResultGet.
  assert (Hrequest :
    run (ExportElectronicBilling.executeRequest L W afip operation []) history
    = (Some (Returns res), events)).
  { rewrite (run_executeRequest_wsfex L W afip _ _ _ _ _ Hanswered), run_bind.
    rewrite (quiet_FEXErr L operation results res FEXErr _ Hres HFEXErr
               Hquiet).
    rewrite run_lift, Hres. unfold after. simpl. now rewrite !app_nil_r. }
  unfold Wsfex.listing.
  rewrite (run_bind_returns _ _ _ _ _ Hrequest).
  rewrite HResultGet, run_lift_returns, run_lift.
  unfold after. simpl. rewrite ?app_nil_r.
  now destruct FEXResultGet.
Qed.

(** X24: the catch of getQuoteCurrency and of
    verifyPermissionExistenceCountryById, whose handler throws what it
    caught, changes nothing: both behave as the request followed by the
    reading of FEXResultGet. *)
Theorem rethrowing_catch_is_transparent history :
  (forall moneyId,
     run (Wsfex.getQuoteCurrency L W afip moneyId) history
     = run (result <- ExportElectronicBilling.executeRequest L W afip
                        "FEXGetPARAM_Ctz" [("Mon_id", moneyId)] ;;
            lift (get result "FEXResultGet")) history)
  /\ (forall permissionId countryId,
        run (Wsfex.verifyPermissionExistenceCountryById L W afip
               permissionId countryId) history
        = run (result <- ExportElectronicBilling.executeRequest L W afip
                           "FEXCheck_Permiso"
                           [("ID_Permiso", permissionId);
                            ("Dst_merc", countryId)] ;;
               lift (get result "FEXResultGet")) history).
Proof.
  assert (Hcatch :
    forall (m : M value) h,
      run (catch m (fun err => raise err)) h = run m h).
  { intros m h. rewrite run_catch.
    destruct (run m h) as [[[a | e] |] added]; try reflexivity.
    unfold after. simpl. now rewrite app_nil_r. }
  split; intros;
    unfold Wsfex.getQuoteCurrency, Wsfex.verifyPermissionExistenceCountryById;
    now rewrite !run_bind, Hcatch.
Qed.

End Vouchers.

(* ===================================================================== *)
(** ** The further properties at work *)
(* ===================================================================== *)

Module Desk.

Import Scenario Office.

Local Abbreviation wsfe_key := "TA-20111111112-wsfe.json".
Local Abbreviation wsfex_key := "TA-20111111112-wsfex.json".

Local Abbreviation reading :=
  [GetObject S3Connection.bucket wsfe_key;
   ConsoleLog no_such_key; ConsoleLog no_such_key].

Local Abbreviation issuing :=
  [DateNow; FsReadFile "/Afip_res/cert"; FsReadFile "/Afip_res/key";
   DateNow;
   SoapCreateClient "/Afip_res/wsaa.wsdl"
     "https://wsaahomo.afip.gov.ar/ws/services/LoginCms";
   LoginCms "CMS wsfe"].

Local Abbreviation auth :=
  (VObject [("Token", VString "T1"); ("Sign", VString "S1");
            ("Cuit", VNumber (Num 20111111112))]).

Local Abbreviation enoent :=
  (VError "Error" "ENOENT: no such file or directory").

Local Abbreviation T1 := {| token := VString "T1"; sign := VString "S1" |}.

Lemma formatDate_adds_dashes_witness :
  exists text,
    formatDate (VString "20261111") = Returns text
    /\ undashed text = "20261111"
    /\ (text = "20261111" \/ String.length text = 10%nat).
Proof.
  apply (formatDate_adds_dashes (VString "20261111")). reflexivity.
Defined.

Lemma formatDate_of_a_date_witness :
  formatDate (VString "20261111T000000") = Returns "2026-11-11T000000"
  /\ formatDate (VString "2026-11-11") = Returns "2026-11-11".
Proof.
  apply (formatDate_of_a_date "2026" "11" "11" "T000000"); reflexivity.
Defined.

Lemma refreshed_ticket_is_returned_witness :
  let W := world noon absent (login "<fresh/>") no_answer in
  run (GetServiceTA lib W afip "wsfe" true) []
  = (Some (Returns T1),
     (reading ++ issuing
        ++ [PutObject S3Connection.bucket wsfe_key (Some "fresh.json");
            GetObject S3Connection.bucket wsfe_key; DateNow])%list).
Proof.
  intros W.
  apply (refreshed_ticket_is_returned lib W afip "wsfe" [] VNull reading []
           (issuing
              ++ [PutObject S3Connection.bucket wsfe_key
                    (Some "fresh.json")])%list
           fresh [GetObject S3Connection.bucket wsfe_key]
           (VArray [VObject [("version", VString "1.0")];
                    VObject [("source", VString "CN=wsaa");
                             ("expirationtime",
                              VString "2026-11-02T00:00:00.000Z")]])
           (VObject [("source", VString "CN=wsaa");
                     ("expirationtime", VString "2026-11-02T00:00:00.000Z")])
           (VString "2026-11-02T00:00:00.000Z") (noon + 43200000)
           (VObject [("token", VString "T1"); ("sign", VString "S1")])
           (VString "T1") (VString "S1"));
    try reflexivity.
  vm_compute; discriminate.
Defined.

Lemma failed_issuance_is_reported_witness :
  let W := keyless (world noon absent (login "<fresh/>") no_answer) afip in
  run (GetServiceTA lib W afip "wsfe" true) []
  = (Some (Throws
             (VError "Error"
                "Error getting Token Autorization Error: ENOENT: no such file or directory")),
     (reading ++ [DateNow; FsReadFile "/Afip_res/cert";
                  FsReadFile "/Afip_res/key"])%list).
Proof.
  intros W.
  apply (failed_issuance_is_reported lib W afip "wsfe" [] VNull reading []
           enoent
           [DateNow; FsReadFile "/Afip_res/cert";
            FsReadFile "/Afip_res/key"]);
    reflexivity.
Defined.

Lemma credential_failure_stays_local_witness :
  let W := keyless (world noon absent (login "<fresh/>") no_answer) afip in
  fst (run (CreateServiceTA lib W afip "wsfe") []) = Some (Throws enoent)
  /\ cost network (snd (run (CreateServiceTA lib W afip "wsfe") []))
     = 0%nat.
Proof.
  intros W.
  apply (credential_failure_stays_local lib W afip "wsfe" [] enoent).
  right. left. split; [eexists |]; reflexivity.
Defined.

Lemma missing_credentials_throw_witness :
  let W := world noon (holding "headless.json") (login "<fresh/>")
             no_answer in
  run (GetServiceTA lib W afip "wsfe" true) []
  = (Some (Throws (type_error VUndefined "token")),
     [GetObject S3Connection.bucket wsfe_key; DateNow]).
Proof.
  intros W.
  apply (missing_credentials_throw lib W afip "wsfe" true [] headless
           [GetObject S3Connection.bucket wsfe_key] (noon + 43200000)
           VUndefined);
    try reflexivity.
  vm_compute; discriminate.
Defined.

Lemma empty_body_is_absence_witness :
  let W := world noon (holding "") (login "<fresh/>") no_answer in
  run (read_ticket afip (S3Connection.readFileS3 lib W) "wsfe") []
  = (Some (Returns VNull), [GetObject S3Connection.bucket wsfe_key])
  /\ run (GetServiceTA lib W afip "wsfe" true) []
     = after [GetObject S3Connection.bucket wsfe_key]
         (run (refresh lib W afip (GetServiceTA lib W afip) "wsfe" true)
            [GetObject S3Connection.bucket wsfe_key]).
Proof.
  intros W.
  apply (empty_body_is_absence lib W afip "wsfe" []). reflexivity.
Defined.

Lemma readFileS3_tells_absence_witness :
  let W := world noon absent (login "<fresh/>") no_answer in
  run (S3Connection_part_000.readFileS3 lib W "afip-tickets" "homo/"
         "TA-20111111112-wsfe.json") []
  = (Some (Returns VUndefined),
     [GetObject "afip-tickets" "homo/TA-20111111112-wsfe.json"]).
Proof.
  intros W.
  apply (readFileS3_tells_absence lib W "afip-tickets" "homo/"
           "TA-20111111112-wsfe.json" [] no_such_key (VString "NoSuchKey"));
    reflexivity.
Defined.

Lemma no_operation_without_ticket_witness :
  let W := keyless (world noon absent (login "<fresh/>") no_answer) afip in
  let thrown :=
    VError "Error"
      "Error getting Token Autorization Error: ENOENT: no such file or directory" in
  let events :=
    (reading ++ [DateNow; FsReadFile "/Afip_res/cert";
                 FsReadFile "/Afip_res/key"])%list in
  run (ElectronicBilling.executeRequest lib W afip "FECompUltimoAutorizado"
         []) []
  = (Some (Throws thrown), events)
  /\ cost operations events = 0%nat.
Proof.
  intros W thrown events.
  apply (proj1 (no_operation_without_ticket lib W afip
                  "FECompUltimoAutorizado" [] [] thrown events eq_refl)).
  reflexivity.
Defined.

Lemma wsfe_request_carries_ticket_witness :
  let params := [("PtoVta", VNumber (Num 1));
                 ("CbteTipo", VNumber (Num 6))] in
  exists sent,
    snd (run (ElectronicBilling.executeRequest lib open afip
                "FECompUltimoAutorizado" params) [])
    = [GetObject S3Connection.bucket wsfe_key; DateNow;
       SoapOperation "wsfe" "FECompUltimoAutorizado" (VObject sent)]
    /\ lookup "Auth" sent = Some auth
    /\ forall k, k <> "Auth" -> lookup k sent = lookup k params.
Proof.
  intros params.
  apply (wsfe_request_carries_ticket lib open afip "FECompUltimoAutorizado"
           params [] T1 [GetObject S3Connection.bucket wsfe_key; DateNow]);
    reflexivity.
Defined.

Lemma wsfex_request_carries_ticket_witness :
  let params := [("Pto_venta", VNumber (Num 3));
                 ("Cbte_Tipo", VNumber (Num 19))] in
  exists sent log,
    snd (run (ExportElectronicBilling.executeRequest lib open afip
                "FEXGetLast_CMP" params) [])
    = ([GetObject S3Connection.bucket wsfex_key; DateNow]
         ++ SoapOperation "wsfex" "FEXGetLast_CMP" (VObject sent) :: log)%list
    /\ lookup "Auth" sent
       = Some (VObject [("Token", VString "T1"); ("Sign", VString "S1");
                        ("Cuit", VNumber (Num 20111111112));
                        ("Pto_venta", VNumber (Num 3));
                        ("Cbte_Tipo", VNumber (Num 19))])
    /\ forall k, k <> "Auth" -> lookup k sent = lookup k params.
Proof.
  intros params.
  apply (wsfex_request_carries_ticket lib open afip "FEXGetLast_CMP"
           params [] T1 [GetObject S3Connection.bucket wsfex_key; DateNow]);
    reflexivity.
Defined.

Lemma approved_observations_pass_witness :
  let res := solicitar (VArray [observed_detail]) in
  exists v,
    ElectronicBilling._checkErrors "FECAESolicitar"
      (answers "FECAESolicitar") = Returns v
    /\ (v = res \/ unwrapped res v).
Proof.
  intros res.
  eapply (approved_observations_pass (answers "FECAESolicitar") _ _ _
            observed_detail VUndefined);
    try reflexivity.
  right. exists []. reflexivity.
Defined.

Lemma malformed_answers_throw_witness :
  ElectronicBilling._checkErrors "FEParamGetTiposIva" (VObject [])
  = Throws (type_error VUndefined "Errors")
  /\ ElectronicBilling._checkErrors "FEParamGetTiposIva"
       (result "FEParamGetTiposIva"
          [("Errors", VObject [("Err", VArray [])])])
     = Throws (type_error VUndefined "Code").
Proof.
  split.
  - apply (proj1 (malformed_answers_throw "FEParamGetTiposIva" (VObject []))
             VUndefined); reflexivity.
  - apply (proj2 (malformed_answers_throw "FEParamGetTiposIva"
                    (result "FEParamGetTiposIva"
                       [("Errors", VObject [("Err", VArray [])])]))
             (VObject [("Errors", VObject [("Err", VArray [])])])
             (VObject [("Err", VArray [])]));
      try reflexivity.
    left. reflexivity.
Defined.

Lemma zero_codes_are_no_error_witness :
  let params := [("ID_Permiso", VString "16052IC04000605L");
                 ("Dst_merc", VNumber (Num 203))] in
  run (ExportElectronicBilling.executeRequest lib open afip
         "FEXCheck_Permiso" params) []
  = (Some (Returns (VObject permission)),
     [GetObject S3Connection.bucket wsfex_key; DateNow;
      SoapOperation "wsfex" "FEXCheck_Permiso"
        (VObject (params ++ [("Auth", auth)])%list);
      ConsoleLog (VArray [no_error; export_entry])]).
Proof.
  intros params.
  apply (proj2 (zero_codes_are_no_error lib open afip "FEXCheck_Permiso"
                  params [] (answers "FEXCheck_Permiso")
                  [GetObject S3Connection.bucket wsfex_key; DateNow;
                   SoapOperation "wsfex" "FEXCheck_Permiso"
                     (VObject (params ++ [("Auth", auth)])%list)]
                  (VObject permission) (VArray [no_error; export_entry])
                  ltac:(eexists; eexists; repeat split; reflexivity)
                  eq_refl eq_refl)
           no_error (VNumber (Num 0)));
    try reflexivity.
  - right. exists [export_entry]. reflexivity.
  - left. reflexivity.
Defined.

Lemma service_error_is_rethrown_witness :
  run (Wsfe.getVoucherInfo lib open afip (VNumber (Num 99))
         (VNumber (Num 1)) (VNumber (Num 6))) []
  = (Some (Throws (VError "Error"
                     "(602) No existen datos en nuestros registros")),
     [GetObject S3Connection.bucket wsfe_key; DateNow;
      SoapOperation "wsfe" "FECompConsultar"
        (VObject [("FeCompConsReq",
                   VObject [("CbteNro", VNumber (Num 99));
                            ("PtoVta", VNumber (Num 1));
                            ("CbteTipo", VNumber (Num 6))]);
                  ("Auth", auth)])]).
Proof.
  apply (service_error_is_rethrown lib open afip (VNumber (Num 99))
           (VNumber (Num 1)) (VNumber (Num 6)) []
           (answers "FECompConsultar")
           (VObject [("Errors", VObject [("Err", VArray [no_voucher])])])
           no_voucher (VNumber (Num 602))
           (VString "No existen datos en nuestros registros"));
    try reflexivity.
  - eexists. eexists. repeat split; reflexivity.
  - split; [left; reflexivity |].
    eexists. eexists. repeat split; try reflexivity.
    right. exists []. reflexivity.
Defined.

Lemma failed_lookup_throws_witness :
  let err := VObject [("code", VNumber (Num 602))] in
  let W := unreachable open err in
  exists e,
    run (Wsfe.getVoucherInfo lib W afip (VNumber (Num 99))
           (VNumber (Num 1)) (VNumber (Num 6))) []
    = (Some (Throws e),
       [GetObject S3Connection.bucket wsfe_key; DateNow;
        SoapOperation "wsfe" "FECompConsultar"
          (VObject [("FeCompConsReq",
                     VObject [("CbteNro", VNumber (Num 99));
                              ("PtoVta", VNumber (Num 1));
                              ("CbteTipo", VNumber (Num 6))]);
                    ("Auth", auth)])])
    /\ (forall code,
          get err "code" = Returns code ->
          e = if strict_eq_number code 602
              then type_error VNull "ResultGet" else err).
Proof.
  intros err W.
  apply (failed_lookup_throws lib W afip (VNumber (Num 99))
           (VNumber (Num 1)) (VNumber (Num 6)) [] err).
  reflexivity.
Defined.

Lemma createVoucher_result_witness :
  let sent :=
    snd (run (ElectronicBilling.executeRequest lib open afip
                "FECAESolicitar" (Wsfe.voucher_request lib invoice)) []) in
  run (Wsfe.createVoucher lib open afip invoice (VBool true)) []
  = (Some (Returns (solicitar observed_detail)), sent)
  /\ run (Wsfe.createVoucher lib open afip invoice (VNumber (Num 1))) []
     = (Some (Returns (VObject [("CAE", VString "74123456789012");
                                ("CAEFchVto", VString "2026-11-11")])),
        sent).
Proof.
  intros sent.
  destruct (createVoucher_result lib open afip invoice []
              (solicitar observed_detail) sent eq_refl) as [Hfull Hsummary].
  split; [exact Hfull |].
  eapply (Hsummary (VNumber (Num 1)) _ observed_detail observed_detail
            (VString "74123456789012") (VString "20261111"));
    try reflexivity.
  left. split; reflexivity.
Defined.

Lemma next_voucher_number_witness :
  fst (run (Wsfe.createNextVoucher lib open afip invoice) [])
  = Some (Returns (VObject [("CAE", VString "74123456789012");
                            ("CAEFchVto", VString "2026-11-11");
                            ("voucherNumber", VNumber (Num 42))])).
Proof.
  edestruct (next_voucher_number lib open afip invoice []) as [Hrun _];
    [reflexivity | reflexivity | reflexivity |].
  rewrite Hrun. reflexivity.
Defined.

Lemma export_voucher_id_witness :
  let events :=
    [GetObject S3Connection.bucket wsfex_key; DateNow;
     SoapOperation "wsfex" "FEXGetLast_ID" (VObject [("Auth", auth)])] in
  exists cmp,
    run (Wsfex.createVoucher lib open afip export_invoice (VBool true)) []
    = after events
        (run (ExportElectronicBilling.executeRequest lib open afip
                "FEXAuthorize" [("Cmp", VObject cmp)]) events)
    /\ lookup "Id" cmp = Some (VNumber (Num 42))
    /\ (forall key inner,
          In (key, inner)
            [("Permisos", "Permiso"); ("Cmps_asoc", "Cmp_asoc");
             ("Items", "Item"); ("Opcionales", "Opcional")] ->
          lookup key cmp
          = if to_boolean (field export_invoice key)
            then Some (VObject [(inner, field export_invoice key)])
            else lookup key export_invoice)
    /\ (forall key,
          ~ In key ["Id"; "Permisos"; "Cmps_asoc"; "Items"; "Opcionales"] ->
          lookup key cmp = lookup key export_invoice).
Proof.
  intros events.
  apply (export_voucher_id lib open afip export_invoice [] (VString "41") 41
           events);
    try reflexivity.
  vm_compute; discriminate.
Defined.

Lemma export_next_voucher_witness :
  fst (run (Wsfex.createNextVoucher lib open afip export_invoice) [])
  = Some (Returns (VObject [("CAE", VString "74123456789012");
                            ("CAEFchVto", VString "2026-11-11");
                            ("voucherNumber", VNumber (Num 8))])).
Proof.
  edestruct (export_next_voucher lib open afip export_invoice [])
    with (auth := authorized) as [Hrun _];
    [reflexivity | reflexivity | reflexivity | reflexivity
    | left; split; reflexivity | reflexivity | reflexivity | reflexivity |].
  rewrite Hrun. reflexivity.
Defined.

Lemma wsfe_listing_witness :
  run (Wsfe.getVoucherTypes lib open afip) []
  = (Some (Returns voucher_types),
     [GetObject S3Connection.bucket wsfe_key; DateNow;
      SoapOperation "wsfe" "FEParamGetTiposCbte" (VObject [("Auth", auth)])]).
Proof.
  apply (wsfe_listing lib open afip "FEParamGetTiposCbte" "CbteTipo" []
           (answers "FEParamGetTiposCbte")
           (VObject [("ResultGet", VObject [("CbteTipo", voucher_types)])])
           VUndefined (VObject [("CbteTipo", voucher_types)]));
    try reflexivity.
  - eexists. eexists. repeat split; reflexivity.
  - discriminate.
Defined.

Lemma wsfex_listing_witness :
  run (Wsfex.getCurrencies lib open afip) []
  = (Some (Returns currencies),
     [GetObject S3Connection.bucket wsfex_key; DateNow;
      SoapOperation "wsfex" "FEXGetPARAM_MON" (VObject [("Auth", auth)])]).
Proof.
  apply (wsfex_listing lib open afip "FEXGetPARAM_MON" "ClsFEXResponse_Mon"
           [] (answers "FEXGetPARAM_MON")
           (VObject [("FEXResultGet",
                      VObject [("ClsFEXResponse_Mon", currencies)]);
                     ("FEXErr", no_error)])
           no_error (VObject [("ClsFEXResponse_Mon", currencies)]));
    try reflexivity.
  - eexists. eexists. repeat split; reflexivity.
  - right. exists (VNumber (Num 0)). split; reflexivity.
Defined.

End Desk.
